(** * Restart monitor of the key portal (key-portal/app.py)

    A shallow embedding of the restart-detection and snapshot-recovery code of
    [key-portal/app.py]: the module-level dictionary [_cliproxy_state], the
    functions [call_management_api], [import_cliproxy_snapshot],
    [detect_cliproxy_restart] and [broadcast_usage_update].

    Modelling conventions.
    - Python integers are [Z].  The four entries of [_cliproxy_state] are the
      fields of a record; [None] in [last_check_time] is [None].
    - Module-level mutable objects, the snapshot file, standard output and the
      socket are fields of one [World] that every function threads through.
    - Python exceptions are an outcome of the monad [M]; a mutation done before
      an exception is raised stays done, as in Python.
    - The upstream service and the wall clock are an environment [Env] of
      answers indexed by the number of interactions so far, so that every
      behaviour of the upstream (any answer, at any time) is covered.
    - JSON documents are the type [json]; JSON numbers are integers (the
      upstream counters are integers), fractional numbers are not represented.
      Where a JSON value that is not an integer would have to be stored in
      [_cliproxy_state] or [_last_usage_state], the outcome is [Unmodelled]. *)

From Stdlib Require Import ZArith String List Bool Lia DecimalString.
Import ListNotations.
Set Warnings "-register-all".
Open Scope string_scope.
Open Scope list_scope.
Open Scope Z_scope.

(** ** JSON documents *)

Inductive json : Type :=
| JNull
| JBool (b : bool)
| JNum (z : Z)
| JStr (s : string)
| JArr (items : list json)
| JObj (members : list (string * json)).

(** The members of a parsed object have pairwise distinct keys; the lookup
    returns the first binding of the key. *)
Fixpoint assoc (key : string) (members : list (string * json)) : option json :=
  match members with
  | [] => None
  | (k, v) :: rest => if String.eqb k key then Some v else assoc key rest
  end.

(** ** The monitor state: [_cliproxy_state] *)

Definition timestamp := Z.

Record MonitorState : Type := mkMonitorState {
  last_total_tokens : Z;
  last_total_requests : Z;
  last_check_time : option timestamp;
  restart_count : Z
}.

(** app.py, lines 453-458. *)
Definition _cliproxy_state : MonitorState :=
  {| last_total_tokens := 0;
     last_total_requests := 0;
     last_check_time := None;
     restart_count := 0 |}.

Definition set_last_total_tokens (v : Z) (s : MonitorState) : MonitorState :=
  {| last_total_tokens := v;
     last_total_requests := last_total_requests s;
     last_check_time := last_check_time s;
     restart_count := restart_count s |}.

Definition set_last_total_requests (v : Z) (s : MonitorState) : MonitorState :=
  {| last_total_tokens := last_total_tokens s;
     last_total_requests := v;
     last_check_time := last_check_time s;
     restart_count := restart_count s |}.

Definition set_last_check_time (v : timestamp) (s : MonitorState) : MonitorState :=
  {| last_total_tokens := last_total_tokens s;
     last_total_requests := last_total_requests s;
     last_check_time := Some v;
     restart_count := restart_count s |}.

Definition incr_restart_count (s : MonitorState) : MonitorState :=
  {| last_total_tokens := last_total_tokens s;
     last_total_requests := last_total_requests s;
     last_check_time := last_check_time s;
     restart_count := restart_count s + 1 |}.

(** The stored baseline: the pair the next observation is compared with. *)
Definition baseline (s : MonitorState) : Z * Z :=
  (last_total_tokens s, last_total_requests s).

(** ** The world *)

(** [_last_usage_state], app.py line 35. *)
Record UsageState : Type := mkUsageState {
  total_tokens : Z;
  total_requests : Z
}.

(** The file [SNAPSHOT_FILE]: absent, or present with the document that
    [json.load] reads from it ([None] when reading or parsing it raises). *)
Inductive file_state : Type :=
| Missing
| Present (content : option json).

(** One constructor per [print] of the embedded functions, with the values
    it formats.  The lines of one banner that cannot fail between them are
    one constructor. *)
Inductive log_line : Type :=
| LogNoSnapshotFile
| LogLoadingSnapshot
| LogSnapshotInfo
| LogExportedAt (exported_at : json)
| LogSnapshotTokens (tokens : json)
| LogSnapshotRequests (requests : json)
| LogImporting
| LogImportFailed (err : option string)
| LogImportCompleted
| LogImportAdded (added : json)
| LogImportSkipped (skipped : json)
| LogImportTotalRequests (total : json)
| LogImportError (e : string)
| LogMonitoringInitialized (tokens requests : Z)
| LogRestartDetected (number : Z) (prev_tokens prev_requests : Z)
    (prev_time : option timestamp) (cur_tokens cur_requests : Z)
    (now : timestamp) (lost_tokens lost_requests : Z)
| LogInitiatingRecovery
| LogSnapshotRestored
| LogRestoredState (tokens requests : json)
| LogFetchAfterRestoreFailed (err : option string)
| LogRestoreFailed
| LogFreshStatistics
| LogBroadcast (tokens : Z)
| LogBroadcastError (e : string).

(** The payload of [socketio.emit("usage_update", ...)]. *)
Record usage_update : Type := mkUsageUpdate {
  upd_total_tokens : Z;
  upd_total_requests : Z;
  upd_today_tokens : json;
  upd_today_requests : json;
  upd_success_count : json;
  upd_timestamp : timestamp
}.

Record World : Type := mkWorld {
  cliproxy_state : MonitorState;
  last_usage_state : UsageState;
  snapshot_file : file_state;
  stdout : list log_line;
  emitted : list usage_update;
  ticks : nat
}.

(** ** The environment: upstream service and clock *)

(** What [requests.get] / [requests.post] does: raise, or return a response
    with its status code, its text and what [resp.json()] gives (a document,
    or the message of the exception it raises). *)
Inductive http_outcome : Type :=
| HttpRaises (msg : string)
| HttpResponse (status_code : Z) (text : string) (body : json + string).

Record Env : Type := mkEnv {
  upstream : nat -> string -> string -> option json -> http_outcome;
  clock : nat -> timestamp;
  strftime_day : timestamp -> string
}.

(** ** The monad of the embedded functions *)

Inductive exn : Type :=
| AttributeError
| TypeError
| ValueError
| OSError
| JSONDecodeError.

Definition exn_str (e : exn) : string :=
  match e with
  | AttributeError => "AttributeError"
  | TypeError => "TypeError"
  | ValueError => "ValueError"
  | OSError => "OSError"
  | JSONDecodeError => "JSONDecodeError"
  end.

Inductive outcome (A : Type) : Type :=
| Ret (a : A)
| Raise (e : exn)
| Unmodelled.

Arguments Ret {A} a.
Arguments Raise {A} e.
Arguments Unmodelled {A}.

Definition M (A : Type) : Type := World -> outcome A * World.

Definition ret {A : Type} (a : A) : M A := fun w => (Ret a, w).

Definition bind {A B : Type} (c : M A) (k : A -> M B) : M B :=
  fun w =>
    match c w with
    | (Ret a, w') => k a w'
    | (Raise e, w') => (Raise e, w')
    | (Unmodelled, w') => (Unmodelled, w')
    end.

Definition raise {A : Type} (e : exn) : M A := fun w => (Raise e, w).

Definition unmodelled {A : Type} : M A := fun w => (Unmodelled, w).

(** [try: body / except Exception as e: handler]. *)
Definition try_except {A : Type} (body : M A) (handler : exn -> M A) : M A :=
  fun w =>
    match body w with
    | (Raise e, w') => handler e w'
    | r => r
    end.

Declare Scope monad_scope.
Delimit Scope monad_scope with monad.
Notation "x <- c ;; k" := (bind c (fun x => k))
  (at level 61, c at next level, right associativity) : monad_scope.
Notation "c ;; k" := (bind c (fun _ => k))
  (at level 61, right associativity) : monad_scope.
Open Scope monad_scope.

Definition get_state : M MonitorState :=
  fun w => (Ret (cliproxy_state w), w).

Definition modify_state (f : MonitorState -> MonitorState) : M unit :=
  fun w =>
    (Ret tt,
     {| cliproxy_state := f (cliproxy_state w);
        last_usage_state := last_usage_state w;
        snapshot_file := snapshot_file w;
        stdout := stdout w;
        emitted := emitted w;
        ticks := ticks w |}).

Definition get_usage_state : M UsageState :=
  fun w => (Ret (last_usage_state w), w).

Definition put_usage_state (u : UsageState) : M unit :=
  fun w =>
    (Ret tt,
     {| cliproxy_state := cliproxy_state w;
        last_usage_state := u;
        snapshot_file := snapshot_file w;
        stdout := stdout w;
        emitted := emitted w;
        ticks := ticks w |}).

Definition print (l : log_line) : M unit :=
  fun w =>
    (Ret tt,
     {| cliproxy_state := cliproxy_state w;
        last_usage_state := last_usage_state w;
        snapshot_file := snapshot_file w;
        stdout := stdout w ++ [l];
        emitted := emitted w;
        ticks := ticks w |}).

Definition emit (u : usage_update) : M unit :=
  fun w =>
    (Ret tt,
     {| cliproxy_state := cliproxy_state w;
        last_usage_state := last_usage_state w;
        snapshot_file := snapshot_file w;
        stdout := stdout w;
        emitted := emitted w ++ [u];
        ticks := ticks w |}).

(** One interaction with the environment: returns its index and counts it. *)
Definition tick : M nat :=
  fun w =>
    (Ret (ticks w),
     {| cliproxy_state := cliproxy_state w;
        last_usage_state := last_usage_state w;
        snapshot_file := snapshot_file w;
        stdout := stdout w;
        emitted := emitted w;
        ticks := S (ticks w) |}).

Definition read_snapshot_file : M file_state :=
  fun w => (Ret (snapshot_file w), w).

(** ** Python primitives on JSON values *)

(** [d.get(key, default)]: only a dict has [get]. *)
Definition py_get (d : json) (key : string) (default : json) : M json :=
  match d with
  | JObj members =>
      match assoc key members with
      | Some v => ret v
      | None => ret default
      end
  | _ => raise AttributeError
  end.

(** The format specification [:,] of an f-string: integers (and booleans,
    which are integers) are formatted, a string raises ValueError, [None], a
    list and a dict raise TypeError. *)
Definition fmt_comma (v : json) : M unit :=
  match v with
  | JNum _ | JBool _ => ret tt
  | JStr _ => raise ValueError
  | JNull | JArr _ | JObj _ => raise TypeError
  end.

(** A counter that flows into the integer-typed state. *)
Definition as_int (v : json) : M Z :=
  match v with
  | JNum z => ret z
  | _ => unmodelled
  end.

(** Truth value of the [err] component returned by [call_management_api]:
    [None] and the empty string are false. *)
Definition truthy (err : option string) : bool :=
  match err with
  | None => false
  | Some s => negb (String.eqb s "")
  end.

Definition dec (z : Z) : string := NilZero.string_of_int (Z.to_int z).

Section WithEnv.

Variable env : Env.

Definition datetime_now : M timestamp :=
  n <- tick ;; ret (clock env n).

(** ** [call_management_api], app.py lines 461-479

    The pair [(data, err)]: Python's [None] is [JNull] in [data] and [None]
    in [err].  A GET sends no body.  The handler [except Exception as e:
    return None, str(e)] is the two places where the environment raises:
    the request itself ([HttpRaises]) and [resp.json()] ([inr]). *)
Definition call_management_api (method endpoint : string) (data : option json)
  : M (json * option string) :=
  if String.eqb method "GET" then
    n <- tick ;;
    match upstream env n method endpoint None with
    | HttpRaises msg => ret (JNull, Some msg)
    | HttpResponse status_code text body =>
        if Z.eqb status_code 200 then
          match body with
          | inl doc => ret (doc, None)
          | inr msg => ret (JNull, Some msg)
          end
        else
          ret (JNull, Some ("API error: " ++ dec status_code ++ " - " ++ text)%string)
    end
  else if String.eqb method "POST" then
    n <- tick ;;
    match upstream env n method endpoint data with
    | HttpRaises msg => ret (JNull, Some msg)
    | HttpResponse status_code text body =>
        if Z.eqb status_code 200 then
          match body with
          | inl doc => ret (doc, None)
          | inr msg => ret (JNull, Some msg)
          end
        else
          ret (JNull, Some ("API error: " ++ dec status_code ++ " - " ++ text)%string)
    end
  else
    ret (JNull, Some ("Unsupported method: " ++ method)%string).

(** ** [import_cliproxy_snapshot], app.py lines 747-790 *)
Definition import_cliproxy_snapshot : M bool :=
  try_except
    (f <- read_snapshot_file ;;
     match f with
     | Missing =>
         print LogNoSnapshotFile ;;
         ret false
     | Present content =>
         print LogLoadingSnapshot ;;
         snapshot <- match content with
                     | Some doc => ret doc
                     | None => raise JSONDecodeError
                     end ;;
         exported_at <- py_get snapshot "exported_at" (JStr "unknown") ;;
         usage <- py_get snapshot "usage" (JObj []) ;;
         total_tokens <- py_get usage "total_tokens" (JNum 0) ;;
         total_requests <- py_get usage "total_requests" (JNum 0) ;;
         print LogSnapshotInfo ;;
         print (LogExportedAt exported_at) ;;
         fmt_comma total_tokens ;;
         print (LogSnapshotTokens total_tokens) ;;
         fmt_comma total_requests ;;
         print (LogSnapshotRequests total_requests) ;;
         print LogImporting ;;
         r <- call_management_api "POST" "/v0/management/usage/import"
                (Some snapshot) ;;
         let (data, err) := r in
         if truthy err then
           print (LogImportFailed err) ;;
           ret false
         else
           added <- py_get data "added" (JNum 0) ;;
           skipped <- py_get data "skipped" (JNum 0) ;;
           new_total_requests <- py_get data "total_requests" (JNum 0) ;;
           print LogImportCompleted ;;
           fmt_comma added ;;
           print (LogImportAdded added) ;;
           fmt_comma skipped ;;
           print (LogImportSkipped skipped) ;;
           fmt_comma new_total_requests ;;
           print (LogImportTotalRequests new_total_requests) ;;
           ret true
     end)
    (fun e =>
       print (LogImportError (exn_str e)) ;;
       ret false).

(** ** [detect_cliproxy_restart], app.py lines 793-849 *)
Definition detect_cliproxy_restart (current_tokens current_requests : Z)
  : M bool :=
  now <- datetime_now ;;
  st <- get_state ;;
  match last_check_time st with
  | None =>
      modify_state (set_last_total_tokens current_tokens) ;;
      modify_state (set_last_total_requests current_requests) ;;
      modify_state (set_last_check_time now) ;;
      print (LogMonitoringInitialized current_tokens current_requests) ;;
      ret false
  | Some _ =>
      let tokens_decreased := current_tokens <? last_total_tokens st in
      let requests_decreased := current_requests <? last_total_requests st in
      if tokens_decreased || requests_decreased then
        modify_state incr_restart_count ;;
        st' <- get_state ;;
        print (LogRestartDetected (restart_count st')
                 (last_total_tokens st') (last_total_requests st')
                 (last_check_time st')
                 current_tokens current_requests now
                 (last_total_tokens st' - current_tokens)
                 (last_total_requests st' - current_requests)) ;;
        modify_state (set_last_total_tokens current_tokens) ;;
        modify_state (set_last_total_requests current_requests) ;;
        modify_state (set_last_check_time now) ;;
        ret true
      else
        modify_state (set_last_total_tokens current_tokens) ;;
        modify_state (set_last_total_requests current_requests) ;;
        modify_state (set_last_check_time now) ;;
        ret false
  end.

(** ** [broadcast_usage_update], app.py lines 1466-1521 *)

(** Lines 1480-1497: the body of [if detect_cliproxy_restart(...)].  It
    returns the values of the local variables [usage], [current_tokens] and
    [current_requests] as the rest of the function sees them. *)
Definition recovery_sequence (usage : json) (current_tokens current_requests : Z)
  : M (json * Z * Z) :=
  print LogInitiatingRecovery ;;
  restored <- import_cliproxy_snapshot ;;
  if restored : bool then
    print LogSnapshotRestored ;;
    r <- call_management_api "GET" "/v0/management/usage" None ;;
    let (data, err) := r in
    if negb (truthy err) then
      usage' <- py_get data "usage" (JObj []) ;;
      tokens' <- py_get usage' "total_tokens" (JNum 0) ;;
      requests' <- py_get usage' "total_requests" (JNum 0) ;;
      fmt_comma tokens' ;;
      fmt_comma requests' ;;
      print (LogRestoredState tokens' requests') ;;
      current_tokens' <- as_int tokens' ;;
      current_requests' <- as_int requests' ;;
      ret (usage', current_tokens', current_requests')
    else
      print (LogFetchAfterRestoreFailed err) ;;
      ret (usage, current_tokens, current_requests)
  else
    print LogRestoreFailed ;;
    print LogFreshStatistics ;;
    ret (usage, current_tokens, current_requests).

(** Lines 1499-1517: "only broadcast if there's a change". *)
Definition broadcast_if_changed (usage : json)
  (current_tokens current_requests : Z) : M unit :=
  last <- get_usage_state ;;
  if negb (current_tokens =? total_tokens last)
     || negb (current_requests =? total_requests last) then
    put_usage_state {| total_tokens := current_tokens;
                       total_requests := total_requests last |} ;;
    put_usage_state {| total_tokens := current_tokens;
                       total_requests := current_requests |} ;;
    now <- datetime_now ;;
    let today := strftime_day env now in
    tokens_by_day <- py_get usage "tokens_by_day" (JObj []) ;;
    today_tokens <- py_get tokens_by_day today (JNum 0) ;;
    requests_by_day <- py_get usage "requests_by_day" (JObj []) ;;
    today_requests <- py_get requests_by_day today (JNum 0) ;;
    success_count <- py_get usage "success_count" (JNum 0) ;;
    stamp <- datetime_now ;;
    emit {| upd_total_tokens := current_tokens;
            upd_total_requests := current_requests;
            upd_today_tokens := today_tokens;
            upd_today_requests := today_requests;
            upd_success_count := success_count;
            upd_timestamp := stamp |} ;;
    print (LogBroadcast current_tokens)
  else
    ret tt.

Definition broadcast_usage_update : M unit :=
  try_except
    (r <- call_management_api "GET" "/v0/management/usage" None ;;
     let (data, err) := r in
     if truthy err then
       ret tt
     else
       usage <- py_get data "usage" (JObj []) ;;
       tokens <- py_get usage "total_tokens" (JNum 0) ;;
       requests <- py_get usage "total_requests" (JNum 0) ;;
       current_tokens <- as_int tokens ;;
       current_requests <- as_int requests ;;
       restarted <- detect_cliproxy_restart current_tokens current_requests ;;
       locals <- (if restarted : bool then
                    recovery_sequence usage current_tokens current_requests
                  else
                    ret (usage, current_tokens, current_requests)) ;;
       let '(usage, current_tokens, current_requests) := locals in
       broadcast_if_changed usage current_tokens current_requests)
    (fun e =>
       print (LogBroadcastError (exn_str e))).

(** The scheduler job "usage_broadcast" (app.py lines 1582-1588): one cycle
    per tick of the interval timer. *)
Fixpoint usage_broadcast_job (cycles : nat) : M unit :=
  match cycles with
  | O => ret tt
  | S n => broadcast_usage_update ;; usage_broadcast_job n
  end.

(** Feeding a sequence of observations to [detect_cliproxy_restart]: the
    reports, in order, and the world after the last call. *)
Fixpoint observe_all (inputs : list (Z * Z)) (w : World) : list bool * World :=
  match inputs with
  | [] => ([], w)
  | (tokens, requests) :: rest =>
      match detect_cliproxy_restart tokens requests w with
      | (Ret b, w') => let (bs, w'') := observe_all rest w' in (b :: bs, w'')
      | (_, w') => ([], w')
      end
  end.

End WithEnv.

(** ** Concrete worlds and environments *)

(** The comparison of lines 811-814. *)
Definition decreased (st : MonitorState) (ct cr : Z) : bool :=
  (ct <? last_total_tokens st) || (cr <? last_total_requests st).

(** The world at process start: [_cliproxy_state] and [_last_usage_state]
    as the module defines them, no snapshot yet, nothing printed. *)
Definition fresh_world : World :=
  {| cliproxy_state := _cliproxy_state;
     last_usage_state := {| total_tokens := 0; total_requests := 0 |};
     snapshot_file := Missing;
     stdout := [];
     emitted := [];
     ticks := 0 |}.

(** A world in which the pair [(tokens, requests)] was observed at time 0. *)
Definition tracking_world (tokens requests : Z) : World :=
  {| cliproxy_state :=
       {| last_total_tokens := tokens;
          last_total_requests := requests;
          last_check_time := Some 0;
          restart_count := 0 |};
     last_usage_state :=
       {| total_tokens := tokens; total_requests := requests |};
     snapshot_file := Missing;
     stdout := [];
     emitted := [];
     ticks := 0 |}.

(** An upstream that cannot be reached. *)
Definition unreachable_env : Env :=
  {| upstream := fun _ _ _ _ => HttpRaises "Connection refused";
     clock := fun n => 1700000000 + Z.of_nat n;
     strftime_day := fun _ => "2025-01-01" |}.

Definition nonneg_pair (p : Z * Z) : Prop := 0 <= fst p /\ 0 <= snd p.

(** A snapshot as [export_cliproxy_snapshot] saves it. *)
Definition sample_snapshot : json :=
  JObj [("exported_at", JStr "2025-01-01T00:00:00Z");
        ("usage", JObj [("total_tokens", JNum 1000);
                        ("total_requests", JNum 70)])].

(** A world that tracks the pair [(tokens, requests)] and has a snapshot. *)
Definition snapshot_world (tokens requests : Z) : World :=
  {| cliproxy_state := cliproxy_state (tracking_world tokens requests);
     last_usage_state := last_usage_state (tracking_world tokens requests);
     snapshot_file := Present (Some sample_snapshot);
     stdout := [];
     emitted := [];
     ticks := 0 |}.

(** An upstream that answers every request with status 500. *)
Definition rejecting_env : Env :=
  {| upstream := fun _ _ _ _ =>
       HttpResponse 500 "internal error" (inr "Expecting value");
     clock := fun n => 1700000000 + Z.of_nat n;
     strftime_day := fun _ => "2025-01-01" |}.

Definition usage_document (tokens requests : Z) : json :=
  JObj [("usage", JObj [("total_tokens", JNum tokens);
                        ("total_requests", JNum requests)])].

(** An upstream that has just restarted: it reports the totals (80, 60),
    accepts the import of a snapshot, and from its fourth interaction on
    reports the restored totals (1000, 70). *)
Definition restoring_env : Env :=
  {| upstream := fun n method _ _ =>
       if String.eqb method "POST" then
         HttpResponse 200 "" (inl (JObj [("added", JNum 5);
                                         ("skipped", JNum 0);
                                         ("total_requests", JNum 70)]))
       else if (n <? 3)%nat then
         HttpResponse 200 "" (inl (usage_document 80 60))
       else
         HttpResponse 200 "" (inl (usage_document 1000 70));
     clock := fun n => 1700000000 + Z.of_nat n;
     strftime_day := fun _ => "2025-01-01" |}.

(** The read of the counters at the start of a cycle (app.py lines
    1470-1476) fails: the request raises (transport), the status is not 200,
    the body does not parse, or the parsed document has no [get] where the
    code calls it (the document or its "usage" member is not an object). *)
Definition usage_fetch_fails (env : Env) (w : World) : bool :=
  match upstream env (ticks w) "GET" "/v0/management/usage" None with
  | HttpRaises _ => true
  | HttpResponse status_code _ body =>
      negb (status_code =? 200)
      || match body with
         | inr _ => true
         | inl (JObj members) =>
             match assoc "usage" members with
             | None | Some (JObj _) => false
             | Some _ => true
             end
         | inl _ => true
         end
  end.

(** A computation that leaves [_cliproxy_state] as it found it, whatever its
    outcome. *)
Definition preserves_monitor {A : Type} (c : M A) : Prop :=
  forall w : World, cliproxy_state (snd (c w)) = cliproxy_state w.

(** * Properties of [detect_cliproxy_restart] *)

Section DetectFacts.

Variable env : Env.

(** The first-observation branch (lines 802-808), run on a world. *)
Lemma detect_first_observation (ct cr : Z) (w : World) :
  last_check_time (cliproxy_state w) = None ->
  detect_cliproxy_restart env ct cr w =
  (Ret false,
   {| cliproxy_state :=
        {| last_total_tokens := ct;
           last_total_requests := cr;
           last_check_time := Some (clock env (ticks w));
           restart_count := restart_count (cliproxy_state w) |};
      last_usage_state := last_usage_state w;
      snapshot_file := snapshot_file w;
      stdout := stdout w ++ [LogMonitoringInitialized ct cr];
      emitted := emitted w;
      ticks := S (ticks w) |}).
Proof.
  intros H. unfold detect_cliproxy_restart, datetime_now, bind, tick, ret,
    get_state. cbn. rewrite H. reflexivity.
Qed.

(** The comparison branches (lines 810-849), run on a world. *)
Lemma detect_tracking (ct cr : Z) (w : World) (t : timestamp) :
  last_check_time (cliproxy_state w) = Some t ->
  exists out,
    detect_cliproxy_restart env ct cr w =
    (Ret (decreased (cliproxy_state w) ct cr),
     {| cliproxy_state :=
          {| last_total_tokens := ct;
             last_total_requests := cr;
             last_check_time := Some (clock env (ticks w));
             restart_count :=
               if decreased (cliproxy_state w) ct cr
               then restart_count (cliproxy_state w) + 1
               else restart_count (cliproxy_state w) |};
        last_usage_state := last_usage_state w;
        snapshot_file := snapshot_file w;
        stdout := stdout w ++ out;
        emitted := emitted w;
        ticks := S (ticks w) |}).
Proof.
  intros H. unfold decreased.
  unfold detect_cliproxy_restart, datetime_now, bind, tick, ret, get_state.
  cbn. rewrite H.
  destruct ((ct <? last_total_tokens (cliproxy_state w))
            || (cr <? last_total_requests (cliproxy_state w))) eqn:E.
  - eexists. reflexivity.
  - exists []. rewrite app_nil_r. reflexivity.
Qed.

(** The function always returns a boolean: it neither raises nor leaves the
    model. *)
Lemma detect_returns (ct cr : Z) (w : World) :
  exists b, fst (detect_cliproxy_restart env ct cr w) = Ret b.
Proof.
  destruct (last_check_time (cliproxy_state w)) as [t|] eqn:H.
  - destruct (detect_tracking ct cr w t H) as [out E]. rewrite E.
    eexists. reflexivity.
  - rewrite (detect_first_observation ct cr w H). eexists. reflexivity.
Qed.

(** Every branch stores the observed pair and a check time. *)
Lemma detect_stores (ct cr : Z) (w : World) :
  let w' := snd (detect_cliproxy_restart env ct cr w) in
  baseline (cliproxy_state w') = (ct, cr)
  /\ last_check_time (cliproxy_state w') = Some (clock env (ticks w)).
Proof.
  destruct (last_check_time (cliproxy_state w)) as [t|] eqn:H.
  - destruct (detect_tracking ct cr w t H) as [out E]. cbn zeta.
    rewrite E. split; reflexivity.
  - cbn zeta. rewrite (detect_first_observation ct cr w H). split; reflexivity.
Qed.

(** The restart counter moves by one exactly when a restart is reported. *)
Lemma detect_counts (ct cr : Z) (w : World) :
  exists b,
    fst (detect_cliproxy_restart env ct cr w) = Ret b
    /\ restart_count (cliproxy_state (snd (detect_cliproxy_restart env ct cr w)))
       = restart_count (cliproxy_state w) + (if b then 1 else 0).
Proof.
  destruct (last_check_time (cliproxy_state w)) as [t|] eqn:H.
  - destruct (detect_tracking ct cr w t H) as [out E]. rewrite E. cbn.
    eexists. split; [reflexivity|].
    destruct (decreased _ _ _); lia.
  - rewrite (detect_first_observation ct cr w H). cbn.
    exists false. split; [reflexivity|lia].
Qed.

Lemma observe_all_cons (ct cr : Z) (rest : list (Z * Z)) (w : World) :
  exists b,
    fst (detect_cliproxy_restart env ct cr w) = Ret b
    /\ observe_all env ((ct, cr) :: rest) w =
       (b :: fst (observe_all env rest
                    (snd (detect_cliproxy_restart env ct cr w))),
        snd (observe_all env rest (snd (detect_cliproxy_restart env ct cr w)))).
Proof.
  destruct (detect_returns ct cr w) as [b Hb]. exists b. split; [exact Hb|].
  cbn [observe_all].
  destruct (detect_cliproxy_restart env ct cr w) as [o w'].
  cbn in Hb. subst o. cbn.
  destruct (observe_all env rest w'). reflexivity.
Qed.

Lemma observe_all_app (l1 l2 : list (Z * Z)) (w : World) :
  observe_all env (l1 ++ l2) w =
  (fst (observe_all env l1 w)
     ++ fst (observe_all env l2 (snd (observe_all env l1 w))),
   snd (observe_all env l2 (snd (observe_all env l1 w)))).
Proof.
  revert w. induction l1 as [|[ct cr] l1 IH]; intros w.
  - cbn. destruct (observe_all env l2 w). reflexivity.
  - rewrite <- app_comm_cons.
    destruct (observe_all_cons ct cr (l1 ++ l2) w) as [b [Hb E]].
    destruct (observe_all_cons ct cr l1 w) as [b' [Hb' E']].
    rewrite E, E'. rewrite Hb in Hb'. injection Hb' as <-.
    rewrite IH. reflexivity.
Qed.

Lemma observe_all_length (inputs : list (Z * Z)) (w : World) :
  length (fst (observe_all env inputs w)) = length inputs.
Proof.
  revert w. induction inputs as [|[ct cr] rest IH]; intros w.
  - reflexivity.
  - destruct (observe_all_cons ct cr rest w) as [b [_ E]]. rewrite E.
    cbn. now rewrite IH.
Qed.

End DetectFacts.

Section ObserveFacts.

Variable env : Env.

Lemma observe_all_snoc (inputs : list (Z * Z)) (ct cr : Z) (w : World) :
  snd (observe_all env (inputs ++ [(ct, cr)]) w) =
  snd (detect_cliproxy_restart env ct cr (snd (observe_all env inputs w))).
Proof.
  rewrite observe_all_app. cbn [snd].
  destruct (observe_all_cons env ct cr [] (snd (observe_all env inputs w)))
    as [b [_ E]].
  rewrite E. reflexivity.
Qed.

Lemma observe_all_restart_count (inputs : list (Z * Z)) (w : World) :
  restart_count (cliproxy_state (snd (observe_all env inputs w))) =
  restart_count (cliproxy_state w)
  + Z.of_nat (count_occ bool_dec (fst (observe_all env inputs w)) true).
Proof.
  revert w. induction inputs as [|[ct cr] rest IH]; intros w.
  - cbn. lia.
  - destruct (observe_all_cons env ct cr rest w) as [b [Hb E]].
    destruct (detect_counts env ct cr w) as [b' [Hb' Hc]].
    rewrite Hb in Hb'. injection Hb' as <-.
    rewrite E. cbn [fst snd]. rewrite IH, Hc.
    destruct b.
    + rewrite count_occ_cons_eq by reflexivity. lia.
    + rewrite count_occ_cons_neq by discriminate. lia.
Qed.

End ObserveFacts.

(** * The claims about [detect_cliproxy_restart] *)

(** C1. On a state with a prior observation ([last_check_time] is not
    [None]), for all non-negative integers [ct] and [cr] the call returns a
    boolean that is true exactly when [ct] is below the stored
    [last_total_tokens] or [cr] is below the stored [last_total_requests];
    with the baseline (100, 50), observing (80, 60) reports a restart and
    observing (150, 70) reports none. *)
Theorem C1_restart_iff_counter_decreased :
  forall (env : Env) (w : World),
    last_check_time (cliproxy_state w) <> None ->
    (forall ct cr : Z,
        0 <= ct -> 0 <= cr ->
        exists b : bool,
          fst (detect_cliproxy_restart env ct cr w) = Ret b
          /\ (b = true <->
              ct < last_total_tokens (cliproxy_state w)
              \/ cr < last_total_requests (cliproxy_state w)))
    /\ (baseline (cliproxy_state w) = (100, 50) ->
        fst (detect_cliproxy_restart env 80 60 w) = Ret true
        /\ fst (detect_cliproxy_restart env 150 70 w) = Ret false).
Proof.
  intros env w Hprior.
  destruct (last_check_time (cliproxy_state w)) as [t|] eqn:Ht;
    [clear Hprior|congruence].
  split.
  - intros ct cr _ _.
    destruct (detect_tracking env ct cr w t Ht) as [out E].
    exists (decreased (cliproxy_state w) ct cr). rewrite E.
    split; [reflexivity|].
    unfold decreased. rewrite orb_true_iff, !Z.ltb_lt. tauto.
  - intros Hb. unfold baseline in Hb. injection Hb as Ht100 Hr50.
    destruct (detect_tracking env 80 60 w t Ht) as [out1 E1].
    destruct (detect_tracking env 150 70 w t Ht) as [out2 E2].
    rewrite E1, E2. unfold decreased. rewrite Ht100, Hr50.
    split; reflexivity.
Qed.

Lemma C1_restart_iff_counter_decreased_witness :
  last_check_time (cliproxy_state (tracking_world 100 50)) <> None
  /\ fst (detect_cliproxy_restart unreachable_env 80 60 (tracking_world 100 50))
     = Ret true
  /\ fst (detect_cliproxy_restart unreachable_env 150 70 (tracking_world 100 50))
     = Ret false.
Proof.
  split.
  - discriminate.
  - apply (C1_restart_iff_counter_decreased unreachable_env
             (tracking_world 100 50)).
    + discriminate.
    + reflexivity.
Defined.

(** C2. For every sequence of non-negative integer pairs fed to
    [detect_cliproxy_restart], from any world, every call returns a report
    and the baseline stored after a call is that call's input pair: after any
    prefix of the sequence ending with [(tokens, requests)] the baseline is
    [(tokens, requests)], whichever branch the call took. *)
Theorem C2_baseline_is_last_input :
  forall (env : Env) (w : World) (inputs : list (Z * Z)) (tokens requests : Z),
    Forall nonneg_pair (inputs ++ [(tokens, requests)]) ->
    baseline
      (cliproxy_state
         (snd (observe_all env (inputs ++ [(tokens, requests)]) w)))
    = (tokens, requests)
    /\ length (fst (observe_all env (inputs ++ [(tokens, requests)]) w))
       = length (inputs ++ [(tokens, requests)]).
Proof.
  intros env w inputs tokens requests _. split.
  - rewrite observe_all_snoc. apply detect_stores.
  - apply observe_all_length.
Qed.

Lemma C2_baseline_is_last_input_witness :
  Forall nonneg_pair ([(100, 50); (80, 60)] ++ [(150, 70)])
  /\ baseline
       (cliproxy_state
          (snd (observe_all unreachable_env
                  ([(100, 50); (80, 60)] ++ [(150, 70)]) fresh_world)))
     = (150, 70).
Proof.
  assert (H : Forall nonneg_pair ([(100, 50); (80, 60)] ++ [(150, 70)])).
  { repeat constructor; cbn; lia. }
  split.
  - exact H.
  - exact (proj1 (C2_baseline_is_last_input unreachable_env fresh_world
                    [(100, 50); (80, 60)] 150 70 H)).
Defined.

(** C3. On a state whose [last_check_time] is [None], for all non-negative
    integers the call returns [False] and stores the input pair as the
    baseline. *)
Theorem C3_first_observation_never_reports :
  forall (env : Env) (w : World) (current_tokens current_requests : Z),
    last_check_time (cliproxy_state w) = None ->
    0 <= current_tokens -> 0 <= current_requests ->
    fst (detect_cliproxy_restart env current_tokens current_requests w)
    = Ret false
    /\ baseline
         (cliproxy_state
            (snd (detect_cliproxy_restart env current_tokens
                    current_requests w)))
       = (current_tokens, current_requests).
Proof.
  intros env w ct cr Hnone _ _.
  rewrite (detect_first_observation env ct cr w Hnone).
  split; reflexivity.
Qed.

Lemma C3_first_observation_never_reports_witness :
  fst (detect_cliproxy_restart unreachable_env 7 3 fresh_world) = Ret false
  /\ baseline
       (cliproxy_state
          (snd (detect_cliproxy_restart unreachable_env 7 3 fresh_world)))
     = (7, 3).
Proof.
  apply (C3_first_observation_never_reports unreachable_env fresh_world 7 3).
  - reflexivity.
  - lia.
  - lia.
Defined.

(** C4. A call that reports a restart raises [restart_count] by exactly one
    and any other call (first observation, no restart) leaves it as it was;
    hence over every sequence of calls the counter ends at its initial value
    plus the number of restart reports, never decreasing and never skipping
    a value. *)
Theorem C4_restart_count_steps_by_one :
  forall (env : Env) (w : World),
    (forall ct cr : Z,
        exists b : bool,
          fst (detect_cliproxy_restart env ct cr w) = Ret b
          /\ restart_count
               (cliproxy_state (snd (detect_cliproxy_restart env ct cr w)))
             = restart_count (cliproxy_state w) + (if b then 1 else 0))
    /\ (forall inputs : list (Z * Z),
           restart_count (cliproxy_state (snd (observe_all env inputs w)))
           = restart_count (cliproxy_state w)
             + Z.of_nat
                 (count_occ bool_dec (fst (observe_all env inputs w)) true)).
Proof.
  intros env w. split.
  - intros ct cr. apply detect_counts.
  - intros inputs. apply observe_all_restart_count.
Qed.

(** C5. For all non-negative integers X and Y, a call with (X, Y) on a state
    whose baseline is already (X, Y) reports no restart; so the second of two
    consecutive calls with (X, Y) never reports a restart. *)
Theorem C5_unchanged_input_never_resignals :
  forall (env : Env) (w : World) (X Y : Z),
    0 <= X -> 0 <= Y ->
    (baseline (cliproxy_state w) = (X, Y) ->
     fst (detect_cliproxy_restart env X Y w) = Ret false)
    /\ fst (detect_cliproxy_restart env X Y
              (snd (detect_cliproxy_restart env X Y w)))
       = Ret false.
Proof.
  intros env w X Y _ _.
  assert (same : forall w0 : World,
             baseline (cliproxy_state w0) = (X, Y) ->
             fst (detect_cliproxy_restart env X Y w0) = Ret false).
  { intros w0 Hb. unfold baseline in Hb. injection Hb as HX HY.
    destruct (last_check_time (cliproxy_state w0)) as [t|] eqn:Ht.
    - destruct (detect_tracking env X Y w0 t Ht) as [out E]. rewrite E.
      unfold decreased. rewrite HX, HY, !Z.ltb_irrefl. reflexivity.
    - rewrite (detect_first_observation env X Y w0 Ht). reflexivity. }
  split.
  - apply same.
  - apply same. apply detect_stores.
Qed.

Lemma C5_unchanged_input_never_resignals_witness :
  fst (detect_cliproxy_restart unreachable_env 100 50 (tracking_world 100 50))
  = Ret false
  /\ fst (detect_cliproxy_restart unreachable_env 100 50
            (snd (detect_cliproxy_restart unreachable_env 100 50
                    (tracking_world 300 20))))
     = Ret false.
Proof.
  assert (HX : 0 <= 100) by lia.
  assert (HY : 0 <= 50) by lia.
  split.
  - apply (proj1 (C5_unchanged_input_never_resignals unreachable_env
                    (tracking_world 100 50) 100 50 HX HY)).
    reflexivity.
  - exact (proj2 (C5_unchanged_input_never_resignals unreachable_env
                    (tracking_world 300 20) 100 50 HX HY)).
Defined.

(** C9. The state is created with [last_check_time] [None] and zero
    counters; every call sets [last_check_time] to a value that is not
    [None], on every branch; so, starting from the state as created, after
    feeding any sequence of observations [last_check_time] is [None] exactly
    when the sequence is empty, that is when no observation was ever made. *)
Theorem C9_check_time_none_iff_never_observed :
  last_check_time _cliproxy_state = None
  /\ baseline _cliproxy_state = (0, 0)
  /\ restart_count _cliproxy_state = 0
  /\ (forall (env : Env) (w : World) (ct cr : Z),
         last_check_time
           (cliproxy_state (snd (detect_cliproxy_restart env ct cr w)))
         <> None)
  /\ (forall (env : Env) (w : World) (inputs : list (Z * Z)),
         cliproxy_state w = _cliproxy_state ->
         (last_check_time (cliproxy_state (snd (observe_all env inputs w)))
          = None
          <-> inputs = [])).
Proof.
  assert (sets : forall (env : Env) (w : World) (ct cr : Z),
             last_check_time
               (cliproxy_state (snd (detect_cliproxy_restart env ct cr w)))
             <> None).
  { intros env w ct cr.
    destruct (detect_stores env ct cr w) as [_ H]. rewrite H. discriminate. }
  split; [reflexivity|]. split; [reflexivity|]. split; [reflexivity|].
  split; [exact sets|].
  intros env w inputs Hinit. split.
  - intros Hnone.
    destruct inputs as [|p rest] using rev_ind; [reflexivity|].
    destruct p as [ct cr]. rewrite observe_all_snoc in Hnone.
    exfalso. exact (sets env _ ct cr Hnone).
  - intros ->. cbn. rewrite Hinit. reflexivity.
Qed.

Lemma C9_check_time_none_iff_never_observed_witness :
  last_check_time (cliproxy_state (snd (observe_all unreachable_env [] fresh_world)))
  = None
  /\ last_check_time
       (cliproxy_state
          (snd (detect_cliproxy_restart unreachable_env 0 0 fresh_world)))
     <> None.
Proof.
  destruct C9_check_time_none_iff_never_observed as (_ & _ & _ & Hset & Hiff).
  split.
  - apply (Hiff unreachable_env fresh_world []); reflexivity.
  - apply Hset.
Defined.

(** * Frame reasoning: computations that leave [_cliproxy_state] alone *)

Create HintDb frame.

Section Frame.

Context {A B : Type}.

Lemma pm_ret (a : A) : preserves_monitor (ret a).
Proof. intros w. reflexivity. Qed.

Lemma pm_raise (e : exn) : preserves_monitor (@raise A e).
Proof. intros w. reflexivity. Qed.

Lemma pm_unmodelled : preserves_monitor (@unmodelled A).
Proof. intros w. reflexivity. Qed.

Lemma pm_bind (c : M A) (k : A -> M B) :
  preserves_monitor c ->
  (forall a : A, preserves_monitor (k a)) ->
  preserves_monitor (bind c k).
Proof.
  intros Hc Hk w. unfold bind. specialize (Hc w).
  destruct (c w) as [[a|e|] w']; cbn in *; try assumption.
  rewrite Hk. assumption.
Qed.

Lemma pm_try_except (body : M A) (handler : exn -> M A) :
  preserves_monitor body ->
  (forall e : exn, preserves_monitor (handler e)) ->
  preserves_monitor (try_except body handler).
Proof.
  intros Hb Hh w. unfold try_except. specialize (Hb w).
  destruct (body w) as [[a|e|] w']; cbn in *; try assumption.
  rewrite Hh. assumption.
Qed.

End Frame.

Lemma pm_print (l : log_line) : preserves_monitor (print l).
Proof. intros w. reflexivity. Qed.

Lemma pm_emit (u : usage_update) : preserves_monitor (emit u).
Proof. intros w. reflexivity. Qed.

Lemma pm_tick : preserves_monitor tick.
Proof. intros w. reflexivity. Qed.

Lemma pm_get_usage_state : preserves_monitor get_usage_state.
Proof. intros w. reflexivity. Qed.

Lemma pm_put_usage_state (u : UsageState) :
  preserves_monitor (put_usage_state u).
Proof. intros w. reflexivity. Qed.

Lemma pm_read_snapshot_file : preserves_monitor read_snapshot_file.
Proof. intros w. reflexivity. Qed.

Lemma pm_py_get (d : json) (key : string) (default : json) :
  preserves_monitor (py_get d key default).
Proof.
  intros w. destruct d; try reflexivity.
  cbn. destruct (assoc key members); reflexivity.
Qed.

Lemma pm_fmt_comma (v : json) : preserves_monitor (fmt_comma v).
Proof. intros w. destruct v; reflexivity. Qed.

Lemma pm_as_int (v : json) : preserves_monitor (as_int v).
Proof. intros w. destruct v; reflexivity. Qed.

#[export] Hint Resolve pm_ret pm_raise pm_unmodelled pm_print pm_emit pm_tick
  pm_get_usage_state pm_put_usage_state pm_read_snapshot_file pm_py_get
  pm_fmt_comma pm_as_int : frame.

(** Breaks a computation into its steps; what is left is a case analysis of
    the code ([if], [match]) or a step that a hint settles. *)
Ltac frame_step :=
  match goal with
  | |- preserves_monitor (bind _ _) => apply pm_bind; [|intros ?]
  | |- preserves_monitor (try_except _ _) => apply pm_try_except; [|intros ?]
  | |- preserves_monitor (match ?x with _ => _ end) => destruct x
  | |- preserves_monitor (let (_, _) := ?x in _) => destruct x
  | |- preserves_monitor _ => solve [auto with frame]
  end.

Ltac frame := repeat frame_step.

Section FrameOfTheCode.

Variable env : Env.

Lemma pm_datetime_now : preserves_monitor (datetime_now env).
Proof. unfold datetime_now. frame. Qed.

Lemma pm_call_management_api (method endpoint : string) (data : option json) :
  preserves_monitor (call_management_api env method endpoint data).
Proof. unfold call_management_api. frame. Qed.

Hint Resolve pm_datetime_now pm_call_management_api : frame.

Lemma pm_import_cliproxy_snapshot :
  preserves_monitor (import_cliproxy_snapshot env).
Proof. unfold import_cliproxy_snapshot. frame. Qed.

Hint Resolve pm_import_cliproxy_snapshot : frame.

Lemma pm_recovery_sequence (usage : json) (ct cr : Z) :
  preserves_monitor (recovery_sequence env usage ct cr).
Proof. unfold recovery_sequence. frame. Qed.

Lemma pm_broadcast_if_changed (usage : json) (ct cr : Z) :
  preserves_monitor (broadcast_if_changed env usage ct cr).
Proof. unfold broadcast_if_changed. frame. Qed.

End FrameOfTheCode.

#[export] Hint Resolve pm_datetime_now pm_call_management_api
  pm_import_cliproxy_snapshot pm_recovery_sequence pm_broadcast_if_changed
  : frame.

(** * Running [import_cliproxy_snapshot] *)

Lemma py_get_run (d : json) (key : string) (default : json) (w : World) :
  (exists v, py_get d key default w = (Ret v, w))
  \/ py_get d key default w = (Raise AttributeError, w).
Proof.
  destruct d; try (right; reflexivity).
  left. cbn. destruct (assoc key members); eexists; reflexivity.
Qed.

Lemma fmt_comma_run (v : json) (w : World) :
  fmt_comma v w = (Ret tt, w) \/ exists e, fmt_comma v w = (Raise e, w).
Proof.
  destruct v; cbn;
    solve [left; reflexivity | right; eexists; reflexivity].
Qed.

(** Symbolic execution of a run recorded in hypothesis [H]: each step either
    returns and the run goes on, or raises; a branch of the code that
    contradicts [H] is closed at once. *)
Ltac exec_in H :=
  repeat (cbn -[py_get fmt_comma] in H; try discriminate H;
          match type of H with
          | context [py_get ?d ?k ?v ?w] =>
              let E := fresh "E" in
              destruct (py_get_run d k v w) as [[? E]|E]; rewrite E in H
          | context [fmt_comma ?v ?w] =>
              let E := fresh "E" in
              destruct (fmt_comma_run v w) as [E|[? E]]; rewrite E in H
          | context [match ?x with _ => _ end] =>
              lazymatch x with
              | context [match _ with _ => _ end] => fail
              | _ => destruct x eqn:?
              end
          end).

Section ImportFacts.

Variable env : Env.

(** Lines 750-752: without a snapshot file the function prints one line and
    returns [False]. *)
Lemma import_without_snapshot (w : World) :
  snapshot_file w = Missing ->
  import_cliproxy_snapshot env w =
  (Ret false,
   {| cliproxy_state := cliproxy_state w;
      last_usage_state := last_usage_state w;
      snapshot_file := snapshot_file w;
      stdout := stdout w ++ [LogNoSnapshotFile];
      emitted := emitted w;
      ticks := ticks w |}).
Proof.
  intros H.
  unfold import_cliproxy_snapshot, try_except, bind, read_snapshot_file,
    print, ret.
  destruct (snapshot_file w) eqn:E; [|discriminate].
  cbn. rewrite E. reflexivity.
Qed.

(** The function returns [True] only from line 782: the snapshot was read
    and the upstream answered the import with status 200 and a document. *)
Lemma import_true_inv (w : World) :
  fst (import_cliproxy_snapshot env w) = Ret true ->
  exists (doc : json) (text : string) (data : json),
    snapshot_file w = Present (Some doc)
    /\ upstream env (ticks w) "POST" "/v0/management/usage/import" (Some doc)
       = HttpResponse 200 text (inl data).
Proof.
  intros H.
  unfold import_cliproxy_snapshot, try_except, bind, read_snapshot_file,
    print, call_management_api, tick, ret, raise, truthy in H.
  exec_in H.
  match goal with
  | Hs : (_ =? 200) = true |- _ => apply Z.eqb_eq in Hs; subst
  end.
  eauto.
Qed.

(** [except Exception] catches whatever the body raises: the function
    always returns a boolean. *)
Lemma import_returns (w : World) :
  exists b : bool, fst (import_cliproxy_snapshot env w) = Ret b.
Proof.
  destruct (fst (import_cliproxy_snapshot env w)) as [b|e|] eqn:H.
  - exists b. reflexivity.
  - exfalso.
    unfold import_cliproxy_snapshot, try_except, bind, read_snapshot_file,
      print, call_management_api, tick, ret, raise, truthy in H.
    exec_in H.
  - exfalso.
    unfold import_cliproxy_snapshot, try_except, bind, read_snapshot_file,
      print, call_management_api, tick, ret, raise, truthy in H.
    exec_in H.
Qed.

End ImportFacts.

(** C6. When no snapshot file exists, [import_cliproxy_snapshot] returns
    [False], the failure result that stands for NoSnapshotAvailable, and its
    only effect is the line it prints: no call to the upstream is made (the
    count of interactions with the environment is unchanged) and
    [_cliproxy_state], with every other part of the world, is as before. *)
Theorem C6_no_snapshot_returns_failure_without_effect :
  forall (env : Env) (w : World),
    snapshot_file w = Missing ->
    fst (import_cliproxy_snapshot env w) = Ret false
    /\ cliproxy_state (snd (import_cliproxy_snapshot env w)) = cliproxy_state w
    /\ ticks (snd (import_cliproxy_snapshot env w)) = ticks w
    /\ snapshot_file (snd (import_cliproxy_snapshot env w)) = Missing
    /\ last_usage_state (snd (import_cliproxy_snapshot env w))
       = last_usage_state w
    /\ emitted (snd (import_cliproxy_snapshot env w)) = emitted w
    /\ stdout (snd (import_cliproxy_snapshot env w))
       = stdout w ++ [LogNoSnapshotFile].
Proof.
  intros env w H. rewrite (import_without_snapshot env w H). cbn.
  repeat split; try reflexivity. exact H.
Qed.

Lemma C6_no_snapshot_returns_failure_without_effect_witness :
  fst (import_cliproxy_snapshot restoring_env (tracking_world 100 50))
  = Ret false
  /\ cliproxy_state
       (snd (import_cliproxy_snapshot restoring_env (tracking_world 100 50)))
     = cliproxy_state (tracking_world 100 50)
  /\ ticks (snd (import_cliproxy_snapshot restoring_env (tracking_world 100 50)))
     = O.
Proof.
  destruct (C6_no_snapshot_returns_failure_without_effect restoring_env
              (tracking_world 100 50) eq_refl)
    as (Hret & Hstate & Hticks & _).
  repeat split; assumption.
Defined.



(** * Running [broadcast_usage_update] *)

(** C8. In every cycle whose read of the upstream counters fails (the
    request raises, the status is not 200, the body does not parse, or the
    document has not the shape of an object with an object under "usage"),
    [broadcast_usage_update] ends normally and leaves [_cliproxy_state]
    exactly as it was: [detect_cliproxy_restart] is not called (the failed
    request is the only interaction with the environment, the clock is not
    read), no restart line is printed, nothing is emitted and
    [_last_usage_state] is unchanged; the job goes on with the next cycle
    from that world. *)
Theorem C8_failed_fetch_skips_the_cycle :
  forall (env : Env) (w : World),
    usage_fetch_fails env w = true ->
    fst (broadcast_usage_update env w) = Ret tt
    /\ cliproxy_state (snd (broadcast_usage_update env w)) = cliproxy_state w
    /\ ticks (snd (broadcast_usage_update env w)) = S (ticks w)
    /\ last_usage_state (snd (broadcast_usage_update env w))
       = last_usage_state w
    /\ emitted (snd (broadcast_usage_update env w)) = emitted w
    /\ snapshot_file (snd (broadcast_usage_update env w)) = snapshot_file w
    /\ (stdout (snd (broadcast_usage_update env w)) = stdout w
        \/ stdout (snd (broadcast_usage_update env w))
           = stdout w ++ [LogBroadcastError "AttributeError"])
    /\ (forall cycles : nat,
           usage_broadcast_job env (S cycles) w
           = usage_broadcast_job env cycles
               (snd (broadcast_usage_update env w))).
Proof.
  intros env w H.
  assert (Hjob : fst (broadcast_usage_update env w) = Ret tt ->
                 forall cycles : nat,
                   usage_broadcast_job env (S cycles) w
                   = usage_broadcast_job env cycles
                       (snd (broadcast_usage_update env w))).
  { intros Hret cycles. cbn [usage_broadcast_job]. unfold bind at 1.
    destruct (broadcast_usage_update env w) as [o w'].
    cbn in Hret. subst o. reflexivity. }
  revert Hjob. unfold usage_fetch_fails in H.
  unfold broadcast_usage_update, try_except, bind, call_management_api,
    tick, ret.
  cbn.
  destruct (upstream env (ticks w) "GET" "/v0/management/usage" None)
    as [msg|status_code text body].
  - cbn. destruct (String.eqb msg ""); cbn; intros Hjob;
      repeat split; auto.
  - destruct (status_code =? 200); cbn in H |- *;
      [|intros Hjob; repeat split; auto].
    destruct body as [doc|msg].
    + destruct doc as [| | | | |members]; cbn;
        try (intros Hjob; repeat split; auto; fail).
      destruct (assoc "usage" members) as [[| | | | |um]|];
        cbn; try discriminate H; intros Hjob; repeat split; auto.
    + cbn. destruct (String.eqb msg ""); cbn; intros Hjob;
        repeat split; auto.
Qed.

Lemma C8_failed_fetch_skips_the_cycle_witness :
  cliproxy_state (snd (broadcast_usage_update unreachable_env
                         (snapshot_world 100 50)))
  = cliproxy_state (snapshot_world 100 50)
  /\ ticks (snd (broadcast_usage_update unreachable_env
                   (snapshot_world 100 50)))
     = 1%nat.
Proof.
  destruct (C8_failed_fetch_skips_the_cycle unreachable_env
              (snapshot_world 100 50) eq_refl)
    as (_ & Hstate & Hticks & _).
  split; assumption.
Defined.

Section BroadcastFacts.

Variable env : Env.

(** What lines 1479-1517 do after [detect_cliproxy_restart] has returned. *)
Lemma pm_after_detect (usage : json) (ct cr : Z) (restarted : bool) :
  preserves_monitor
    (locals <- (if restarted
                then recovery_sequence env usage ct cr
                else ret (usage, ct, cr)) ;;
     let '(usage, current_tokens, current_requests) := locals in
     broadcast_if_changed env usage current_tokens current_requests).
Proof.
  apply pm_bind.
  - destruct restarted; auto with frame.
  - intros [[u t] r]. auto with frame.
Qed.

(** A cycle whose read of the counters succeeds with the integers [ct] and
    [cr] leaves in [_cliproxy_state] what [detect_cliproxy_restart] put
    there: nothing that follows the call writes to it. *)
Lemma broadcast_state_is_detect_state (w : World) (text : string)
  (members usage_members : list (string * json)) (ct cr : Z) :
  upstream env (ticks w) "GET" "/v0/management/usage" None
  = HttpResponse 200 text (inl (JObj members)) ->
  assoc "usage" members = Some (JObj usage_members) ->
  assoc "total_tokens" usage_members = Some (JNum ct) ->
  assoc "total_requests" usage_members = Some (JNum cr) ->
  cliproxy_state (snd (broadcast_usage_update env w))
  = cliproxy_state (snd (detect_cliproxy_restart env ct cr (snd (tick w)))).
Proof.
  intros Hup Hu Ht Hr.
  unfold broadcast_usage_update, try_except.
  unfold bind at 1. unfold call_management_api.
  cbn [String.eqb Ascii.eqb Bool.eqb].
  unfold bind at 1. cbn [tick]. rewrite Hup. cbn [Z.eqb Pos.eqb ret truthy].
  unfold bind at 1. cbn [py_get]. rewrite Hu. cbn [ret].
  unfold bind at 1. cbn [py_get]. rewrite Ht. cbn [ret].
  unfold bind at 1. cbn [py_get]. rewrite Hr. cbn [ret].
  unfold bind at 1. cbn [as_int ret].
  unfold bind at 1. cbn [as_int ret].
  unfold bind at 1. cbn [snd].
  destruct (detect_cliproxy_restart env ct cr _) as [[restarted|e|] w2];
    cbn [snd]; try reflexivity.
  pose proof (pm_after_detect (JObj usage_members) ct cr restarted w2) as Hpm.
  destruct ((locals <- (if restarted
                        then recovery_sequence env (JObj usage_members) ct cr
                        else ret (JObj usage_members, ct, cr)) ;;
             let '(usage, current_tokens, current_requests) := locals in
             broadcast_if_changed env usage current_tokens current_requests)
              w2) as [[u|e|] w3]; cbn [snd] in Hpm |- *; exact Hpm.
Qed.

End BroadcastFacts.

(** C10. Nothing in the recovery sequence writes to [_cliproxy_state]:
    [import_cliproxy_snapshot] leaves it unchanged whatever its outcome, and
    so do lines 1480-1497 of [broadcast_usage_update], the second read of
    the upstream totals included.  Hence, after a cycle that read the
    integer totals [(ct, cr)], the state is the one
    [detect_cliproxy_restart] recorded for [(ct, cr)], also when a restart
    was detected and the snapshot restored: the baseline is [(ct, cr)], and
    a next observation of totals that are not below [(ct, cr)] (the restored
    ones) reports no restart and leaves [restart_count] alone. *)
Theorem C10_recovery_never_writes_monitor_state :
  (forall (env : Env) (w : World),
      cliproxy_state (snd (import_cliproxy_snapshot env w))
      = cliproxy_state w)
  /\ (forall (env : Env) (usage : json) (ct cr : Z) (w : World),
         cliproxy_state (snd (recovery_sequence env usage ct cr w))
         = cliproxy_state w)
  /\ (forall (env : Env) (w : World) (text : string)
             (members usage_members : list (string * json)) (ct cr : Z),
         upstream env (ticks w) "GET" "/v0/management/usage" None
         = HttpResponse 200 text (inl (JObj members)) ->
         assoc "usage" members = Some (JObj usage_members) ->
         assoc "total_tokens" usage_members = Some (JNum ct) ->
         assoc "total_requests" usage_members = Some (JNum cr) ->
         cliproxy_state (snd (broadcast_usage_update env w))
         = cliproxy_state
             (snd (detect_cliproxy_restart env ct cr (snd (tick w))))
         /\ baseline (cliproxy_state (snd (broadcast_usage_update env w)))
            = (ct, cr)
         /\ (forall (env' : Env) (tokens requests : Z),
                ct <= tokens -> cr <= requests ->
                fst (detect_cliproxy_restart env' tokens requests
                       (snd (broadcast_usage_update env w)))
                = Ret false
                /\ restart_count
                     (cliproxy_state
                        (snd (detect_cliproxy_restart env' tokens requests
                                (snd (broadcast_usage_update env w)))))
                   = restart_count
                       (cliproxy_state (snd (broadcast_usage_update env w))))).
Proof.
  split; [exact pm_import_cliproxy_snapshot|].
  split; [intros env usage ct cr; exact (pm_recovery_sequence env usage ct cr)|].
  intros env w text members usage_members ct cr Hup Hu Ht Hr.
  pose proof (broadcast_state_is_detect_state env w text members
                usage_members ct cr Hup Hu Ht Hr) as Hstate.
  destruct (detect_stores env ct cr (snd (tick w))) as [Hbase Htime].
  rewrite <- Hstate in Hbase, Htime.
  split; [exact Hstate|]. split; [exact Hbase|].
  intros env' tokens requests Htok Hreq.
  set (w' := snd (broadcast_usage_update env w)) in *.
  destruct (detect_tracking env' tokens requests w' _ Htime) as [out E].
  unfold baseline in Hbase. injection Hbase as Hbt Hbr.
  assert (Hno : decreased (cliproxy_state w') tokens requests = false).
  { unfold decreased. rewrite Hbt, Hbr.
    apply orb_false_iff. split; apply Z.ltb_ge; assumption. }
  rewrite E, Hno. split; reflexivity.
Qed.

Lemma C10_recovery_never_writes_monitor_state_witness :
  last_usage_state
    (snd (broadcast_usage_update restoring_env (snapshot_world 100 50)))
  = {| total_tokens := 1000; total_requests := 70 |}
  /\ baseline
       (cliproxy_state
          (snd (broadcast_usage_update restoring_env (snapshot_world 100 50))))
     = (80, 60)
  /\ fst (detect_cliproxy_restart restoring_env 1000 70
            (snd (broadcast_usage_update restoring_env
                    (snapshot_world 100 50))))
     = Ret false.
Proof.
  destruct C10_recovery_never_writes_monitor_state as (_ & _ & Hcycle).
  destruct (Hcycle restoring_env (snapshot_world 100 50) ""
              [("usage", JObj [("total_tokens", JNum 80);
                               ("total_requests", JNum 60)])]
              [("total_tokens", JNum 80); ("total_requests", JNum 60)]
              80 60 eq_refl eq_refl eq_refl eq_refl)
    as (_ & Hbase & Hnext).
  split; [reflexivity|]. split; [exact Hbase|].
  apply Hnext; lia.
Defined.

(** * The scenario of the specification, run *)

Example observe_baseline_then_drop_then_growth :
  fst (observe_all unreachable_env [(100, 50); (80, 60); (150, 70)] fresh_world)
  = [false; true; false].
Proof. reflexivity. Qed.

Example restart_cycle_restores_and_keeps_baseline :
  cliproxy_state
    (snd (broadcast_usage_update restoring_env (snapshot_world 100 50)))
  = {| last_total_tokens := 80;
       last_total_requests := 60;
       last_check_time := Some 1700000001;
       restart_count := 1 |}.
Proof. reflexivity. Qed.

Example next_cycle_takes_restored_totals_as_growth :
  cliproxy_state
    (snd (usage_broadcast_job restoring_env 2 (snapshot_world 100 50)))
  = {| last_total_tokens := 1000;
       last_total_requests := 70;
       last_check_time := Some 1700000007;
       restart_count := 1 |}.
Proof. reflexivity. Qed.

Example rejected_import_is_logged :
  stdout (snd (import_cliproxy_snapshot rejecting_env (snapshot_world 80 60)))
  = [LogLoadingSnapshot; LogSnapshotInfo;
     LogExportedAt (JStr "2025-01-01T00:00:00Z");
     LogSnapshotTokens (JNum 1000); LogSnapshotRequests (JNum 70);
     LogImporting;
     LogImportFailed (Some "API error: 500 - internal error")].
Proof. reflexivity. Qed.

(** * Further properties of the embedded functions *)

(** ** [call_management_api] *)

Definition supported_method (method : string) : bool :=
  String.eqb method "GET" || String.eqb method "POST".

(** The body that goes out with a request: [requests.get] sends none. *)
Definition request_body (method : string) (data : option json) : option json :=
  if String.eqb method "GET" then None else data.

(** The values the format specification [:,] accepts. *)
Definition printable (v : json) : bool :=
  match v with
  | JNum _ | JBool _ => true
  | _ => false
  end.

(** [d.get(key, default)] on the members of an object. *)
Definition member (key : string) (default : json)
  (members : list (string * json)) : json :=
  match assoc key members with
  | Some v => v
  | None => default
  end.

(** The document that [import_cliproxy_snapshot] posts, when the lines
    before the request (750-768) run through: the file holds an object, its
    "usage" member is absent or an object, and the two totals are absent or
    numbers. *)
Definition snapshot_sendable (f : file_state) : option json :=
  match f with
  | Present (Some (JObj members)) =>
      match member "usage" (JObj []) members with
      | JObj usage =>
          if printable (member "total_tokens" (JNum 0) usage)
             && printable (member "total_requests" (JNum 0) usage)
          then Some (JObj members)
          else None
      | _ => None
      end
  | _ => None
  end.

(** The answers to the import after which lines 775-788 run through: an
    object whose three counts are absent or numbers. *)
Definition reply_reports_import (reply : json) : bool :=
  match reply with
  | JObj members =>
      printable (member "added" (JNum 0) members)
      && printable (member "skipped" (JNum 0) members)
      && printable (member "total_requests" (JNum 0) members)
  | _ => false
  end.

(** X1. [call_management_api] never raises.  With a method other than GET
    and POST it makes no request and returns the error "Unsupported method";
    with GET or POST it makes exactly one request, and [err] is [None]
    exactly when the upstream answered with status 200 and a body that
    parses, in which case [data] is that body; with any error [data] is
    [None]. *)
Theorem call_management_api_contract :
  forall (env : Env) (method endpoint : string) (data : option json)
         (w : World),
    (supported_method method = false ->
     call_management_api env method endpoint data w
     = (Ret (JNull, Some ("Unsupported method: " ++ method)%string), w))
    /\ (supported_method method = true ->
        exists (doc : json) (err : option string),
          call_management_api env method endpoint data w
          = (Ret (doc, err), snd (tick w))
          /\ (err = None <->
              exists text : string,
                upstream env (ticks w) method endpoint
                  (request_body method data)
                = HttpResponse 200 text (inl doc))
          /\ (err <> None -> doc = JNull)).
Proof.
  intros env method endpoint data w.
  unfold supported_method, request_body, call_management_api.
  destruct (String.eqb method "GET") eqn:Hget.
  - split; [discriminate|]. intros _.
    unfold bind, tick, ret. cbn.
    destruct (upstream env (ticks w) method endpoint None)
      as [msg|status_code text body].
    + do 2 eexists. split; [reflexivity|].
      split; [split; [discriminate|intros [t Ht]; discriminate]|reflexivity].
    + destruct (Z.eqb status_code 200) eqn:Hs.
      * apply Z.eqb_eq in Hs. subst status_code.
        destruct body as [doc|msg]; do 2 eexists;
          (split; [reflexivity|]).
        -- split; [split; [eauto|reflexivity]|congruence].
        -- split; [split; [discriminate|intros [t Ht]; discriminate]
                  |reflexivity].
      * do 2 eexists. split; [reflexivity|].
        split; [split; [discriminate|]|reflexivity].
        intros [t Ht]. injection Ht as -> _ _. discriminate.
  - destruct (String.eqb method "POST") eqn:Hpost; cbn.
    + split; [discriminate|]. intros _.
      unfold bind, tick, ret. cbn.
      destruct (upstream env (ticks w) method endpoint data)
        as [msg|status_code text body].
      * do 2 eexists. split; [reflexivity|].
        split; [split; [discriminate|intros [t Ht]; discriminate]|reflexivity].
      * destruct (Z.eqb status_code 200) eqn:Hs.
        -- apply Z.eqb_eq in Hs. subst status_code.
           destruct body as [doc|msg]; do 2 eexists;
             (split; [reflexivity|]).
           ++ split; [split; [eauto|reflexivity]|congruence].
           ++ split; [split; [discriminate|intros [t Ht]; discriminate]
                     |reflexivity].
        -- do 2 eexists. split; [reflexivity|].
           split; [split; [discriminate|]|reflexivity].
           intros [t Ht]. injection Ht as -> _ _. discriminate.
    + split; [reflexivity|discriminate].
Qed.

Lemma call_management_api_contract_witness :
  call_management_api restoring_env "PUT" "/v0/management/api-keys"
    (Some (JArr [])) (tracking_world 100 50)
  = (Ret (JNull, Some "Unsupported method: PUT"), tracking_world 100 50).
Proof.
  exact (proj1 (call_management_api_contract restoring_env "PUT"
                  "/v0/management/api-keys" (Some (JArr []))
                  (tracking_world 100 50)) eq_refl).
Defined.

(** ** [detect_cliproxy_restart]: what it does besides the state *)

(** X2. Besides [_cliproxy_state], a call reads the clock once and prints at
    most one line: "Monitoring initialized" on the first observation; on a
    restart the banner with the new restart number, the previous totals and
    check time, the current totals and time, and the loss previous - current
    of each counter; nothing otherwise.  It never touches the snapshot file,
    [_last_usage_state] or the socket. *)
Theorem detect_prints_the_loss_and_touches_nothing_else :
  forall (env : Env) (ct cr : Z) (w : World),
    let st := cliproxy_state w in
    let w' := snd (detect_cliproxy_restart env ct cr w) in
    ticks w' = S (ticks w)
    /\ snapshot_file w' = snapshot_file w
    /\ last_usage_state w' = last_usage_state w
    /\ emitted w' = emitted w
    /\ stdout w'
       = stdout w
         ++ match last_check_time st with
            | None => [LogMonitoringInitialized ct cr]
            | Some t =>
                if decreased st ct cr then
                  [LogRestartDetected (restart_count st + 1)
                     (last_total_tokens st) (last_total_requests st) (Some t)
                     ct cr (clock env (ticks w))
                     (last_total_tokens st - ct)
                     (last_total_requests st - cr)]
                else []
            end.
Proof.
  intros env ct cr w st w'. subst st w'.
  unfold detect_cliproxy_restart, datetime_now, bind, tick, ret, get_state,
    decreased.
  cbn.
  destruct (last_check_time (cliproxy_state w)) as [t|] eqn:Ht.
  - destruct ((ct <? last_total_tokens (cliproxy_state w))
              || (cr <? last_total_requests (cliproxy_state w))); cbn.
    + rewrite Ht. repeat split; reflexivity.
    + rewrite app_nil_r. repeat split; reflexivity.
  - cbn. repeat split; reflexivity.
Qed.

(** ** [import_cliproxy_snapshot]: when it posts and what it returns *)

(** The exception that the format specification [:,] raises. *)
Definition fmt_error (v : json) : exn :=
  match v with
  | JStr _ => ValueError
  | _ => TypeError
  end.

(** The value that [import_cliproxy_snapshot] returns, read off the file and
    the answer of the upstream. *)
Definition import_succeeds (env : Env) (w : World) : bool :=
  match snapshot_sendable (snapshot_file w) with
  | None => false
  | Some doc =>
      match upstream env (ticks w) "POST" "/v0/management/usage/import"
              (Some doc) with
      | HttpResponse status_code _ (inl reply) =>
          (status_code =? 200) && reply_reports_import reply
      | _ => false
      end
  end.

Lemma py_get_eq (d : json) (key : string) (default : json) (w : World) :
  py_get d key default w =
  match d with
  | JObj members => (Ret (member key default members), w)
  | _ => (Raise AttributeError, w)
  end.
Proof.
  destruct d; try reflexivity.
  unfold py_get, member. destruct (assoc key members); reflexivity.
Qed.

Lemma fmt_comma_eq (v : json) (w : World) :
  fmt_comma v w =
  if printable v then (Ret tt, w) else (Raise (fmt_error v), w).
Proof. destruct v; reflexivity. Qed.

(** Runs the code in the goal: every [get] and every format is replaced by
    its equation, then the run is split on the next thing it depends on. *)
Ltac exec_goal :=
  repeat (cbn -[py_get fmt_comma printable member];
          rewrite ?py_get_eq, ?fmt_comma_eq;
          match goal with
          | |- context [match ?x with _ => _ end] =>
              lazymatch x with
              | context [match _ with _ => _ end] => fail
              | _ => destruct x eqn:?
              end
          end).

Lemma import_run (env : Env) (w : World) :
  fst (import_cliproxy_snapshot env w) = Ret (import_succeeds env w)
  /\ ticks (snd (import_cliproxy_snapshot env w))
     = match snapshot_sendable (snapshot_file w) with
       | Some _ => S (ticks w)
       | None => ticks w
       end
  /\ snapshot_file (snd (import_cliproxy_snapshot env w)) = snapshot_file w
  /\ last_usage_state (snd (import_cliproxy_snapshot env w))
     = last_usage_state w
  /\ emitted (snd (import_cliproxy_snapshot env w)) = emitted w.
Proof.
  unfold import_succeeds, snapshot_sendable, reply_reports_import,
    import_cliproxy_snapshot, try_except, bind, read_snapshot_file,
    print, call_management_api, tick, ret, raise, truthy.
  exec_goal.
  all: cbn -[printable member]; repeat split; try reflexivity; congruence.
Qed.









(** ** [broadcast_usage_update]: the change broadcast (lines 1499-1517) *)

(** X5. Lines 1499-1517, entered with the object [usage] and the totals
    [ct], [cr]: with totals equal to [_last_usage_state] nothing at all
    happens; otherwise [_last_usage_state] is set to the totals first, and
    then one "usage_update" is emitted with these totals, today's entries of
    the two day maps and the success count, and one line is printed.  When
    a day map is present and not an object the [get] raises after
    [_last_usage_state] was set: nothing is emitted, and the totals count as
    broadcast all the same. *)
Theorem broadcast_if_changed_updates_then_emits :
  forall (env : Env) (usage : list (string * json)) (ct cr : Z) (w : World),
    let last := last_usage_state w in
    let run := broadcast_if_changed env (JObj usage) ct cr w in
    last_usage_state (snd run) = {| total_tokens := ct; total_requests := cr |}
    /\ (ct = total_tokens last -> cr = total_requests last ->
        run = (Ret tt, w))
    /\ (ct <> total_tokens last \/ cr <> total_requests last ->
        match member "tokens_by_day" (JObj []) usage,
              member "requests_by_day" (JObj []) usage with
        | JObj tokens_by_day, JObj requests_by_day =>
            let today := strftime_day env (clock env (ticks w)) in
            fst run = Ret tt
            /\ emitted (snd run)
               = emitted w
                 ++ [{| upd_total_tokens := ct;
                        upd_total_requests := cr;
                        upd_today_tokens :=
                          member today (JNum 0) tokens_by_day;
                        upd_today_requests :=
                          member today (JNum 0) requests_by_day;
                        upd_success_count :=
                          member "success_count" (JNum 0) usage;
                        upd_timestamp := clock env (S (ticks w)) |}]
            /\ stdout (snd run) = stdout w ++ [LogBroadcast ct]
        | _, _ =>
            fst run = Raise AttributeError
            /\ emitted (snd run) = emitted w
            /\ stdout (snd run) = stdout w
        end).
Proof.
  intros env usage ct cr w last run. subst last run.
  unfold broadcast_if_changed, bind, get_usage_state, put_usage_state,
    datetime_now, tick, ret, emit, print.
  cbn -[py_get member].
  destruct (last_usage_state w) as [lt lr] eqn:Hlast. cbn [total_tokens total_requests].
  destruct (Z.eqb_spec ct lt) as [Ht|Ht]; destruct (Z.eqb_spec cr lr) as [Hr|Hr];
    cbn -[py_get member].
  1: { subst. split; [exact Hlast|]. split; [reflexivity|].
       intros [H|H]; contradiction. }
  all: rewrite !py_get_eq;
    destruct (member "tokens_by_day" (JObj []) usage);
    cbn -[py_get member]; rewrite ?py_get_eq;
    destruct (member "requests_by_day" (JObj []) usage);
    cbn -[py_get member]; rewrite ?py_get_eq; cbn -[member];
    (split; [reflexivity|]);
    (split; [intros; subst; contradiction|]);
    intros _; repeat split; reflexivity.
Qed.

(** ** [broadcast_usage_update]: whole cycles *)

(** The [except] clause of [broadcast_usage_update] (lines 1518-1521). *)
Definition broadcast_handler (e : exn) : M unit :=
  print (LogBroadcastError (exn_str e)).

(** The upstream answers the read of a cycle started in [w] with a document
    whose "usage" object has the integer totals [ct] and [cr]. *)
Definition reads_totals (env : Env) (w : World) (usage : list (string * json))
  (ct cr : Z) : Prop :=
  exists (text : string) (members : list (string * json)),
    upstream env (ticks w) "GET" "/v0/management/usage" None
    = HttpResponse 200 text (inl (JObj members))
    /\ assoc "usage" members = Some (JObj usage)
    /\ assoc "total_tokens" usage = Some (JNum ct)
    /\ assoc "total_requests" usage = Some (JNum cr).

(** A cycle that reads integer totals is: the read, the observation, and
    lines 1479-1517 on the world the observation leaves. *)
Lemma broadcast_cycle (env : Env) (w : World) (usage : list (string * json))
  (ct cr : Z) :
  reads_totals env w usage ct cr ->
  exists restarted : bool,
    fst (detect_cliproxy_restart env ct cr (snd (tick w))) = Ret restarted
    /\ broadcast_usage_update env w
       = try_except
           (locals <- (if restarted
                       then recovery_sequence env (JObj usage) ct cr
                       else ret (JObj usage, ct, cr)) ;;
            let '(usage, current_tokens, current_requests) := locals in
            broadcast_if_changed env usage current_tokens current_requests)
           broadcast_handler
           (snd (detect_cliproxy_restart env ct cr (snd (tick w)))).
Proof.
  intros (text & members & Hup & Hu & Ht & Hr).
  destruct (detect_returns env ct cr (snd (tick w))) as [restarted Hd].
  exists restarted. split; [exact Hd|].
  unfold broadcast_usage_update.
  unfold try_except at 1. unfold try_except at 1.
  unfold bind at 1. unfold call_management_api.
  cbn [String.eqb Ascii.eqb Bool.eqb].
  unfold bind at 1. cbn [tick]. rewrite Hup. cbn [Z.eqb Pos.eqb ret truthy].
  unfold bind at 1. cbn [py_get]. rewrite Hu. cbn [ret].
  unfold bind at 1. cbn [py_get]. rewrite Ht. cbn [ret].
  unfold bind at 1. cbn [py_get]. rewrite Hr. cbn [ret].
  unfold bind at 1. cbn [as_int ret].
  unfold bind at 1. cbn [as_int ret].
  unfold bind at 1. cbn [snd tick] in Hd |- *.
  destruct (detect_cliproxy_restart env ct cr _) as [o w2].
  cbn in Hd. subst o. cbn [snd]. reflexivity.
Qed.

(** X6. In a cycle that reads integer totals and whose observation reports
    no restart (first observation, or no counter below the baseline) the
    recovery sequence is not run: the cycle is the read, the observation and
    the change broadcast of the totals read. *)
Theorem cycle_without_restart_runs_no_recovery :
  forall (env : Env) (w : World) (usage : list (string * json)) (ct cr : Z),
    reads_totals env w usage ct cr ->
    fst (detect_cliproxy_restart env ct cr (snd (tick w))) = Ret false ->
    broadcast_usage_update env w
    = try_except (broadcast_if_changed env (JObj usage) ct cr)
        broadcast_handler
        (snd (detect_cliproxy_restart env ct cr (snd (tick w)))).
Proof.
  intros env w usage ct cr Hreads Hno.
  destruct (broadcast_cycle env w usage ct cr Hreads) as (b & Hb & E).
  rewrite Hno in Hb. injection Hb as <-. rewrite E.
  unfold try_except, bind, ret. reflexivity.
Qed.

Lemma cycle_without_restart_runs_no_recovery_witness :
  stdout (snd (broadcast_usage_update restoring_env (snapshot_world 80 60)))
  = [].
Proof.
  rewrite (cycle_without_restart_runs_no_recovery restoring_env
             (snapshot_world 80 60)
             [("total_tokens", JNum 80); ("total_requests", JNum 60)] 80 60).
  - reflexivity.
  - exists "", [("usage", JObj [("total_tokens", JNum 80);
                               ("total_requests", JNum 60)])].
    repeat split; reflexivity.
  - reflexivity.
Defined.

(** X7. A cycle that reads the totals the monitor and the socket already
    know (baseline and [_last_usage_state] equal to them, a check time set)
    is silent: it prints nothing, emits nothing, runs no recovery and
    changes nothing but the check time; it costs one request and one look
    at the clock. *)
Theorem steady_cycle_is_silent :
  forall (env : Env) (w : World) (usage : list (string * json)) (ct cr : Z)
         (t : timestamp),
    reads_totals env w usage ct cr ->
    last_check_time (cliproxy_state w) = Some t ->
    baseline (cliproxy_state w) = (ct, cr) ->
    last_usage_state w = {| total_tokens := ct; total_requests := cr |} ->
    broadcast_usage_update env w
    = (Ret tt,
       {| cliproxy_state :=
            {| last_total_tokens := ct;
               last_total_requests := cr;
               last_check_time := Some (clock env (S (ticks w)));
               restart_count := restart_count (cliproxy_state w) |};
          last_usage_state := last_usage_state w;
          snapshot_file := snapshot_file w;
          stdout := stdout w;
          emitted := emitted w;
          ticks := S (S (ticks w)) |}).
Proof.
  intros env w usage ct cr t Hreads Htime Hbase Hlast.
  destruct (broadcast_cycle env w usage ct cr Hreads) as (b & Hb & E).
  rewrite E. clear E.
  destruct (detect_tracking env ct cr (snd (tick w)) t Htime) as [out Hd].
  assert (Hsame : decreased (cliproxy_state w) ct cr = false).
  { unfold baseline in Hbase. injection Hbase as Ht Hr.
    unfold decreased. rewrite Ht, Hr, !Z.ltb_irrefl. reflexivity. }
  pose proof (detect_prints_nothing :=
                detect_tracking env ct cr (snd (tick w)) t Htime).
  clear detect_prints_nothing.
  unfold detect_cliproxy_restart, datetime_now, bind, tick, ret, get_state
    in Hb |- *.
  cbn in Hb |- *. rewrite Htime in Hb |- *.
  unfold decreased in Hsame. rewrite Hsame in Hb |- *.
  cbn in Hb |- *. injection Hb as <-.
  unfold try_except, bind, ret, broadcast_if_changed, get_usage_state.
  cbn. rewrite Hlast. cbn. rewrite !Z.eqb_refl. cbn.
  reflexivity.
Qed.

Lemma steady_cycle_is_silent_witness :
  stdout (snd (broadcast_usage_update restoring_env (snapshot_world 80 60)))
  = []
  /\ emitted (snd (broadcast_usage_update restoring_env
                     (snapshot_world 80 60)))
     = []
  /\ ticks (snd (broadcast_usage_update restoring_env (snapshot_world 80 60)))
     = 2%nat.
Proof.
  rewrite (steady_cycle_is_silent restoring_env (snapshot_world 80 60)
             [("total_tokens", JNum 80); ("total_requests", JNum 60)]
             80 60 0).
  - repeat split; reflexivity.
  - exists "", [("usage", JObj [("total_tokens", JNum 80);
                               ("total_requests", JNum 60)])].
    repeat split; reflexivity.
  - reflexivity.
  - reflexivity.
  - reflexivity.
Defined.


(** What lines 1499-1517 do to the world, whatever their outcome. *)
Lemma broadcast_if_changed_effects (env : Env) (usage : list (string * json))
  (ct cr : Z) (w : World) :
  cliproxy_state (snd (broadcast_if_changed env (JObj usage) ct cr w))
  = cliproxy_state w
  /\ last_usage_state (snd (broadcast_if_changed env (JObj usage) ct cr w))
     = {| total_tokens := ct; total_requests := cr |}
  /\ snapshot_file (snd (broadcast_if_changed env (JObj usage) ct cr w))
     = snapshot_file w
  /\ (exists rest : list log_line,
         stdout (snd (broadcast_if_changed env (JObj usage) ct cr w))
         = stdout w ++ rest)
  /\ fst (broadcast_if_changed env (JObj usage) ct cr w) <> Unmodelled.
Proof.
  unfold broadcast_if_changed, bind, get_usage_state, put_usage_state,
    datetime_now, tick, ret, emit, print.
  cbn -[py_get member].
  destruct (last_usage_state w) as [lt lr] eqn:Hlast.
  cbn [total_tokens total_requests].
  destruct (Z.eqb_spec ct lt) as [Ht|Ht];
    destruct (Z.eqb_spec cr lr) as [Hr|Hr];
    cbn -[py_get member].
  1: { subst. repeat split; try assumption; try discriminate.
       exists []. now rewrite app_nil_r. }
  all: rewrite !py_get_eq;
    destruct (member "tokens_by_day" (JObj []) usage);
    cbn -[py_get member]; rewrite ?py_get_eq;
    destruct (member "requests_by_day" (JObj []) usage);
    cbn -[py_get member]; rewrite ?py_get_eq; cbn -[member];
    repeat split; try reflexivity; try discriminate;
    solve [exists []; now rewrite app_nil_r | eexists; reflexivity].
Qed.



(** ** The job "usage_broadcast": invariants over any number of cycles *)

(** One step of the monitor, or none: the restart counter stays or grows by
    one, and a check time that is set stays set. *)
Definition monitor_advances (s s' : MonitorState) : Prop :=
  restart_count s <= restart_count s' <= restart_count s + 1
  /\ (last_check_time s <> None -> last_check_time s' <> None).

Definition observes_at_most_once {A : Type} (c : M A) : Prop :=
  forall w : World,
    monitor_advances (cliproxy_state w) (cliproxy_state (snd (c w))).

Lemma monitor_advances_refl (s s' : MonitorState) :
  s' = s -> monitor_advances s s'.
Proof. intros ->. unfold monitor_advances. split; [lia|auto]. Qed.

Lemma once_of_preserves {A : Type} (c : M A) :
  preserves_monitor c -> observes_at_most_once c.
Proof. intros H w. apply monitor_advances_refl, H. Qed.

Lemma once_bind_after {A B : Type} (c : M A) (k : A -> M B) :
  preserves_monitor c ->
  (forall a : A, observes_at_most_once (k a)) ->
  observes_at_most_once (bind c k).
Proof.
  intros Hc Hk w. unfold bind. specialize (Hc w).
  destruct (c w) as [[a|e|] w']; cbn in *;
    try (apply monitor_advances_refl; assumption).
  rewrite <- Hc. apply Hk.
Qed.

Lemma once_bind_before {A B : Type} (c : M A) (k : A -> M B) :
  observes_at_most_once c ->
  (forall a : A, preserves_monitor (k a)) ->
  observes_at_most_once (bind c k).
Proof.
  intros Hc Hk w. unfold bind. specialize (Hc w).
  destruct (c w) as [[a|e|] w']; cbn in *; try assumption.
  rewrite Hk. assumption.
Qed.

Lemma once_try_except {A : Type} (body : M A) (handler : exn -> M A) :
  observes_at_most_once body ->
  (forall e : exn, preserves_monitor (handler e)) ->
  observes_at_most_once (try_except body handler).
Proof.
  intros Hb Hh w. unfold try_except. specialize (Hb w).
  destruct (body w) as [[a|e|] w']; cbn in *; try assumption.
  rewrite Hh. assumption.
Qed.

Lemma once_detect (env : Env) (ct cr : Z) :
  observes_at_most_once (detect_cliproxy_restart env ct cr).
Proof.
  intros w. unfold monitor_advances.
  destruct (detect_counts env ct cr w) as [b [_ Hc]].
  destruct (detect_stores env ct cr w) as [_ Ht].
  rewrite Hc, Ht. split; [destruct b; lia|discriminate].
Qed.

Lemma once_broadcast_usage_update (env : Env) :
  observes_at_most_once (broadcast_usage_update env).
Proof.
  unfold broadcast_usage_update.
  apply once_try_except; [|intros e; auto with frame].
  apply once_bind_after; [auto with frame|]. intros [data err].
  destruct (truthy err); [apply once_of_preserves; auto with frame|].
  apply once_bind_after; [auto with frame|]. intros usage.
  apply once_bind_after; [auto with frame|]. intros tokens.
  apply once_bind_after; [auto with frame|]. intros requests.
  apply once_bind_after; [auto with frame|]. intros ct.
  apply once_bind_after; [auto with frame|]. intros cr.
  apply once_bind_before; [apply once_detect|]. intros restarted.
  apply pm_after_detect.
Qed.

(** An integer, as the monitor stores it. *)
Definition is_num (v : json) : bool :=
  match v with
  | JNum _ => true
  | _ => false
  end.

(** An answer to the read of the counters whose totals, when the answer
    has status 200 and parses to an object with an object under "usage",
    are integers or absent. *)
Definition integer_totals (answer : http_outcome) : bool :=
  match answer with
  | HttpResponse status_code _ (inl (JObj members)) =>
      if status_code =? 200 then
        match member "usage" (JObj []) members with
        | JObj usage =>
            is_num (member "total_tokens" (JNum 0) usage)
            && is_num (member "total_requests" (JNum 0) usage)
        | _ => true
        end
      else true
  | _ => true
  end.

(** Every read of the counters, whenever it is made, has integer totals. *)
Definition reports_integer_totals (env : Env) : Prop :=
  forall n : nat,
    integer_totals (upstream env n "GET" "/v0/management/usage" None) = true.

(** With integer totals the recovery sequence hands on totals that the
    monitor can store, and a "usage" that is an object. *)
Lemma recovery_sequence_modelled (env : Env) (usage : list (string * json))
  (ct cr : Z) (w : World) :
  reports_integer_totals env ->
  match fst (recovery_sequence env (JObj usage) ct cr w) with
  | Ret (u, _, _) => match u with JObj _ => True | _ => False end
  | Raise _ => True
  | Unmodelled => False
  end.
Proof.
  intros Hint. unfold recovery_sequence.
  unfold bind at 1. cbn [print].
  unfold bind at 1.
  match goal with
  | |- context [import_cliproxy_snapshot env ?w1] =>
      destruct (import_returns env w1) as [b Hb];
      destruct (import_cliproxy_snapshot env w1) as [o w2]
  end.
  cbn in Hb. subst o. destruct b; [|exact I].
  unfold call_management_api, bind, tick, print, ret, truthy.
  cbn -[py_get fmt_comma member].
  specialize (Hint (ticks w2)). unfold integer_totals in Hint.
  destruct (upstream env (ticks w2) "GET" "/v0/management/usage" None)
    as [msg|status_code text [doc|msg]].
  - destruct (String.eqb msg ""); exact I.
  - destruct (status_code =? 200); cbn -[py_get fmt_comma member];
      [|exact I].
    rewrite py_get_eq.
    destruct doc as [| | | | |members]; try exact I.
    destruct (member "usage" (JObj []) members) as [| | | | |usage'];
      cbn -[py_get fmt_comma member]; rewrite ?py_get_eq; try exact I.
    cbn -[py_get fmt_comma member]. rewrite ?py_get_eq.
    destruct (member "total_tokens" (JNum 0) usage');
      try discriminate Hint.
    destruct (member "total_requests" (JNum 0) usage');
      try discriminate Hint.
    exact I.
  - destruct (status_code =? 200); cbn; [|exact I].
    destruct (String.eqb msg ""); exact I.
Qed.

(** With integer totals every cycle runs to its end: what the body raises
    is caught by the [except] clause of lines 1518-1521. *)
Lemma cycle_returns (env : Env) (w : World) :
  reports_integer_totals env ->
  fst (broadcast_usage_update env w) = Ret tt.
Proof.
  intros Hint.
  assert (Hcatch : forall (body : M unit) (handler : exn -> M unit),
             fst (body w) <> Unmodelled ->
             (forall e w', fst (handler e w') = Ret tt) ->
             fst (try_except body handler w) = Ret tt).
  { intros body handler Hbody Hhandler. unfold try_except.
    destruct (body w) as [[[]|e|] w']; cbn in *;
      [reflexivity|apply Hhandler|contradiction]. }
  unfold broadcast_usage_update. apply Hcatch; [|reflexivity].
  unfold call_management_api, bind at 1, tick, ret, truthy.
  cbn -[py_get fmt_comma member detect_cliproxy_restart recovery_sequence
        broadcast_if_changed bind].
  unfold bind at 1.
  cbn -[py_get fmt_comma member detect_cliproxy_restart recovery_sequence
        broadcast_if_changed bind].
  pose proof (Hint (ticks w)) as Hw. unfold integer_totals in Hw.
  destruct (upstream env (ticks w) "GET" "/v0/management/usage" None)
    as [msg|status_code text [doc|msg]].
  - cbn. destruct (String.eqb msg ""); cbn; discriminate.
  - destruct (status_code =? 200);
      cbn -[py_get fmt_comma member detect_cliproxy_restart
            recovery_sequence broadcast_if_changed bind];
      [|discriminate].
    unfold bind at 1. rewrite py_get_eq.
    destruct doc as [| | | | |members]; try discriminate.
    cbn -[py_get fmt_comma member detect_cliproxy_restart
          recovery_sequence broadcast_if_changed bind].
    unfold bind at 1. rewrite py_get_eq.
    destruct (member "usage" (JObj []) members) as [| | | | |usage];
      try discriminate.
    cbn -[py_get fmt_comma member detect_cliproxy_restart
          recovery_sequence broadcast_if_changed bind].
    unfold bind at 1. rewrite py_get_eq.
    cbn -[py_get fmt_comma member detect_cliproxy_restart
          recovery_sequence broadcast_if_changed bind].
    destruct (member "total_tokens" (JNum 0) usage) as [| |ct| | |];
      try discriminate Hw.
    destruct (member "total_requests" (JNum 0) usage) as [| |cr| | |];
      try discriminate Hw.
    unfold bind at 1. cbn [as_int ret].
    unfold bind at 1. cbn [as_int ret].
    unfold bind at 1.
    match goal with
    | |- context [detect_cliproxy_restart env ct cr ?w1] =>
        destruct (detect_returns env ct cr w1) as [b Hb];
        destruct (detect_cliproxy_restart env ct cr w1) as [o w2]
    end.
    cbn in Hb. subst o. unfold bind at 1.
    destruct b.
    + pose proof (recovery_sequence_modelled env usage ct cr w2 Hint) as Hrec.
      destruct (recovery_sequence env (JObj usage) ct cr w2)
        as [[[[u ct'] cr']|e|] w3]; cbn in Hrec;
        [|discriminate|contradiction].
      destruct u as [| | | | |usage']; try contradiction.
      apply (broadcast_if_changed_effects env usage' ct' cr' w3).
    + cbn [ret]. apply (broadcast_if_changed_effects env usage ct cr w2).
  - destruct (status_code =? 200); cbn; [|discriminate].
    destruct (String.eqb msg ""); cbn; discriminate.
Qed.

(** X9. Against an upstream whose reads of the counters, whenever they
    have status 200 and parse to an object with an object under "usage",
    carry totals that are integers or absent: every cycle of the job runs to
    its end, whatever else fails (requests, the import, the day maps), so
    the job of any number of cycles returns; over it [restart_count] never
    decreases and grows by at most one per cycle, and once a check time is
    set it is never [None] again. *)
Theorem job_counts_at_most_one_restart_per_cycle :
  forall (env : Env) (cycles : nat) (w : World),
    reports_integer_totals env ->
    let run := usage_broadcast_job env cycles w in
    fst run = Ret tt
    /\ restart_count (cliproxy_state w)
       <= restart_count (cliproxy_state (snd run))
    /\ restart_count (cliproxy_state (snd run))
       <= restart_count (cliproxy_state w) + Z.of_nat cycles
    /\ (last_check_time (cliproxy_state w) <> None ->
        last_check_time (cliproxy_state (snd run)) <> None).
Proof.
  intros env cycles w Hint. revert w.
  induction cycles as [|n IH]; intros w.
  - cbn. repeat split; auto; lia.
  - cbn zeta. cbn [usage_broadcast_job]. unfold bind.
    destruct (once_broadcast_usage_update env w) as [[Hlo Hhi] Htime].
    pose proof (cycle_returns env w Hint) as Hret.
    destruct (broadcast_usage_update env w) as [o w1].
    cbn [fst snd] in Hlo, Hhi, Htime, Hret. subst o.
    specialize (IH w1). cbn zeta in IH.
    destruct IH as (IHret & IHlo & IHhi & IHtime).
    repeat split; [exact IHret|lia|lia|auto].
Qed.

Lemma restoring_env_reports_integer_totals :
  reports_integer_totals restoring_env.
Proof.
  intros n. unfold restoring_env. cbn [upstream String.eqb Ascii.eqb Bool.eqb].
  destruct (n <? 3)%nat; reflexivity.
Defined.

Lemma job_counts_at_most_one_restart_per_cycle_witness :
  fst (usage_broadcast_job restoring_env 5 (snapshot_world 100 50)) = Ret tt
  /\ restart_count
       (cliproxy_state
          (snd (usage_broadcast_job restoring_env 5 (snapshot_world 100 50))))
     <= 0 + 5
  /\ restart_count
       (cliproxy_state
          (snd (usage_broadcast_job restoring_env 5 (snapshot_world 100 50))))
     = 1.
Proof.
  destruct (job_counts_at_most_one_restart_per_cycle restoring_env 5
              (snapshot_world 100 50) restoring_env_reports_integer_totals)
    as (Hret & _ & Hhi & _).
  split; [exact Hret|]. split; [exact Hhi|reflexivity].
Defined.

(** * The portal beyond the monitor

    The functions below print lines of their own and work on two more files
    and on the cache [_user_keys_cache].  Their state is a [Portal]: the
    [World] of the monitor, the lines they print ([journal], kept apart from
    [stdout], which records the lines of the functions above) and the files
    and the cache of the key bookkeeping.  The outcome of a write to a file
    and the UTC clock belong to the environment. *)

(** What writing a file does: it is written; or [os.makedirs] or [open]
    raises and the file is as before; or [open] has truncated the file and
    the write raises, leaving a file that does not parse. *)
Inductive write_result : Type :=
| Written
| WriteRefused
| WriteTorn.

Record PortalEnv : Type := mkPortalEnv {
  net : Env;
  file_write : nat -> write_result;
  utcnow_isoformat : nat -> string
}.

Inductive portal_file : Type :=
| SnapshotFile
| KeyPoolFile
| UserKeysFile.

Inductive portal_line : Type :=
| LogExporting
| LogExportFailed (err : option string)
| LogExported (tokens requests : json)
| LogSavedTo
| LogExportError (e : string)
| LogRunningSnapshotExport (now : timestamp)
| LogKeyPoolLoadError (e : string)
| LogKeyPoolSaveError (e : string)
| LogUserKeysLoaded (users keys : json)
| LogUserKeysLoadError (e : string)
| LogUserKeysSaved (users : json)
| LogUserKeysSaveError (e : string)
| LogAssigned (key : json) (email : string)
| LogRevoked (key : string) (email : json).

(** [_user_keys_cache]: [cache_data] is [None] for Python's [None]. *)
Record Portal : Type := mkPortal {
  core : World;
  journal : list portal_line;
  key_pool_file : file_state;
  user_keys_file : file_state;
  cache_data : option json;
  cache_loaded : bool
}.

(** The exceptions of the monitor, [KeyError] and [IndexError]. *)
Inductive pexn : Type :=
| Exn (e : exn)
| KeyError
| IndexError.

Definition pexn_str (e : pexn) : string :=
  match e with
  | Exn e => exn_str e
  | KeyError => "KeyError"
  | IndexError => "IndexError"
  end.

Inductive poutcome (A : Type) : Type :=
| PRet (a : A)
| PRaise (e : pexn)
| PUnmodelled.

Arguments PRet {A} a.
Arguments PRaise {A} e.
Arguments PUnmodelled {A}.

Definition P (A : Type) : Type := Portal -> poutcome A * Portal.

Definition pret {A : Type} (a : A) : P A := fun p => (PRet a, p).

Definition pbind {A B : Type} (c : P A) (k : A -> P B) : P B :=
  fun p =>
    match c p with
    | (PRet a, p') => k a p'
    | (PRaise e, p') => (PRaise e, p')
    | (PUnmodelled, p') => (PUnmodelled, p')
    end.

Definition praise {A : Type} (e : pexn) : P A := fun p => (PRaise e, p).

Definition punmodelled {A : Type} : P A := fun p => (PUnmodelled, p).

Definition ptry {A : Type} (body : P A) (handler : pexn -> P A) : P A :=
  fun p =>
    match body p with
    | (PRaise e, p') => handler e p'
    | r => r
    end.

Definition set_core (w : World) (p : Portal) : Portal :=
  {| core := w;
     journal := journal p;
     key_pool_file := key_pool_file p;
     user_keys_file := user_keys_file p;
     cache_data := cache_data p;
     cache_loaded := cache_loaded p |}.

(** A function of the monitor, run on the world inside the portal. *)
Definition lift {A : Type} (c : M A) : P A :=
  fun p =>
    match c (core p) with
    | (Ret a, w') => (PRet a, set_core w' p)
    | (Raise e, w') => (PRaise (Exn e), set_core w' p)
    | (Unmodelled, w') => (PUnmodelled, set_core w' p)
    end.

Definition jprint (l : portal_line) : P unit :=
  fun p =>
    (PRet tt,
     {| core := core p;
        journal := journal p ++ [l];
        key_pool_file := key_pool_file p;
        user_keys_file := user_keys_file p;
        cache_data := cache_data p;
        cache_loaded := cache_loaded p |}).

Definition read_file (f : portal_file) : P file_state :=
  fun p =>
    (PRet match f with
          | SnapshotFile => snapshot_file (core p)
          | KeyPoolFile => key_pool_file p
          | UserKeysFile => user_keys_file p
          end,
     p).

Definition set_snapshot_file (f : file_state) (w : World) : World :=
  {| cliproxy_state := cliproxy_state w;
     last_usage_state := last_usage_state w;
     snapshot_file := f;
     stdout := stdout w;
     emitted := emitted w;
     ticks := ticks w |}.

Definition put_file (f : portal_file) (c : file_state) : P unit :=
  fun p =>
    (PRet tt,
     match f with
     | SnapshotFile => set_core (set_snapshot_file c (core p)) p
     | KeyPoolFile =>
         {| core := core p;
            journal := journal p;
            key_pool_file := c;
            user_keys_file := user_keys_file p;
            cache_data := cache_data p;
            cache_loaded := cache_loaded p |}
     | UserKeysFile =>
         {| core := core p;
            journal := journal p;
            key_pool_file := key_pool_file p;
            user_keys_file := c;
            cache_data := cache_data p;
            cache_loaded := cache_loaded p |}
     end).

Declare Scope portal_scope.
Delimit Scope portal_scope with portal.
Notation "x <- c ;; k" := (pbind c (fun x => k))
  (at level 61, c at next level, right associativity) : portal_scope.
Notation "c ;; k" := (pbind c (fun _ => k))
  (at level 61, right associativity) : portal_scope.

Section SnapshotExport.

Local Open Scope portal_scope.

Variable penv : PortalEnv.

(** [os.makedirs(...)], [open(file, "w")] and [json.dump(doc, f)]. *)
Definition write_json (f : portal_file) (doc : json) : P unit :=
  n <- lift tick ;;
  match file_write penv n with
  | Written => put_file f (Present (Some doc))
  | WriteRefused => praise (Exn OSError)
  | WriteTorn => put_file f (Present None) ;; praise (Exn OSError)
  end.

(** ** [export_cliproxy_snapshot], app.py lines 717-744 *)
Definition export_cliproxy_snapshot : P bool :=
  ptry
    (jprint LogExporting ;;
     r <- lift (call_management_api (net penv) "GET"
                  "/v0/management/usage/export" None) ;;
     let (data, err) := r in
     if truthy err then
       jprint (LogExportFailed err) ;;
       pret false
     else
       write_json SnapshotFile data ;;
       usage <- lift (py_get data "usage" (JObj [])) ;;
       total_tokens <- lift (py_get usage "total_tokens" (JNum 0)) ;;
       total_requests <- lift (py_get usage "total_requests" (JNum 0)) ;;
       lift (fmt_comma total_tokens) ;;
       lift (fmt_comma total_requests) ;;
       jprint (LogExported total_tokens total_requests) ;;
       jprint LogSavedTo ;;
       pret true)
    (fun e =>
       jprint (LogExportError (pexn_str e)) ;;
       pret false).

(** ** [scheduled_snapshot_export], app.py lines 852-856 *)
Definition scheduled_snapshot_export : P unit :=
  now <- lift (datetime_now (net penv)) ;;
  jprint (LogRunningSnapshotExport now) ;;
  export_cliproxy_snapshot ;;
  pret tt.

End SnapshotExport.

(** ** Properties of [export_cliproxy_snapshot] *)

(** The value [export_cliproxy_snapshot] returns after it wrote [doc]. *)
Definition export_result (doc : json) : bool :=
  match snapshot_sendable (Present (Some doc)) with
  | Some _ => true
  | None => false
  end.

(** A portal at process start, and one holding a snapshot. *)
Definition fresh_portal : Portal :=
  {| core := fresh_world;
     journal := [];
     key_pool_file := Missing;
     user_keys_file := Missing;
     cache_data := None;
     cache_loaded := false |}.

Definition snapshot_portal : Portal :=
  {| core := snapshot_world 100 50;
     journal := [];
     key_pool_file := Missing;
     user_keys_file := Missing;
     cache_data := None;
     cache_loaded := false |}.

(** An upstream that exports the usage document (1000, 70), on a disk where
    every write succeeds; one that exports a list; and one that answers 500. *)
Definition exporting_env : PortalEnv :=
  {| net := {| upstream := fun _ _ _ _ =>
                 HttpResponse 200 "" (inl (usage_document 1000 70));
               clock := fun n => 1700000000 + Z.of_nat n;
               strftime_day := fun _ => "2025-01-01" |};
     file_write := fun _ => Written;
     utcnow_isoformat := fun _ => "2025-01-01T00:00:00" |}.

Definition list_exporting_env : PortalEnv :=
  {| net := {| upstream := fun _ _ _ _ => HttpResponse 200 "" (inl (JArr []));
               clock := fun n => 1700000000 + Z.of_nat n;
               strftime_day := fun _ => "2025-01-01" |};
     file_write := fun _ => Written;
     utcnow_isoformat := fun _ => "2025-01-01T00:00:00" |}.

Definition failing_env : PortalEnv :=
  {| net := rejecting_env;
     file_write := fun _ => Written;
     utcnow_isoformat := fun _ => "2025-01-01T00:00:00" |}.

Ltac unfold_export :=
  unfold export_cliproxy_snapshot, write_json, ptry, pbind, lift, jprint,
    pret, praise, put_file, set_core, set_snapshot_file,
    call_management_api, bind, tick, ret, truthy.

(** X10. When the read of the export fails ([err] is true: the request
    raised, the status is not 200 or the body does not parse),
    [export_cliproxy_snapshot] returns [False] after that one request: no
    write is attempted and the snapshot file, with the snapshot taken
    before, is as it was. *)
Theorem export_error_keeps_the_snapshot :
  forall (penv : PortalEnv) (p : Portal) (data : json) (err : option string)
         (w1 : World),
    call_management_api (net penv) "GET" "/v0/management/usage/export" None
      (core p)
    = (Ret (data, err), w1) ->
    truthy err = true ->
    let p' := snd (export_cliproxy_snapshot penv p) in
    fst (export_cliproxy_snapshot penv p) = PRet false
    /\ snapshot_file (core p') = snapshot_file (core p)
    /\ ticks (core p') = S (ticks (core p))
    /\ journal p' = journal p ++ [LogExporting; LogExportFailed err].
Proof.
  intros penv p data err w1 Hcall Herr p'. subst p'.
  assert (Hw1 : snapshot_file w1 = snapshot_file (core p)
                /\ ticks w1 = S (ticks (core p))).
  { revert Hcall. unfold call_management_api, bind, tick, ret. cbn.
    destruct (upstream _ _ _ _ _) as [msg|status_code text [doc|msg]];
      [|destruct (status_code =? 200)..];
      intros H; injection H as _ _ <-; split; reflexivity. }
  assert (Hrun : export_cliproxy_snapshot penv p
                 = (PRet false,
                    {| core := w1;
                       journal :=
                         (journal p ++ [LogExporting])
                         ++ [LogExportFailed err];
                       key_pool_file := key_pool_file p;
                       user_keys_file := user_keys_file p;
                       cache_data := cache_data p;
                       cache_loaded := cache_loaded p |})).
  { unfold export_cliproxy_snapshot, ptry.
    unfold pbind at 1. cbn [jprint]. unfold pbind at 1. unfold lift at 1.
    cbn [core]. rewrite Hcall. rewrite Herr.
    unfold pbind, jprint, pret, set_core. reflexivity. }
  rewrite Hrun. cbn. destruct Hw1 as [Hfile Hticks].
  repeat split; try assumption.
  rewrite <- app_assoc. reflexivity.
Qed.

Lemma export_error_keeps_the_snapshot_witness :
  fst (export_cliproxy_snapshot failing_env snapshot_portal) = PRet false
  /\ snapshot_file
       (core (snd (export_cliproxy_snapshot failing_env snapshot_portal)))
     = Present (Some sample_snapshot).
Proof.
  destruct (export_error_keeps_the_snapshot failing_env snapshot_portal
              JNull (Some "API error: 500 - internal error")
              (snd (tick (core snapshot_portal))) eq_refl eq_refl)
    as (Hret & Hfile & _).
  split; [exact Hret|exact Hfile].
Defined.

(** X11. [export_cliproxy_snapshot] writes before it looks at what it
    writes.  When the upstream answers with status 200 and a document, and
    the write succeeds, the snapshot file holds exactly that document, and
    the function returns [True] exactly when the document is one that
    [import_cliproxy_snapshot] will post (an object with a "usage" that is
    absent or an object with totals that are absent or numbers); any other
    document replaces the previous snapshot all the same and [False] is
    returned.  When the write is refused the file is as before; when it
    breaks off, the file no longer parses; both return [False]. *)
Theorem export_writes_before_validating :
  forall (penv : PortalEnv) (p : Portal) (text : string) (doc : json),
    upstream (net penv) (ticks (core p)) "GET" "/v0/management/usage/export"
      None
    = HttpResponse 200 text (inl doc) ->
    let p' := snd (export_cliproxy_snapshot penv p) in
    match file_write penv (S (ticks (core p))) with
    | Written =>
        snapshot_file (core p') = Present (Some doc)
        /\ fst (export_cliproxy_snapshot penv p) = PRet (export_result doc)
    | WriteRefused =>
        snapshot_file (core p') = snapshot_file (core p)
        /\ fst (export_cliproxy_snapshot penv p) = PRet false
    | WriteTorn =>
        snapshot_file (core p') = Present None
        /\ fst (export_cliproxy_snapshot penv p) = PRet false
    end.
Proof.
  intros penv p text doc Hup p'. subst p'.
  unfold export_result, snapshot_sendable.
  unfold_export.
  cbn -[py_get fmt_comma printable member]. rewrite Hup.
  cbn -[py_get fmt_comma printable member].
  destruct (file_write penv (S (ticks (core p)))).
  all: exec_goal.
  all: cbn -[printable member]; split; reflexivity.
Qed.

Lemma export_writes_before_validating_witness :
  snapshot_file
    (core (snd (export_cliproxy_snapshot list_exporting_env snapshot_portal)))
  = Present (Some (JArr []))
  /\ fst (export_cliproxy_snapshot list_exporting_env snapshot_portal)
     = PRet false.
Proof.
  exact (export_writes_before_validating list_exporting_env snapshot_portal
           "" (JArr []) eq_refl).
Defined.

(** What [import_cliproxy_snapshot] returns on a world whose snapshot file
    holds a document it posts. *)
Lemma import_after (env : Env) (w : World) (doc : json) :
  snapshot_sendable (snapshot_file w) = Some doc ->
  (fst (import_cliproxy_snapshot env w) = Ret true
   <-> exists (text : string) (reply : json),
         upstream env (ticks w) "POST" "/v0/management/usage/import"
           (Some doc)
         = HttpResponse 200 text (inl reply)
         /\ reply_reports_import reply = true).
Proof.
  intros Hdoc.
  destruct (import_run env w) as (Hret & _). rewrite Hret.
  unfold import_succeeds. rewrite Hdoc. split.
  - intros H.
    destruct (upstream env (ticks w) "POST" "/v0/management/usage/import"
                (Some doc)) as [msg|status_code text [reply|msg]] eqn:Hup;
      try discriminate.
    injection H as H. apply andb_true_iff in H. destruct H as [Hs Hr].
    apply Z.eqb_eq in Hs. subst status_code. eauto.
  - intros (text & reply & Hup & Hreply). rewrite Hup, Hreply. reflexivity.
Qed.

(** [export_cliproxy_snapshot] returns [True] only from line 739. *)
Lemma export_true_inv (penv : PortalEnv) (p : Portal) :
  fst (export_cliproxy_snapshot penv p) = PRet true ->
  exists (doc : json) (text : string),
    upstream (net penv) (ticks (core p)) "GET"
      "/v0/management/usage/export" None
    = HttpResponse 200 text (inl doc)
    /\ file_write penv (S (ticks (core p))) = Written
    /\ snapshot_file (core (snd (export_cliproxy_snapshot penv p)))
       = Present (Some doc)
    /\ snapshot_sendable (Present (Some doc)) = Some doc.
Proof.
  unfold snapshot_sendable.
  unfold_export.
  cbn -[py_get fmt_comma printable member].
  destruct (upstream (net penv) (ticks (core p)) "GET"
              "/v0/management/usage/export" None)
    as [msg|status_code text body] eqn:Hup.
  all: exec_goal.
  all: cbn -[printable member]; intros H; try discriminate H.
  all: match goal with
       | Hs : (_ =? 200) = true |- _ => apply Z.eqb_eq in Hs; subst
       end.
  all: do 2 eexists; repeat split; try reflexivity.
  all: match goal with
       | Hu : member "usage" _ _ = JObj _,
         Ht : printable (member "total_tokens" _ _) = true,
         Hr : printable (member "total_requests" _ _) = true |- _ =>
           rewrite Hu, Ht, Hr; reflexivity
       end.
Qed.

(** X12. Export and import round trip.  When [export_cliproxy_snapshot]
    returns [True], the upstream had answered the export with status 200 and
    a document, the write succeeded and the snapshot file holds that
    document; and as long as the file is not written again, every later
    [import_cliproxy_snapshot] posts exactly that document, and returns
    [True] exactly when the upstream answers that post with status 200 and
    an object with printable counts. *)
Theorem export_then_import_posts_the_exported_document :
  forall (penv : PortalEnv) (p : Portal),
    fst (export_cliproxy_snapshot penv p) = PRet true ->
    exists (doc : json) (text : string),
      upstream (net penv) (ticks (core p)) "GET"
        "/v0/management/usage/export" None
      = HttpResponse 200 text (inl doc)
      /\ file_write penv (S (ticks (core p))) = Written
      /\ snapshot_file (core (snd (export_cliproxy_snapshot penv p)))
         = Present (Some doc)
      /\ (forall (env : Env) (w : World),
             snapshot_file w
             = snapshot_file (core (snd (export_cliproxy_snapshot penv p))) ->
             ticks (snd (import_cliproxy_snapshot env w)) = S (ticks w)
             /\ (fst (import_cliproxy_snapshot env w) = Ret true
                 <-> exists (text' : string) (reply : json),
                       upstream env (ticks w) "POST"
                         "/v0/management/usage/import" (Some doc)
                       = HttpResponse 200 text' (inl reply)
                       /\ reply_reports_import reply = true)).
Proof.
  intros penv p H.
  destruct (export_true_inv penv p H) as (doc & text & Hup & Hw & Hfile & Hs).
  exists doc, text.
  split; [exact Hup|]. split; [exact Hw|]. split; [exact Hfile|].
  intros env w Hsame. split.
  - destruct (import_run env w) as (_ & Hticks & _).
    rewrite Hticks, Hsame, Hfile, Hs. reflexivity.
  - apply import_after. rewrite Hsame, Hfile. exact Hs.
Qed.

Lemma export_then_import_posts_the_exported_document_witness :
  snapshot_file
    (core (snd (export_cliproxy_snapshot exporting_env fresh_portal)))
  = Present (Some (usage_document 1000 70))
  /\ fst (import_cliproxy_snapshot restoring_env
            (core (snd (export_cliproxy_snapshot exporting_env fresh_portal))))
     = Ret true.
Proof.
  destruct (export_then_import_posts_the_exported_document exporting_env
              fresh_portal eq_refl)
    as (doc & text & Hup & _ & Hfile & Himport).
  injection Hup as _ Hdoc. subst doc. split; [exact Hfile|].
  apply (Himport restoring_env _ eq_refl).
  exists "", (JObj [("added", JNum 5); ("skipped", JNum 0);
                    ("total_requests", JNum 70)]).
  split; reflexivity.
Defined.

(** X13. [export_cliproxy_snapshot] never raises: it returns a boolean
    whatever the upstream, the disk and the document do.  Besides the
    snapshot file, its journal and the count of interactions it changes
    nothing: [_cliproxy_state], [_last_usage_state], the socket, the lines
    of the monitor, the key files and the key cache are as before. *)
Theorem export_returns_and_touches_only_the_snapshot :
  forall (penv : PortalEnv) (p : Portal),
    let p' := snd (export_cliproxy_snapshot penv p) in
    (exists b : bool, fst (export_cliproxy_snapshot penv p) = PRet b)
    /\ cliproxy_state (core p') = cliproxy_state (core p)
    /\ last_usage_state (core p') = last_usage_state (core p)
    /\ emitted (core p') = emitted (core p)
    /\ stdout (core p') = stdout (core p)
    /\ key_pool_file p' = key_pool_file p
    /\ user_keys_file p' = user_keys_file p
    /\ cache_data p' = cache_data p
    /\ cache_loaded p' = cache_loaded p.
Proof.
  intros penv p. cbn zeta.
  unfold_export.
  cbn -[py_get fmt_comma printable member].
  destruct (upstream (net penv) (ticks (core p)) "GET"
              "/v0/management/usage/export" None)
    as [msg|status_code text body].
  all: exec_goal.
  all: cbn -[printable member]; repeat split; try reflexivity;
    eexists; reflexivity.
Qed.

(** * The key pool and the user keys (app.py lines 87-231)

    Values read from the two files are JSON documents; every operation of
    the code on them is modelled with the exception Python raises when the
    value has not the shape the code expects.  Two cases leave the model: a
    key of the pool that is a number, a boolean or [null] used as a
    dictionary key, and an integer used as an index into a list.

    [load_user_keys] returns the object held by [_user_keys_cache]; the code
    mutates it in place and never rebinds it between a load and the save
    that follows, so a mutation of [user_keys] is a mutation of
    [cache_data]. *)

(** Python's truth value of a JSON value. *)
Definition py_truthy (v : json) : bool :=
  match v with
  | JNull => false
  | JBool b => b
  | JNum z => negb (z =? 0)
  | JStr s => negb (String.eqb s "")
  | JArr items => match items with [] => false | _ => true end
  | JObj members => match members with [] => false | _ => true end
  end.

(** [d[key] = v] on the members of a dict: an existing key keeps its place,
    a new one goes last. *)
Fixpoint dict_set (key : string) (v : json) (members : list (string * json))
  : list (string * json) :=
  match members with
  | [] => [(key, v)]
  | (k, x) :: rest =>
      if String.eqb k key then (k, v) :: rest
      else (k, x) :: dict_set key v rest
  end.

(** [del d[key]]. *)
Fixpoint dict_del (key : string) (members : list (string * json))
  : list (string * json) :=
  match members with
  | [] => []
  | (k, x) :: rest =>
      if String.eqb k key then rest else (k, x) :: dict_del key rest
  end.

(** The object [d] after [d[key] = v]; used where [d] is known to be an
    object holding [key]. *)
Definition obj_set (key : string) (v : json) (d : json) : json :=
  match d with
  | JObj members => JObj (dict_set key v members)
  | _ => d
  end.

Definition is_str (s : string) (v : json) : bool :=
  match v with
  | JStr x => String.eqb x s
  | _ => false
  end.

(** [items.remove(s)] for a string [s]: the first element equal to it. *)
Fixpoint list_remove (s : string) (items : list json) : option (list json) :=
  match items with
  | [] => None
  | x :: rest =>
      if is_str s x then Some rest
      else match list_remove s rest with
           | Some rest' => Some (x :: rest')
           | None => None
           end
  end.

(** [needle in s] for two strings. *)
Fixpoint is_substring (needle s : string) : bool :=
  String.prefix needle s
  || match s with
     | EmptyString => false
     | String _ s' => is_substring needle s'
     end.

Definition default_key_pool : json :=
  JObj [("unused", JArr []); ("assigned", JObj [])].

Definition default_user_keys : json :=
  JObj [("version", JStr "1.0"); ("users", JObj []); ("keys", JObj [])].

Definition set_cache (data : option json) (loaded : bool) (p : Portal)
  : Portal :=
  {| core := core p;
     journal := journal p;
     key_pool_file := key_pool_file p;
     user_keys_file := user_keys_file p;
     cache_data := data;
     cache_loaded := loaded |}.

Definition get_cache : P (option json * bool) :=
  fun p => (PRet (cache_data p, cache_loaded p), p).

Definition put_cache_data (data : json) : P unit :=
  fun p => (PRet tt, set_cache (Some data) (cache_loaded p) p).

Definition put_cache_loaded (loaded : bool) : P unit :=
  fun p => (PRet tt, set_cache (cache_data p) loaded p).

Section KeyBookkeeping.

Local Open Scope portal_scope.

Variable penv : PortalEnv.

(** [d.get(key, default)]. *)
Definition pget (d : json) (key : string) (default : json) : P json :=
  lift (py_get d key default).

(** [d[key]] for a string [key]. *)
Definition pindex (d : json) (key : string) : P json :=
  match d with
  | JObj members =>
      match assoc key members with
      | Some v => pret v
      | None => praise KeyError
      end
  | _ => praise (Exn TypeError)
  end.

(** [len(v)]. *)
Definition plen (v : json) : P unit :=
  match v with
  | JStr _ | JArr _ | JObj _ => pret tt
  | _ => praise (Exn TypeError)
  end.

(** [v.pop(0)]: the first element and the rest of a list. *)
Definition pop_first (v : json) : P (json * list json) :=
  match v with
  | JArr (x :: rest) => pret (x, rest)
  | JArr [] => praise IndexError
  | JObj _ => praise KeyError
  | _ => praise (Exn AttributeError)
  end.

(** [v.append(x)]. *)
Definition pappend (v : json) (x : json) : P json :=
  match v with
  | JArr items => pret (JArr (items ++ [x]))
  | _ => praise (Exn AttributeError)
  end.

(** [v.remove(s)] for a string [s]. *)
Definition premove (v : json) (s : string) : P json :=
  match v with
  | JArr items =>
      match list_remove s items with
      | Some items' => pret (JArr items')
      | None => praise (Exn ValueError)
      end
  | _ => praise (Exn AttributeError)
  end.

(** [container[key] = value]. *)
Definition setitem (container key value : json) : P json :=
  match container with
  | JObj members =>
      match key with
      | JStr k => pret (JObj (dict_set k value members))
      | JArr _ | JObj _ => praise (Exn TypeError)
      | _ => punmodelled
      end
  | JArr _ =>
      match key with
      | JNum _ | JBool _ => punmodelled
      | _ => praise (Exn TypeError)
      end
  | _ => praise (Exn TypeError)
  end.

(** [del container[s]] for a string [s] that [container] holds. *)
Definition delitem (container : json) (s : string) : P json :=
  match container with
  | JObj members => pret (JObj (dict_del s members))
  | _ => praise (Exn TypeError)
  end.

(** [s in v] for a string [s]. *)
Definition contains_str (s : string) (v : json) : P bool :=
  match v with
  | JObj members =>
      pret match assoc s members with Some _ => true | None => false end
  | JArr items => pret (existsb (is_str s) items)
  | JStr x => pret (is_substring s x)
  | _ => praise (Exn TypeError)
  end.

(** [x in v] for a value [x] read from a file. *)
Definition contains (x : json) (v : json) : P bool :=
  match x with
  | JStr s => contains_str s v
  | _ =>
      match v with
      | JObj _ =>
          match x with
          | JArr _ | JObj _ => praise (Exn TypeError)
          | _ => pret false
          end
      | JArr _ => punmodelled
      | _ => praise (Exn TypeError)
      end
  end.

(** [datetime.utcnow().isoformat() + "Z"]. *)
Definition utcnow_z : P string :=
  n <- lift tick ;;
  pret (utcnow_isoformat penv n ++ "Z")%string.

(** ** [load_key_pool], lines 124-132 *)
Definition load_key_pool : P json :=
  f <- read_file KeyPoolFile ;;
  match f with
  | Missing => pret default_key_pool
  | Present (Some doc) => pret doc
  | Present None =>
      jprint (LogKeyPoolLoadError (exn_str JSONDecodeError)) ;;
      pret default_key_pool
  end.

(** ** [save_key_pool], lines 135-144 *)
Definition save_key_pool (data : json) : P bool :=
  ptry
    (write_json penv KeyPoolFile data ;;
     pret true)
    (fun e =>
       jprint (LogKeyPoolSaveError (pexn_str e)) ;;
       pret false).

(** ** [load_user_keys], lines 87-107 *)
Definition load_user_keys : P json :=
  c <- get_cache ;;
  match (let (data, loaded) := c in
         if loaded then
           match data with
           | Some d => if py_truthy d then Some d else None
           | None => None
           end
         else None) with
  | Some data => pret data
  | None =>
      f <- read_file UserKeysFile ;;
      loaded <- match f with
                | Missing => pret None
                | Present content =>
                    ptry
                      (data <- match content with
                               | Some doc => pret doc
                               | None => praise (Exn JSONDecodeError)
                               end ;;
                       put_cache_data data ;;
                       put_cache_loaded true ;;
                       users <- pget data "users" (JObj []) ;;
                       plen users ;;
                       keys <- pget data "keys" (JObj []) ;;
                       plen keys ;;
                       jprint (LogUserKeysLoaded users keys) ;;
                       pret (Some data))
                      (fun e =>
                         jprint (LogUserKeysLoadError (pexn_str e)) ;;
                         pret None)
                end ;;
      match loaded with
      | Some data => pret data
      | None =>
          put_cache_data default_user_keys ;;
          put_cache_loaded true ;;
          pret default_user_keys
      end
  end.

(** ** [save_user_keys], lines 110-121 *)
Definition save_user_keys (data : json) : P bool :=
  ptry
    (write_json penv UserKeysFile data ;;
     put_cache_data data ;;
     users <- pget data "users" (JObj []) ;;
     plen users ;;
     jprint (LogUserKeysSaved users) ;;
     pret true)
    (fun e =>
       jprint (LogUserKeysSaveError (pexn_str e)) ;;
       pret false).

(** [x or y] for two strings. *)
Definition str_or (x y : string) : string :=
  if String.eqb x "" then y else x.

(** ** [assign_key_to_user], lines 147-192 *)
Definition assign_key_to_user (email name label : string)
  : P (json * option string) :=
  pool <- load_key_pool ;;
  unused <- pget pool "unused" JNull ;;
  if negb (py_truthy unused) then
    pret (JNull, Some "Key pool is empty, please generate more keys")
  else
    popped <- pop_first unused ;;
    let (api_key, rest) := popped in
    let pool := obj_set "unused" (JArr rest) pool in
    assigned <- pindex pool "assigned" ;;
    assigned <- setitem assigned api_key (JStr email) ;;
    let pool := obj_set "assigned" assigned pool in
    save_key_pool pool ;;
    user_keys <- load_user_keys ;;
    users <- pindex user_keys "users" ;;
    present <- contains_str email users ;;
    user_keys <- (if present : bool then
                    pret user_keys
                  else
                    created_at <- utcnow_z ;;
                    users <- pindex user_keys "users" ;;
                    users <- setitem users (JStr email)
                               (JObj [("email", JStr email);
                                      ("name", JStr (str_or name email));
                                      ("api_keys", JArr []);
                                      ("created_at", JStr created_at)]) ;;
                    let user_keys := obj_set "users" users user_keys in
                    put_cache_data user_keys ;;
                    pret user_keys) ;;
    created_at <- utcnow_z ;;
    users <- pindex user_keys "users" ;;
    entry <- pindex users email ;;
    api_keys <- pindex entry "api_keys" ;;
    api_keys <- pappend api_keys api_key ;;
    let user_keys :=
      obj_set "users"
        (obj_set email (obj_set "api_keys" api_keys entry) users)
        user_keys in
    put_cache_data user_keys ;;
    keys <- pindex user_keys "keys" ;;
    keys <- setitem keys api_key
              (JObj [("email", JStr email);
                     ("label", JStr (str_or label "默认"));
                     ("created_at", JStr created_at)]) ;;
    let user_keys := obj_set "keys" keys user_keys in
    put_cache_data user_keys ;;
    save_user_keys user_keys ;;
    jprint (LogAssigned api_key email) ;;
    pret (api_key, None).

(** Lines 222-228 of [revoke_key]: "remove from CLIProxyAPI". *)
Definition remove_from_cliproxy (api_key : string) : P unit :=
  r <- lift (call_management_api (net penv) "GET"
               "/v0/management/api-keys" None) ;;
  let (data, err) := r in
  if negb (truthy err) then
    keys <- pget data "api_keys" (JArr []) ;;
    present <- contains_str api_key keys ;;
    if present : bool then
      keys <- premove keys api_key ;;
      lift (call_management_api (net penv) "PUT"
              "/v0/management/api-keys" (Some keys)) ;;
      pret tt
    else
      pret tt
  else
    pret tt.

(** ** [revoke_key], lines 195-231 *)
Definition revoke_key (api_key : string) : P (bool * option string) :=
  user_keys <- load_user_keys ;;
  keys <- pindex user_keys "keys" ;;
  key_info <- pget keys api_key JNull ;;
  if negb (py_truthy key_info) then
    pret (false, Some "Key not found")
  else
    email <- pindex key_info "email" ;;
    users <- pindex user_keys "users" ;;
    present <- contains email users ;;
    user_keys <- (if present : bool then
                    match email with
                    | JStr e =>
                        users <- pindex user_keys "users" ;;
                        entry <- pindex users e ;;
                        api_keys <- pindex entry "api_keys" ;;
                        api_keys <- premove api_keys api_key ;;
                        let user_keys :=
                          obj_set "users"
                            (obj_set e (obj_set "api_keys" api_keys entry)
                               users)
                            user_keys in
                        put_cache_data user_keys ;;
                        pret user_keys
                    | _ => pret user_keys
                    end
                  else
                    pret user_keys) ;;
    keys <- pindex user_keys "keys" ;;
    keys <- delitem keys api_key ;;
    let user_keys := obj_set "keys" keys user_keys in
    put_cache_data user_keys ;;
    save_user_keys user_keys ;;
    pool <- load_key_pool ;;
    unused <- pindex pool "unused" ;;
    unused <- pappend unused (JStr api_key) ;;
    let pool := obj_set "unused" unused pool in
    assigned <- pindex pool "assigned" ;;
    present <- contains_str api_key assigned ;;
    pool <- (if present : bool then
               assigned <- pindex pool "assigned" ;;
               assigned <- delitem assigned api_key ;;
               pret (obj_set "assigned" assigned pool)
             else
               pret pool) ;;
    save_key_pool pool ;;
    remove_from_cliproxy api_key ;;
    jprint (LogRevoked api_key email) ;;
    pret (true, None).

End KeyBookkeeping.

(** ** Dictionaries: lookup after assignment and deletion *)

Lemma assoc_dict_set_same (key : string) (v : json)
  (members : list (string * json)) :
  assoc key (dict_set key v members) = Some v.
Proof.
  induction members as [|[k x] rest IH]; cbn.
  - rewrite String.eqb_refl. reflexivity.
  - destruct (String.eqb k key) eqn:E; cbn; rewrite E; [reflexivity|exact IH].
Qed.

Lemma assoc_dict_set_other (key key' : string) (v : json)
  (members : list (string * json)) :
  String.eqb key' key = false ->
  assoc key (dict_set key' v members) = assoc key members.
Proof.
  intros Hne. induction members as [|[k x] rest IH]; cbn.
  - rewrite Hne. reflexivity.
  - destruct (String.eqb k key') eqn:E; cbn.
    + apply String.eqb_eq in E. subst k. rewrite Hne. reflexivity.
    + destruct (String.eqb k key); [reflexivity|exact IH].
Qed.

Lemma assoc_dict_del_other (key key' : string)
  (members : list (string * json)) :
  String.eqb key' key = false ->
  assoc key (dict_del key' members) = assoc key members.
Proof.
  intros Hne. induction members as [|[k x] rest IH]; cbn; [reflexivity|].
  destruct (String.eqb k key') eqn:E; cbn.
  - apply String.eqb_eq in E. subst k. rewrite Hne. reflexivity.
  - destruct (String.eqb k key); [reflexivity|exact IH].
Qed.

(** ** Properties of [assign_key_to_user] and [revoke_key] *)

(** The value of [pool.get("unused")] for the pool that [load_key_pool]
    returns. *)
Definition unused_of (f : file_state) : json :=
  match f with
  | Present (Some (JObj members)) => member "unused" JNull members
  | Present (Some _) => JNull
  | _ => JArr []
  end.

Definition is_object (v : json) : bool :=
  match v with
  | JObj _ => true
  | _ => false
  end.

(** The pool file holds an object, or cannot be loaded: [load_key_pool]
    returns a dict. *)
Definition pool_is_dict (f : file_state) : bool :=
  match f with
  | Present (Some doc) => is_object doc
  | _ => true
  end.

(** X14. With a key pool that has nothing to hand out (no file, a file that
    cannot be read, or a dict whose "unused" member is absent, empty or
    otherwise false), [assign_key_to_user] returns the error "Key pool is
    empty" and no key; it writes no file, does not load the user keys and
    touches neither the cache nor the monitor. *)
Theorem assign_from_empty_pool_changes_nothing :
  forall (penv : PortalEnv) (email name label : string) (p : Portal),
    pool_is_dict (key_pool_file p) = true ->
    py_truthy (unused_of (key_pool_file p)) = false ->
    let run := assign_key_to_user penv email name label p in
    fst run
    = PRet (JNull, Some "Key pool is empty, please generate more keys")
    /\ core (snd run) = core p
    /\ key_pool_file (snd run) = key_pool_file p
    /\ user_keys_file (snd run) = user_keys_file p
    /\ cache_data (snd run) = cache_data p
    /\ cache_loaded (snd run) = cache_loaded p.
Proof.
  intros penv email name label p Hdict Hempty run. subst run.
  destruct p as [w j pool_file keys_file data loaded].
  cbn [key_pool_file core user_keys_file cache_data cache_loaded] in *.
  unfold assign_key_to_user.
  unfold pbind at 1. unfold load_key_pool, pbind, read_file, jprint, pret,
    pget, lift.
  cbn -[py_get py_truthy].
  unfold unused_of, pool_is_dict in *.
  destruct pool_file as [|[doc|]];
    cbn -[py_get py_truthy member] in *.
  - repeat split; reflexivity.
  - destruct doc; try discriminate Hdict.
    rewrite py_get_eq. cbn -[py_truthy member]. rewrite Hempty.
    cbn. repeat split; reflexivity.
  - repeat split; reflexivity.
Qed.

Lemma assign_from_empty_pool_changes_nothing_witness :
  fst (assign_key_to_user exporting_env "alice" "" "" fresh_portal)
  = PRet (JNull, Some "Key pool is empty, please generate more keys").
Proof.
  apply (assign_from_empty_pool_changes_nothing exporting_env "alice" "" ""
           fresh_portal); reflexivity.
Defined.
(** The content of a file after an attempt to write [doc] to it. *)
Definition after_write (r : write_result) (old : file_state) (doc : json)
  : file_state :=
  match r with
  | Written => Present (Some doc)
  | WriteRefused => old
  | WriteTorn => Present None
  end.

Lemma dict_set_twice (key : string) (v v' : json)
  (members : list (string * json)) :
  dict_set key v' (dict_set key v members) = dict_set key v' members.
Proof.
  induction members as [|[k x] rest IH]; cbn.
  - rewrite String.eqb_refl. reflexivity.
  - destruct (String.eqb k key) eqn:E; cbn; rewrite E; [reflexivity|].
    now rewrite IH.
Qed.

(** One line of the code, run: the rest goes on from its result. *)
Lemma pbind_ret {A B : Type} (c : P A) (k : A -> P B) (p p' : Portal) (a : A) :
  c p = (PRet a, p') -> pbind c k p = k a p'.
Proof. intros H. unfold pbind. rewrite H. reflexivity. Qed.

Lemma pbind_raise {A B : Type} (c : P A) (k : A -> P B) (p p' : Portal)
  (e : pexn) :
  c p = (PRaise e, p') -> pbind c k p = (PRaise e, p').
Proof. intros H. unfold pbind. rewrite H. reflexivity. Qed.

Lemma load_key_pool_run (p : Portal) (doc : json) :
  key_pool_file p = Present (Some doc) ->
  load_key_pool p = (PRet doc, p).
Proof.
  intros H. unfold load_key_pool, pbind, read_file. rewrite H. reflexivity.
Qed.

Lemma save_key_pool_run (penv : PortalEnv) (data : json) (p : Portal) :
  exists lines : list portal_line,
    save_key_pool penv data p
    = (PRet match file_write penv (ticks (core p)) with
            | Written => true
            | _ => false
            end,
       {| core := snd (tick (core p));
          journal := journal p ++ lines;
          key_pool_file :=
            after_write (file_write penv (ticks (core p))) (key_pool_file p)
              data;
          user_keys_file := user_keys_file p;
          cache_data := cache_data p;
          cache_loaded := cache_loaded p |}).
Proof.
  unfold save_key_pool, ptry, pbind, write_json, lift, put_file, praise,
    pret, jprint, set_core.
  cbn. destruct (file_write penv (ticks (core p))); cbn.
  - exists []. rewrite app_nil_r. reflexivity.
  - eexists. reflexivity.
  - eexists. reflexivity.
Qed.

Lemma load_user_keys_cached (p : Portal) (d : json) :
  cache_loaded p = true ->
  cache_data p = Some d ->
  py_truthy d = true ->
  load_user_keys p = (PRet d, p).
Proof.
  intros Hl Hd Ht. unfold load_user_keys, pbind, get_cache.
  rewrite Hl, Hd, Ht. reflexivity.
Qed.

Lemma save_user_keys_run (penv : PortalEnv) (data : list (string * json))
  (users : list (string * json)) (p : Portal) :
  assoc "users" data = Some (JObj users) ->
  exists lines : list portal_line,
    save_user_keys penv (JObj data) p
    = (PRet match file_write penv (ticks (core p)) with
            | Written => true
            | _ => false
            end,
       {| core := snd (tick (core p));
          journal := journal p ++ lines;
          key_pool_file := key_pool_file p;
          user_keys_file :=
            after_write (file_write penv (ticks (core p))) (user_keys_file p)
              (JObj data);
          cache_data :=
            match file_write penv (ticks (core p)) with
            | Written => Some (JObj data)
            | _ => cache_data p
            end;
          cache_loaded := cache_loaded p |}).
Proof.
  intros Hu.
  unfold save_user_keys, ptry, pbind, write_json, lift, put_file, praise,
    pret, jprint, set_core, put_cache_data, set_cache, pget, plen.
  cbn. destruct (file_write penv (ticks (core p))); cbn.
  - rewrite Hu. cbn. eexists. reflexivity.
  - eexists. reflexivity.
  - eexists. reflexivity.
Qed.

Lemma utcnow_z_run (penv : PortalEnv) (p : Portal) :
  utcnow_z penv p
  = (PRet (utcnow_isoformat penv (ticks (core p)) ++ "Z")%string,
     set_core (snd (tick (core p))) p).
Proof. reflexivity. Qed.


(** The two records of lines 161-166 and 179-183. *)
Definition new_user_record (email name created_at : string)
  (api_keys : list json) : json :=
  JObj [("email", JStr email); ("name", JStr (str_or name email));
        ("api_keys", JArr api_keys); ("created_at", JStr created_at)].

Definition key_record (email label created_at : string) : json :=
  JObj [("email", JStr email); ("label", JStr (str_or label "默认"));
        ("created_at", JStr created_at)].


(** Projections of the portals that the steps build. *)
Ltac psimpl :=
  cbn [core journal key_pool_file user_keys_file cache_data cache_loaded
       set_core set_cache snd fst tick ticks obj_set app
       cliproxy_state last_usage_state snapshot_file stdout emitted
       put_cache_data put_cache_loaded jprint new_user_record key_record
       dict_set String.eqb Ascii.eqb Bool.eqb].

Ltac psimpl_in H :=
  cbn [core journal key_pool_file user_keys_file cache_data cache_loaded
       set_core set_cache snd fst tick ticks
       cliproxy_state last_usage_state snapshot_file stdout emitted] in H.

(** The run of [assign_key_to_user] for a new user, step by step. *)
Lemma assign_new_user_run :
  forall (penv : PortalEnv) (email name label : string) (p : Portal)
         (pool assigned data users keys : list (string * json))
         (k : string) (rest : list json),
    key_pool_file p = Present (Some (JObj pool)) ->
    assoc "unused" pool = Some (JArr (JStr k :: rest)) ->
    assoc "assigned" pool = Some (JObj assigned) ->
    cache_loaded p = true ->
    cache_data p = Some (JObj data) ->
    assoc "users" data = Some (JObj users) ->
    assoc "keys" data = Some (JObj keys) ->
    assoc email users = None ->
    let t := ticks (core p) in
    let pool' :=
      JObj (dict_set "assigned" (JObj (dict_set k (JStr email) assigned))
              (dict_set "unused" (JArr rest) pool)) in
    let user :=
      new_user_record email name (utcnow_isoformat penv (S t) ++ "Z")
        [JStr k] in
    let key :=
      key_record email label (utcnow_isoformat penv (S (S t)) ++ "Z") in
    let data' :=
      JObj (dict_set "keys" (JObj (dict_set k key keys))
              (dict_set "users" (JObj (dict_set email user users)) data)) in
    exists lines,
      assign_key_to_user penv email name label p
      = (PRet (JStr k, None),
         {| core :=
              snd (tick (snd (tick (snd (tick (snd (tick (core p))))))));
            journal := journal p ++ lines;
            key_pool_file :=
              after_write (file_write penv t) (key_pool_file p) pool';
            user_keys_file :=
              after_write (file_write penv (S (S (S t))))
                (user_keys_file p) data';
            cache_data := Some data';
            cache_loaded := true |}).
Proof.
  intros penv email name label p pool assigned data users keys k rest
    Hfile Hunused Hassigned Hloaded Hdata Husers Hkeys Hnew
    t pool' user key data'.
  assert (Htruthy : py_truthy (JObj data) = true).
  { destruct data; [discriminate|reflexivity]. }
  unfold assign_key_to_user.
  rewrite (pbind_ret _ _ _ _ _ (load_key_pool_run p _ Hfile)).
  erewrite pbind_ret
    by (unfold pget, lift; cbn; rewrite Hunused; reflexivity).
  cbn [py_truthy negb].
  erewrite pbind_ret by reflexivity.
  cbn [obj_set].
  erewrite pbind_ret
    by (unfold pindex;
        rewrite (assoc_dict_set_other "assigned" "unused") by reflexivity;
        rewrite Hassigned; reflexivity).
  erewrite pbind_ret by reflexivity.
  destruct (save_key_pool_run penv pool' (set_core (core p) p))
    as [lines1 Hsave].
  psimpl_in Hsave.
  erewrite pbind_ret by exact Hsave.
  erewrite pbind_ret
    by (apply load_user_keys_cached;
        [exact Hloaded|exact Hdata|exact Htruthy]).
  erewrite pbind_ret by (unfold pindex; rewrite Husers; reflexivity).
  erewrite pbind_ret by (unfold contains_str; rewrite Hnew; reflexivity).
  erewrite pbind_ret.
  2: { erewrite pbind_ret by apply utcnow_z_run.
       erewrite pbind_ret by (unfold pindex; rewrite Husers; reflexivity).
       erewrite pbind_ret by reflexivity.
       erewrite pbind_ret by reflexivity.
       reflexivity. }
  psimpl.
  erewrite pbind_ret by apply utcnow_z_run.
  psimpl.
  erewrite pbind_ret
    by (unfold pindex; rewrite assoc_dict_set_same; reflexivity).
  erewrite pbind_ret
    by (unfold pindex; rewrite assoc_dict_set_same; reflexivity).
  erewrite pbind_ret by reflexivity.
  erewrite pbind_ret by reflexivity.
  erewrite pbind_ret by reflexivity.
  psimpl. rewrite !dict_set_twice.
  erewrite pbind_ret
    by (unfold pindex;
        rewrite (assoc_dict_set_other "keys" "users") by reflexivity;
        rewrite Hkeys; reflexivity).
  erewrite pbind_ret by reflexivity.
  erewrite pbind_ret by reflexivity.
  psimpl.
  match goal with
  | |- context [pbind (save_user_keys penv (JObj ?d)) _ ?q] =>
      destruct (save_user_keys_run penv d (dict_set email user users) q)
        as [lines2 Hsave2]
  end.
  { rewrite (assoc_dict_set_other "users" "keys") by reflexivity.
    apply assoc_dict_set_same. }
  psimpl_in Hsave2.
  erewrite pbind_ret by exact Hsave2.
  erewrite pbind_ret by reflexivity.
  unfold pret. psimpl.
  exists (lines1 ++ lines2 ++ [LogAssigned (JStr k) email]).
  rewrite Hloaded. rewrite <- !app_assoc.
  subst data' t. fold user key.
  destruct (file_write penv (S (S (S (ticks (core p)))))); reflexivity.
Qed.

(** X15. [assign_key_to_user] for a user the database does not know, with a
    pool whose first unused key is the string [k]: the function returns
    [(k, None)]; the pool it saves has [k] removed from the front of
    "unused" and recorded under "assigned" for [email]; the user is created
    with [name or email] and the one key, and the key index gets the entry
    of [k] with [label or "默认"]; the cache holds this database and the two
    files hold what was written.  The results of the two saves are not
    looked at: the key is returned and recorded in the cache also when the
    pool could not be written, in which case the pool file is as before and
    still offers [k]. *)
Theorem assign_to_new_user :
  forall (penv : PortalEnv) (email name label : string) (p : Portal)
         (pool assigned data users keys : list (string * json))
         (k : string) (rest : list json),
    key_pool_file p = Present (Some (JObj pool)) ->
    assoc "unused" pool = Some (JArr (JStr k :: rest)) ->
    assoc "assigned" pool = Some (JObj assigned) ->
    cache_loaded p = true ->
    cache_data p = Some (JObj data) ->
    assoc "users" data = Some (JObj users) ->
    assoc "keys" data = Some (JObj keys) ->
    assoc email users = None ->
    let t := ticks (core p) in
    let run := assign_key_to_user penv email name label p in
    let pool' :=
      JObj (dict_set "assigned" (JObj (dict_set k (JStr email) assigned))
              (dict_set "unused" (JArr rest) pool)) in
    let user :=
      new_user_record email name (utcnow_isoformat penv (S t) ++ "Z")
        [JStr k] in
    let key :=
      key_record email label (utcnow_isoformat penv (S (S t)) ++ "Z") in
    let data' :=
      JObj (dict_set "keys" (JObj (dict_set k key keys))
              (dict_set "users" (JObj (dict_set email user users)) data)) in
    fst run = PRet (JStr k, None)
    /\ key_pool_file (snd run)
       = after_write (file_write penv t) (key_pool_file p) pool'
    /\ cache_data (snd run) = Some data'
    /\ user_keys_file (snd run)
       = after_write (file_write penv (S (S (S t)))) (user_keys_file p) data'
    /\ ticks (core (snd run)) = S (S (S (S t))).
Proof.
  intros penv email name label p pool assigned data users keys k rest
    Hfile Hunused Hassigned Hloaded Hdata Husers Hkeys Hnew
    t run pool' user key data'.
  pose proof (assign_new_user_run penv email name label p pool assigned data
                users keys k rest Hfile Hunused Hassigned Hloaded Hdata
                Husers Hkeys Hnew) as Hrun.
  cbn zeta in Hrun. destruct Hrun as [lines Hrun].
  subst run. rewrite Hrun. cbn.
  repeat split; reflexivity.
Qed.

(** A pool of two keys, a loaded and empty user database, and a disk that
    refuses the first write (of the pool) and every fourth one after it. *)
Definition two_key_pool : json :=
  JObj [("version", JStr "1.0"); ("total", JNum 2);
        ("unused", JArr [JStr "usr_pool_0001_aa"; JStr "usr_pool_0002_bb"]);
        ("assigned", JObj [])].

Definition pool_portal : Portal :=
  {| core := fresh_world;
     journal := [];
     key_pool_file := Present (Some two_key_pool);
     user_keys_file := Missing;
     cache_data := Some default_user_keys;
     cache_loaded := true |}.

Definition read_only_pool_env : PortalEnv :=
  {| net := unreachable_env;
     file_write := fun n => match n with
                            | O | 4%nat => WriteRefused
                            | _ => Written
                            end;
     utcnow_isoformat := fun _ => "2025-01-01T00:00:00" |}.

Lemma assign_to_new_user_witness :
  fst (assign_key_to_user read_only_pool_env "alice" "" "" pool_portal)
  = PRet (JStr "usr_pool_0001_aa", None)
  /\ key_pool_file
       (snd (assign_key_to_user read_only_pool_env "alice" "" "" pool_portal))
     = Present (Some two_key_pool)
  /\ fst (assign_key_to_user read_only_pool_env "bob" "" ""
            (snd (assign_key_to_user read_only_pool_env "alice" "" ""
                    pool_portal)))
     = PRet (JStr "usr_pool_0001_aa", None).
Proof.
  destruct (assign_to_new_user read_only_pool_env "alice" "" "" pool_portal
              [("version", JStr "1.0"); ("total", JNum 2);
               ("unused",
                JArr [JStr "usr_pool_0001_aa"; JStr "usr_pool_0002_bb"]);
               ("assigned", JObj [])]
              []
              [("version", JStr "1.0"); ("users", JObj []); ("keys", JObj [])]
              [] [] "usr_pool_0001_aa" [JStr "usr_pool_0002_bb"]
              eq_refl eq_refl eq_refl eq_refl eq_refl eq_refl eq_refl eq_refl)
    as (Hret & Hpool & _).
  split; [exact Hret|]. split; [exact Hpool|]. reflexivity.
Defined.

(** X16. [assign_key_to_user] for a user the database knows: the record of
    the user is kept as it is (the name passed is not used), the key is
    appended at the end of the user's "api_keys", and the key index gets the
    entry of the key; one timestamp is taken instead of two. *)
Theorem assign_to_known_user_appends :
  forall (penv : PortalEnv) (email name label : string) (p : Portal)
         (pool assigned data users keys entry : list (string * json))
         (k : string) (rest owned : list json),
    key_pool_file p = Present (Some (JObj pool)) ->
    assoc "unused" pool = Some (JArr (JStr k :: rest)) ->
    assoc "assigned" pool = Some (JObj assigned) ->
    cache_loaded p = true ->
    cache_data p = Some (JObj data) ->
    assoc "users" data = Some (JObj users) ->
    assoc "keys" data = Some (JObj keys) ->
    assoc email users = Some (JObj entry) ->
    assoc "api_keys" entry = Some (JArr owned) ->
    let t := ticks (core p) in
    let run := assign_key_to_user penv email name label p in
    let user := JObj (dict_set "api_keys" (JArr (owned ++ [JStr k])) entry) in
    let key :=
      key_record email label (utcnow_isoformat penv (S t) ++ "Z") in
    let data' :=
      JObj (dict_set "keys" (JObj (dict_set k key keys))
              (dict_set "users" (JObj (dict_set email user users)) data)) in
    fst run = PRet (JStr k, None)
    /\ cache_data (snd run) = Some data'
    /\ user_keys_file (snd run)
       = after_write (file_write penv (S (S t))) (user_keys_file p) data'
    /\ ticks (core (snd run)) = S (S (S t)).
Proof.
  intros penv email name label p pool assigned data users keys entry k rest
    owned Hfile Hunused Hassigned Hloaded Hdata Husers Hkeys Hentry Howned
    t run user key data'.
  assert (Htruthy : py_truthy (JObj data) = true).
  { destruct data; [discriminate|reflexivity]. }
  assert (Hrun : exists lines pool_file,
             run = (PRet (JStr k, None),
                    {| core := snd (tick (snd (tick (snd (tick (core p))))));
                       journal := journal p ++ lines;
                       key_pool_file := pool_file;
                       user_keys_file :=
                         after_write (file_write penv (S (S t)))
                           (user_keys_file p) data';
                       cache_data := Some data';
                       cache_loaded := true |})).
  { subst run. unfold assign_key_to_user.
    rewrite (pbind_ret _ _ _ _ _ (load_key_pool_run p _ Hfile)).
    erewrite pbind_ret
      by (unfold pget, lift; cbn; rewrite Hunused; reflexivity).
    cbn [py_truthy negb].
    erewrite pbind_ret by reflexivity.
    cbn [obj_set].
    erewrite pbind_ret
      by (unfold pindex;
          rewrite (assoc_dict_set_other "assigned" "unused") by reflexivity;
          rewrite Hassigned; reflexivity).
    erewrite pbind_ret by reflexivity.
    match goal with
    | |- context [pbind (save_key_pool penv ?d) _ ?q] =>
        destruct (save_key_pool_run penv d q) as [lines1 Hsave]
    end.
    psimpl_in Hsave.
    erewrite pbind_ret by exact Hsave.
    erewrite pbind_ret
      by (apply load_user_keys_cached;
          [exact Hloaded|exact Hdata|exact Htruthy]).
    erewrite pbind_ret by (unfold pindex; rewrite Husers; reflexivity).
    erewrite pbind_ret by (unfold contains_str; rewrite Hentry; reflexivity).
    erewrite pbind_ret by reflexivity.
    erewrite pbind_ret by apply utcnow_z_run.
    psimpl.
    erewrite pbind_ret by (unfold pindex; rewrite Husers; reflexivity).
    erewrite pbind_ret by (unfold pindex; rewrite Hentry; reflexivity).
    erewrite pbind_ret by (unfold pindex; rewrite Howned; reflexivity).
    erewrite pbind_ret by reflexivity.
    erewrite pbind_ret by reflexivity.
    psimpl.
    erewrite pbind_ret
      by (unfold pindex;
          rewrite (assoc_dict_set_other "keys" "users") by reflexivity;
          rewrite Hkeys; reflexivity).
    erewrite pbind_ret by reflexivity.
    erewrite pbind_ret by reflexivity.
    psimpl.
    match goal with
    | |- context [pbind (save_user_keys penv (JObj ?d)) _ ?q] =>
        destruct (save_user_keys_run penv d (dict_set email user users) q)
          as [lines2 Hsave2]
    end.
    { rewrite (assoc_dict_set_other "users" "keys") by reflexivity.
      apply assoc_dict_set_same. }
    psimpl_in Hsave2.
    erewrite pbind_ret by exact Hsave2.
    erewrite pbind_ret by reflexivity.
    unfold pret. psimpl.
    eexists (lines1 ++ lines2 ++ [LogAssigned (JStr k) email]), _.
    rewrite Hloaded. rewrite <- !app_assoc.
    subst data' t. fold user key.
    destruct (file_write penv (S (S (ticks (core p))))); reflexivity. }
  destruct Hrun as (lines & pool_file & Hrun). rewrite Hrun. cbn.
  repeat split; reflexivity.
Qed.

(** X17. The pool is saved before the user database is looked at.  When
    the cached database has no "users" member, [assign_key_to_user] raises
    [KeyError] after the pool was written: the key has left "unused" and is
    recorded under "assigned" in the pool file, while the user database
    (cache and file) does not know it. *)
Theorem assign_consumes_the_key_before_the_user_data_fails :
  forall (penv : PortalEnv) (email name label : string) (p : Portal)
         (pool assigned data : list (string * json))
         (k : string) (rest : list json),
    key_pool_file p = Present (Some (JObj pool)) ->
    assoc "unused" pool = Some (JArr (JStr k :: rest)) ->
    assoc "assigned" pool = Some (JObj assigned) ->
    cache_loaded p = true ->
    cache_data p = Some (JObj data) ->
    data <> [] ->
    assoc "users" data = None ->
    let run := assign_key_to_user penv email name label p in
    let pool' :=
      JObj (dict_set "assigned" (JObj (dict_set k (JStr email) assigned))
              (dict_set "unused" (JArr rest) pool)) in
    fst run = PRaise KeyError
    /\ key_pool_file (snd run)
       = after_write (file_write penv (ticks (core p))) (key_pool_file p)
           pool'
    /\ cache_data (snd run) = cache_data p
    /\ user_keys_file (snd run) = user_keys_file p.
Proof.
  intros penv email name label p pool assigned data k rest
    Hfile Hunused Hassigned Hloaded Hdata Hnonempty Husers run pool'.
  assert (Htruthy : py_truthy (JObj data) = true).
  { destruct data; [contradiction|reflexivity]. }
  assert (Hrun : exists lines,
             run = (PRaise KeyError,
                    {| core := snd (tick (core p));
                       journal := journal p ++ lines;
                       key_pool_file :=
                         after_write (file_write penv (ticks (core p)))
                           (key_pool_file p) pool';
                       user_keys_file := user_keys_file p;
                       cache_data := cache_data p;
                       cache_loaded := cache_loaded p |})).
  { subst run. unfold assign_key_to_user.
    rewrite (pbind_ret _ _ _ _ _ (load_key_pool_run p _ Hfile)).
    erewrite pbind_ret
      by (unfold pget, lift; cbn; rewrite Hunused; reflexivity).
    cbn [py_truthy negb].
    erewrite pbind_ret by reflexivity.
    cbn [obj_set].
    erewrite pbind_ret
      by (unfold pindex;
          rewrite (assoc_dict_set_other "assigned" "unused") by reflexivity;
          rewrite Hassigned; reflexivity).
    erewrite pbind_ret by reflexivity.
    match goal with
    | |- context [pbind (save_key_pool penv ?d) _ ?q] =>
        destruct (save_key_pool_run penv d q) as [lines1 Hsave]
    end.
    psimpl_in Hsave.
    erewrite pbind_ret by exact Hsave.
    erewrite pbind_ret
      by (apply load_user_keys_cached;
          [exact Hloaded|exact Hdata|exact Htruthy]).
    erewrite pbind_raise by (unfold pindex; rewrite Husers; reflexivity).
    exists lines1. reflexivity. }
  destruct Hrun as (lines & Hrun). rewrite Hrun. cbn.
  repeat split; reflexivity.
Qed.

(** X18. [revoke_key] with a key that the key index does not hold (or
    holds with an empty record) returns [(False, "Key not found")] and
    changes nothing: no file is written, no request is made. *)
Theorem revoke_unknown_key_changes_nothing :
  forall (penv : PortalEnv) (api_key : string) (p : Portal)
         (data keys : list (string * json)),
    cache_loaded p = true ->
    cache_data p = Some (JObj data) ->
    assoc "keys" data = Some (JObj keys) ->
    py_truthy (member api_key JNull keys) = false ->
    revoke_key penv api_key p = (PRet (false, Some "Key not found"), p).
Proof.
  intros penv api_key p data keys Hloaded Hdata Hkeys Hunknown.
  assert (Htruthy : py_truthy (JObj data) = true).
  { destruct data; [discriminate|reflexivity]. }
  unfold revoke_key.
  erewrite pbind_ret
    by (apply load_user_keys_cached;
        [exact Hloaded|exact Hdata|exact Htruthy]).
  erewrite pbind_ret by (unfold pindex; rewrite Hkeys; reflexivity).
  erewrite pbind_ret
    by (unfold pget, lift; rewrite py_get_eq; reflexivity).
  rewrite Hunknown. cbn. destruct p. reflexivity.
Qed.

Lemma dict_set_unchanged (key : string) (v : json)
  (members : list (string * json)) :
  assoc key members = Some v -> dict_set key v members = members.
Proof.
  induction members as [|[k x] rest IH]; cbn; [discriminate|].
  destruct (String.eqb k key) eqn:E.
  - intros H. injection H as ->. reflexivity.
  - intros H. now rewrite IH.
Qed.

Lemma dict_del_absent (key : string) (members : list (string * json)) :
  assoc key members = None -> dict_del key members = members.
Proof.
  induction members as [|[k x] rest IH]; cbn; [reflexivity|].
  destruct (String.eqb k key); [discriminate|].
  intros H. now rewrite IH.
Qed.

(** The answers to the GET of the key list after which [revoke_key] goes on
    to its end: an error, or an object whose "api_keys" is absent or a
    list. *)
Definition key_list_answer_ok (answer : http_outcome) : bool :=
  match answer with
  | HttpRaises msg => negb (String.eqb msg "")
  | HttpResponse status_code _ body =>
      if status_code =? 200 then
        match body with
        | inl (JObj members) =>
            match member "api_keys" (JArr []) members with
            | JArr _ => true
            | _ => false
            end
        | inl _ => false
        | inr msg => negb (String.eqb msg "")
        end
      else true
  end.

Lemma list_remove_present (s : string) (items : list json) :
  existsb (is_str s) items = true -> exists items', list_remove s items = Some items'.
Proof.
  induction items as [|x rest IH]; cbn; [discriminate|].
  destruct (is_str s x); [eauto|]. cbn. intros H.
  destruct (IH H) as [r ->]. eauto.
Qed.

(** Lines 222-228, run on a portal. *)
Lemma remove_from_cliproxy_run (penv : PortalEnv) (api_key : string)
  (q : Portal) :
  let run := remove_from_cliproxy penv api_key q in
  snd run = set_core (snd (tick (core q))) q
  /\ (key_list_answer_ok
        (upstream (net penv) (ticks (core q)) "GET"
           "/v0/management/api-keys" None) = true ->
      fst run = PRet tt).
Proof.
  unfold key_list_answer_ok, remove_from_cliproxy, pget, contains_str,
    premove, pbind, lift, pret, praise, set_core, call_management_api,
    bind, tick, ret, truthy.
  cbn -[py_get member].
  destruct (upstream (net penv) (ticks (core q)) "GET"
              "/v0/management/api-keys" None)
    as [msg|status_code text [doc|msg]]; cbn -[py_get member].
  - destruct (String.eqb msg ""); cbn; split; try reflexivity; discriminate.
  - destruct (status_code =? 200); cbn -[py_get member];
      [|split; reflexivity].
    rewrite py_get_eq.
    destruct doc; cbn -[member]; try (split; [reflexivity|discriminate]).
    destruct (member "api_keys" (JArr []) members) eqn:Hm; cbn;
      try (split; [reflexivity|discriminate]).
    + destruct (is_substring api_key s); cbn;
        split; try reflexivity; discriminate.
    + destruct (existsb (is_str api_key) items) eqn:Hin; cbn;
        [|split; reflexivity].
      destruct (list_remove_present api_key items Hin) as [r ->]. cbn.
      split; reflexivity.
    + destruct (assoc api_key members0); cbn;
        split; try reflexivity; discriminate.
  - destruct (status_code =? 200); cbn; [|split; reflexivity].
    destruct (String.eqb msg ""); cbn; split; try reflexivity; discriminate.
Qed.

(** The run of [revoke_key] up to the request to the upstream. *)
Lemma revoke_run :
  forall (penv : PortalEnv) (api_key e : string) (p : Portal)
         (data keys info users entry pool assigned : list (string * json))
         (owned owned' unused : list json),
    cache_loaded p = true ->
    cache_data p = Some (JObj data) ->
    assoc "keys" data = Some (JObj keys) ->
    assoc api_key keys = Some (JObj info) ->
    assoc "email" info = Some (JStr e) ->
    assoc "users" data = Some (JObj users) ->
    assoc e users = Some (JObj entry) ->
    assoc "api_keys" entry = Some (JArr owned) ->
    list_remove api_key owned = Some owned' ->
    key_pool_file p = Present (Some (JObj pool)) ->
    assoc "unused" pool = Some (JArr unused) ->
    assoc "assigned" pool = Some (JObj assigned) ->
    let t := ticks (core p) in
    let user := JObj (dict_set "api_keys" (JArr owned') entry) in
    let data' :=
      JObj (dict_set "keys" (JObj (dict_del api_key keys))
              (dict_set "users" (JObj (dict_set e user users)) data)) in
    let pool' :=
      JObj (dict_set "assigned" (JObj (dict_del api_key assigned))
              (dict_set "unused" (JArr (unused ++ [JStr api_key])) pool)) in
    exists lines q,
      revoke_key penv api_key p
      = pbind (remove_from_cliproxy penv api_key)
          (fun _ => pbind (jprint (LogRevoked api_key (JStr e)))
                      (fun _ => pret (true, None))) q
      /\ q = {| core := snd (tick (snd (tick (core p))));
                journal := journal p ++ lines;
                key_pool_file :=
                  after_write (file_write penv (S t))
                    (key_pool_file p) pool';
                user_keys_file :=
                  after_write (file_write penv t)
                    (user_keys_file p) data';
                cache_data := Some data';
                cache_loaded := true |}.
Proof.
  intros penv api_key e p data keys info users entry pool assigned
    owned owned' unused Hloaded Hdata Hkeys Hinfo Hemail Husers Hentry
    Howned Hremove Hfile Hunused Hassigned t user data' pool'.
  assert (Htruthy : py_truthy (JObj data) = true).
  { destruct data; [discriminate|reflexivity]. }
  assert (Hinfo_truthy : py_truthy (JObj info) = true).
  { destruct info; [discriminate|reflexivity]. }
  assert (Hpool' : (if match assoc api_key assigned with
                       | Some _ => true
                       | None => false
                       end
                    then JObj (dict_set "assigned"
                                 (JObj (dict_del api_key assigned))
                                 (dict_set "unused"
                                    (JArr (unused ++ [JStr api_key])) pool))
                    else JObj (dict_set "unused"
                                 (JArr (unused ++ [JStr api_key])) pool))
                   = pool').
  { subst pool'. destruct (assoc api_key assigned) eqn:Hin; [reflexivity|].
    rewrite (dict_del_absent _ _ Hin).
    rewrite (dict_set_unchanged "assigned" (JObj assigned)); [reflexivity|].
    rewrite (assoc_dict_set_other "assigned" "unused") by reflexivity.
    exact Hassigned. }
  unfold revoke_key.
  erewrite pbind_ret
    by (apply load_user_keys_cached;
        [exact Hloaded|exact Hdata|exact Htruthy]).
  erewrite pbind_ret by (unfold pindex; rewrite Hkeys; reflexivity).
  erewrite pbind_ret
    by (unfold pget, lift; rewrite py_get_eq; unfold member;
        rewrite Hinfo; reflexivity).
  rewrite Hinfo_truthy. cbn [negb].
  erewrite pbind_ret by (unfold pindex; rewrite Hemail; reflexivity).
  erewrite pbind_ret by (unfold pindex; rewrite Husers; reflexivity).
  erewrite pbind_ret
    by (unfold contains, contains_str; rewrite Hentry; reflexivity).
  erewrite pbind_ret.
  2: { erewrite pbind_ret by (unfold pindex; rewrite Husers; reflexivity).
       erewrite pbind_ret by (unfold pindex; rewrite Hentry; reflexivity).
       erewrite pbind_ret by (unfold pindex; rewrite Howned; reflexivity).
       erewrite pbind_ret by (unfold premove; rewrite Hremove; reflexivity).
       erewrite pbind_ret by reflexivity.
       reflexivity. }
  psimpl.
  erewrite pbind_ret
    by (unfold pindex;
        rewrite (assoc_dict_set_other "keys" "users") by reflexivity;
        rewrite Hkeys; reflexivity).
  erewrite pbind_ret by reflexivity.
  erewrite pbind_ret by reflexivity.
  psimpl.
  match goal with
  | |- context [pbind (save_user_keys penv (JObj ?d)) _ ?q] =>
      destruct (save_user_keys_run penv d (dict_set e user users) q)
        as [lines1 Hsave1]
  end.
  { rewrite (assoc_dict_set_other "users" "keys") by reflexivity.
    apply assoc_dict_set_same. }
  psimpl_in Hsave1.
  erewrite pbind_ret by exact Hsave1.
  erewrite pbind_ret by (apply load_key_pool_run; exact Hfile).
  erewrite pbind_ret by (unfold pindex; rewrite Hunused; reflexivity).
  erewrite pbind_ret by reflexivity.
  psimpl.
  erewrite pbind_ret
    by (unfold pindex;
        rewrite (assoc_dict_set_other "assigned" "unused") by reflexivity;
        rewrite Hassigned; reflexivity).
  assert (Hbranch :
            forall q : Portal,
              (if match assoc api_key assigned with
                  | Some _ => true
                  | None => false
                  end
               then
                 pbind (pindex
                          (JObj (dict_set "unused"
                                   (JArr (unused ++ [JStr api_key])) pool))
                          "assigned")
                   (fun assigned0 =>
                      pbind (delitem assigned0 api_key)
                        (fun assigned1 =>
                           pret (obj_set "assigned" assigned1
                                   (JObj (dict_set "unused"
                                            (JArr (unused ++ [JStr api_key]))
                                            pool)))))
               else
                 pret (JObj (dict_set "unused"
                               (JArr (unused ++ [JStr api_key])) pool))) q
              = (PRet pool', q)).
  { intros q. rewrite <- Hpool'.
    destruct (assoc api_key assigned) eqn:Hin; [|reflexivity].
    erewrite pbind_ret
      by (unfold pindex;
          rewrite (assoc_dict_set_other "assigned" "unused") by reflexivity;
          rewrite Hassigned; reflexivity).
    erewrite pbind_ret by reflexivity.
    reflexivity. }
  erewrite pbind_ret by (unfold contains_str; reflexivity).
  erewrite pbind_ret by apply Hbranch.
  match goal with
  | |- context [pbind (save_key_pool penv ?d) _ ?q] =>
      destruct (save_key_pool_run penv d q) as [lines2 Hsave2]
  end.
  psimpl_in Hsave2.
  erewrite pbind_ret by exact Hsave2.
  eexists (lines1 ++ lines2), _. split; [reflexivity|].
  rewrite Hloaded, <- app_assoc. subst data' t. fold user.
  destruct (file_write penv (ticks (core p))); reflexivity.
Qed.

(** X19. [revoke_key] with a key that the index holds for the user [e], who
    owns it: the first occurrence of the key is removed from the user's
    "api_keys" and the key from the index, and this database is cached and
    saved; then the key is appended at the end of the pool's "unused" and
    deleted from "assigned", and the pool is saved.  Both saves come before
    the upstream is asked, and their results are not looked at.  Three
    interactions take place: the two writes and one GET.  The function
    returns [(True, None)] when the GET fails or answers with an object
    whose "api_keys" is absent or a list. *)
Theorem revoke_returns_the_key_to_the_back_of_the_pool :
  forall (penv : PortalEnv) (api_key e : string) (p : Portal)
         (data keys info users entry pool assigned : list (string * json))
         (owned owned' unused : list json),
    cache_loaded p = true ->
    cache_data p = Some (JObj data) ->
    assoc "keys" data = Some (JObj keys) ->
    assoc api_key keys = Some (JObj info) ->
    assoc "email" info = Some (JStr e) ->
    assoc "users" data = Some (JObj users) ->
    assoc e users = Some (JObj entry) ->
    assoc "api_keys" entry = Some (JArr owned) ->
    list_remove api_key owned = Some owned' ->
    key_pool_file p = Present (Some (JObj pool)) ->
    assoc "unused" pool = Some (JArr unused) ->
    assoc "assigned" pool = Some (JObj assigned) ->
    let t := ticks (core p) in
    let run := revoke_key penv api_key p in
    let user := JObj (dict_set "api_keys" (JArr owned') entry) in
    let data' :=
      JObj (dict_set "keys" (JObj (dict_del api_key keys))
              (dict_set "users" (JObj (dict_set e user users)) data)) in
    let pool' :=
      JObj (dict_set "assigned" (JObj (dict_del api_key assigned))
              (dict_set "unused" (JArr (unused ++ [JStr api_key])) pool)) in
    cache_data (snd run) = Some data'
    /\ user_keys_file (snd run)
       = after_write (file_write penv t) (user_keys_file p) data'
    /\ key_pool_file (snd run)
       = after_write (file_write penv (S t)) (key_pool_file p) pool'
    /\ ticks (core (snd run)) = S (S (S t))
    /\ (key_list_answer_ok
          (upstream (net penv) (S (S t)) "GET" "/v0/management/api-keys" None)
        = true ->
        fst run = PRet (true, None)).
Proof.
  intros penv api_key e p data keys info users entry pool assigned
    owned owned' unused Hloaded Hdata Hkeys Hinfo Hemail Husers Hentry
    Howned Hremove Hfile Hunused Hassigned t run user data' pool'.
  pose proof (revoke_run penv api_key e p data keys info users entry pool
                assigned owned owned' unused Hloaded Hdata Hkeys Hinfo
                Hemail Husers Hentry Howned Hremove Hfile Hunused Hassigned)
    as Hrun.
  cbn zeta in Hrun. fold t in Hrun.
  destruct Hrun as (lines & q & Hrun & Hq).
  destruct (remove_from_cliproxy_run penv api_key q) as [Hsnd Hfst].
  assert (Hticks : ticks (core q) = S (S t)) by (subst q; reflexivity).
  rewrite Hticks in Hfst.
  subst run. rewrite Hrun. unfold pbind.
  destruct (remove_from_cliproxy penv api_key q) as [[u|ex|] q'];
    cbn [fst snd] in Hsnd, Hfst; subst q'; subst q; cbn.
  - repeat split; reflexivity.
  - repeat split; try reflexivity.
    intros Hok. specialize (Hfst Hok). discriminate.
  - repeat split; try reflexivity.
    intros Hok. specialize (Hfst Hok). discriminate.
Qed.

(** X20. The removal of a revoked key from the upstream never happens.
    Lines 222-228 make exactly one request, the GET of the key list, and
    change nothing else in the portal, whatever the answer is: when the
    answer lists the key, the shortened list is handed to
    [call_management_api] with the method PUT, which it does not support
    and answers without a request. *)
Theorem revoke_never_updates_the_upstream :
  forall (penv : PortalEnv) (api_key : string) (q : Portal),
    let run := remove_from_cliproxy penv api_key q in
    snd run = set_core (snd (tick (core q))) q
    /\ (key_list_answer_ok
          (upstream (net penv) (ticks (core q)) "GET"
             "/v0/management/api-keys" None) = true ->
        fst run = PRet tt).
Proof.
  intros penv api_key q. exact (remove_from_cliproxy_run penv api_key q).
Qed.

(** The portal after "alice" was given the first key of [two_key_pool], and
    an upstream whose key list holds that key. *)
Definition alice_record : json :=
  JObj [("email", JStr "alice"); ("name", JStr "Alice");
        ("api_keys", JArr [JStr "usr_pool_0001_aa"]);
        ("created_at", JStr "2025-01-01T00:00:00Z")].

Definition alice_user_keys : json :=
  JObj [("version", JStr "1.0");
        ("users", JObj [("alice", alice_record)]);
        ("keys",
         JObj [("usr_pool_0001_aa",
                JObj [("email", JStr "alice"); ("label", JStr "laptop");
                      ("created_at", JStr "2025-01-01T00:00:00Z")])])].

Definition alice_pool : json :=
  JObj [("version", JStr "1.0"); ("total", JNum 2);
        ("unused", JArr [JStr "usr_pool_0002_bb"]);
        ("assigned", JObj [("usr_pool_0001_aa", JStr "alice")])].

Definition alice_portal : Portal :=
  {| core := fresh_world;
     journal := [];
     key_pool_file := Present (Some alice_pool);
     user_keys_file := Present (Some alice_user_keys);
     cache_data := Some alice_user_keys;
     cache_loaded := true |}.

Definition versioned_portal : Portal :=
  {| core := fresh_world;
     journal := [];
     key_pool_file := Present (Some two_key_pool);
     user_keys_file := Missing;
     cache_data := Some (JObj [("version", JStr "1.0")]);
     cache_loaded := true |}.

Definition key_listing_env : PortalEnv :=
  {| net := {| upstream := fun _ _ _ _ =>
                 HttpResponse 200 ""
                   (inl (JObj [("api_keys",
                                JArr [JStr "usr_pool_0001_aa";
                                      JStr "usr_pool_0002_bb"])]));
               clock := fun n => 1700000000 + Z.of_nat n;
               strftime_day := fun _ => "2025-01-01" |};
     file_write := fun _ => Written;
     utcnow_isoformat := fun _ => "2025-01-02T00:00:00" |}.

Lemma assign_to_known_user_appends_witness :
  fst (assign_key_to_user key_listing_env "alice" "Someone else" "phone"
         alice_portal)
  = PRet (JStr "usr_pool_0002_bb", None)
  /\ cache_data
       (snd (assign_key_to_user key_listing_env "alice" "Someone else"
               "phone" alice_portal))
     = Some
         (JObj
            [("version", JStr "1.0");
             ("users",
              JObj [("alice",
                     JObj [("email", JStr "alice"); ("name", JStr "Alice");
                           ("api_keys",
                            JArr [JStr "usr_pool_0001_aa";
                                  JStr "usr_pool_0002_bb"]);
                           ("created_at", JStr "2025-01-01T00:00:00Z")])]);
             ("keys",
              JObj [("usr_pool_0001_aa",
                     JObj [("email", JStr "alice"); ("label", JStr "laptop");
                           ("created_at", JStr "2025-01-01T00:00:00Z")]);
                    ("usr_pool_0002_bb",
                     JObj [("email", JStr "alice"); ("label", JStr "phone");
                           ("created_at",
                            JStr "2025-01-02T00:00:00Z")])])]).
Proof.
  destruct (assign_to_known_user_appends key_listing_env "alice"
              "Someone else" "phone" alice_portal
              [("version", JStr "1.0"); ("total", JNum 2);
               ("unused", JArr [JStr "usr_pool_0002_bb"]);
               ("assigned", JObj [("usr_pool_0001_aa", JStr "alice")])]
              [("usr_pool_0001_aa", JStr "alice")]
              [("version", JStr "1.0");
               ("users", JObj [("alice", alice_record)]);
               ("keys",
                JObj [("usr_pool_0001_aa",
                       JObj [("email", JStr "alice"); ("label", JStr "laptop");
                             ("created_at", JStr "2025-01-01T00:00:00Z")])])]
              [("alice", alice_record)]
              [("usr_pool_0001_aa",
                JObj [("email", JStr "alice"); ("label", JStr "laptop");
                      ("created_at", JStr "2025-01-01T00:00:00Z")])]
              [("email", JStr "alice"); ("name", JStr "Alice");
               ("api_keys", JArr [JStr "usr_pool_0001_aa"]);
               ("created_at", JStr "2025-01-01T00:00:00Z")]
              "usr_pool_0002_bb" [] [JStr "usr_pool_0001_aa"]
              eq_refl eq_refl eq_refl eq_refl eq_refl eq_refl eq_refl eq_refl
              eq_refl)
    as (Hret & Hcache & _).
  split; [exact Hret|exact Hcache].
Defined.

Lemma assign_consumes_the_key_before_the_user_data_fails_witness :
  fst (assign_key_to_user exporting_env "alice" "" "" versioned_portal)
  = PRaise KeyError
  /\ key_pool_file
       (snd (assign_key_to_user exporting_env "alice" "" "" versioned_portal))
     = Present
         (Some
            (JObj [("version", JStr "1.0"); ("total", JNum 2);
                   ("unused", JArr [JStr "usr_pool_0002_bb"]);
                   ("assigned",
                    JObj [("usr_pool_0001_aa", JStr "alice")])])).
Proof.
  assert (Hnonempty : [("version", JStr "1.0")] <> @nil (string * json))
    by discriminate.
  destruct (assign_consumes_the_key_before_the_user_data_fails exporting_env
              "alice" "" "" versioned_portal
              [("version", JStr "1.0"); ("total", JNum 2);
               ("unused",
                JArr [JStr "usr_pool_0001_aa"; JStr "usr_pool_0002_bb"]);
               ("assigned", JObj [])]
              [] [("version", JStr "1.0")]
              "usr_pool_0001_aa" [JStr "usr_pool_0002_bb"]
              eq_refl eq_refl eq_refl eq_refl eq_refl Hnonempty eq_refl)
    as (Hret & Hpool & _).
  split; [exact Hret|exact Hpool].
Defined.

Lemma revoke_unknown_key_changes_nothing_witness :
  revoke_key exporting_env "usr_pool_0002_bb" alice_portal
  = (PRet (false, Some "Key not found"), alice_portal).
Proof.
  apply (revoke_unknown_key_changes_nothing exporting_env "usr_pool_0002_bb"
           alice_portal
           [("version", JStr "1.0");
            ("users", JObj [("alice", alice_record)]);
            ("keys",
             JObj [("usr_pool_0001_aa",
                    JObj [("email", JStr "alice"); ("label", JStr "laptop");
                          ("created_at", JStr "2025-01-01T00:00:00Z")])])]
           [("usr_pool_0001_aa",
             JObj [("email", JStr "alice"); ("label", JStr "laptop");
                   ("created_at", JStr "2025-01-01T00:00:00Z")])]);
    reflexivity.
Defined.

Lemma revoke_returns_the_key_to_the_back_of_the_pool_witness :
  fst (revoke_key key_listing_env "usr_pool_0001_aa" alice_portal)
  = PRet (true, None)
  /\ key_pool_file
       (snd (revoke_key key_listing_env "usr_pool_0001_aa" alice_portal))
     = Present
         (Some
            (JObj [("version", JStr "1.0"); ("total", JNum 2);
                   ("unused",
                    JArr [JStr "usr_pool_0002_bb"; JStr "usr_pool_0001_aa"]);
                   ("assigned", JObj [])]))
  /\ ticks (core (snd (revoke_key key_listing_env "usr_pool_0001_aa"
                         alice_portal)))
     = 3%nat.
Proof.
  destruct (revoke_returns_the_key_to_the_back_of_the_pool key_listing_env
              "usr_pool_0001_aa" "alice" alice_portal
              [("version", JStr "1.0");
               ("users", JObj [("alice", alice_record)]);
               ("keys",
                JObj [("usr_pool_0001_aa",
                       JObj [("email", JStr "alice"); ("label", JStr "laptop");
                             ("created_at", JStr "2025-01-01T00:00:00Z")])])]
              [("usr_pool_0001_aa",
                JObj [("email", JStr "alice"); ("label", JStr "laptop");
                      ("created_at", JStr "2025-01-01T00:00:00Z")])]
              [("email", JStr "alice"); ("label", JStr "laptop");
               ("created_at", JStr "2025-01-01T00:00:00Z")]
              [("alice", alice_record)]
              [("email", JStr "alice"); ("name", JStr "Alice");
               ("api_keys", JArr [JStr "usr_pool_0001_aa"]);
               ("created_at", JStr "2025-01-01T00:00:00Z")]
              [("version", JStr "1.0"); ("total", JNum 2);
               ("unused", JArr [JStr "usr_pool_0002_bb"]);
               ("assigned", JObj [("usr_pool_0001_aa", JStr "alice")])]
              [("usr_pool_0001_aa", JStr "alice")]
              [JStr "usr_pool_0001_aa"] [] [JStr "usr_pool_0002_bb"]
              eq_refl eq_refl eq_refl eq_refl eq_refl eq_refl eq_refl eq_refl
              eq_refl eq_refl eq_refl eq_refl)
    as (_ & _ & Hpool & Hticks & Hret).
  split; [exact (Hret eq_refl)|]. split; [exact Hpool|exact Hticks].
Defined.

Lemma revoke_never_updates_the_upstream_witness :
  remove_from_cliproxy key_listing_env "usr_pool_0001_aa" alice_portal
  = (PRet tt, set_core (snd (tick (core alice_portal))) alice_portal).
Proof.
  destruct (revoke_never_updates_the_upstream key_listing_env
              "usr_pool_0001_aa" alice_portal) as [Hsnd Hfst].
  specialize (Hfst eq_refl).
  destruct (remove_from_cliproxy key_listing_env "usr_pool_0001_aa"
              alice_portal) as [o q].
  cbn [fst snd] in Hsnd, Hfst. subst o q. reflexivity.
Defined.

(** ** The cache of the user database and the pool file *)

(** The values that [len] accepts. *)
Definition has_len (v : json) : bool :=
  match v with
  | JStr _ | JArr _ | JObj _ => true
  | _ => false
  end.

(** The documents that [load_user_keys] accepts from the file: a dict whose
    "users" and "keys" members are absent or have a length. *)
Definition loadable (doc : json) : bool :=
  match doc with
  | JObj members =>
      has_len (member "users" (JObj []) members)
      && has_len (member "keys" (JObj []) members)
  | _ => false
  end.

(** The cached database, when line 89 finds it: the cache is loaded and
    its data is not false. *)
Definition cache_hit (p : Portal) : option json :=
  if cache_loaded p then
    match cache_data p with
    | Some d => if py_truthy d then Some d else None
    | None => None
    end
  else None.

(** X21. [load_user_keys] never raises and never writes a file.  It
    returns the cached database when the cache is loaded and not false
    (then nothing changes at all); otherwise the document of the file when
    that is a dict whose "users" and "keys" have a length; otherwise the
    empty structure of line 104.  In every case the cache ends up loaded and
    holding the very value that is returned. *)
Theorem load_user_keys_fills_the_cache :
  forall (p : Portal),
    let run := load_user_keys p in
    let result :=
      match cache_hit p with
      | Some d => d
      | None =>
          match user_keys_file p with
          | Present (Some doc) => if loadable doc then doc else default_user_keys
          | _ => default_user_keys
          end
      end in
    fst run = PRet result
    /\ (cache_hit p <> None -> snd run = p)
    /\ cache_data (snd run) = Some result
    /\ cache_loaded (snd run) = true
    /\ core (snd run) = core p
    /\ user_keys_file (snd run) = user_keys_file p
    /\ key_pool_file (snd run) = key_pool_file p.
Proof.
  intros p. cbn zeta. unfold cache_hit, loadable.
  destruct p as [w j pool_file keys_file data loaded].
  unfold load_user_keys, pbind, get_cache, read_file, ptry, put_cache_data,
    put_cache_loaded, set_cache, pget, plen, lift, jprint, pret, praise,
    set_core.
  cbn -[py_get py_truthy member has_len].
  destruct loaded; [destruct data as [d|]; [destruct (py_truthy d) eqn:Ht|]|].
  1: { cbn. repeat split; reflexivity. }
  all: destruct keys_file as [|[doc|]];
    cbn -[py_get py_truthy member has_len];
    try (repeat split; try reflexivity; intros H; contradiction).
  all: rewrite py_get_eq; destruct doc;
    cbn -[py_get py_truthy member has_len];
    try (repeat split; try reflexivity; intros H; contradiction).
  all: destruct (member "users" (JObj []) members);
    cbn -[py_get py_truthy member has_len];
    try (repeat split; try reflexivity; intros H; contradiction).
  all: rewrite py_get_eq;
    destruct (member "keys" (JObj []) members);
    cbn -[py_get py_truthy member has_len];
    repeat split; try reflexivity; intros H; contradiction.
Qed.

(** X22. [save_key_pool] followed by [load_key_pool]: when the write
    succeeds, [save_key_pool] returns [True] and the next load returns the
    saved data; when the file cannot be opened it returns [False] and the
    file is as before; when the write breaks off after the file was
    truncated it returns [False] and the next load gives the empty pool of
    line 132. *)
Theorem key_pool_save_then_load :
  forall (penv : PortalEnv) (data : json) (p : Portal),
    let saved := snd (save_key_pool penv data p) in
    match file_write penv (ticks (core p)) with
    | Written =>
        fst (save_key_pool penv data p) = PRet true
        /\ fst (load_key_pool saved) = PRet data
    | WriteRefused =>
        fst (save_key_pool penv data p) = PRet false
        /\ key_pool_file saved = key_pool_file p
    | WriteTorn =>
        fst (save_key_pool penv data p) = PRet false
        /\ fst (load_key_pool saved) = PRet default_key_pool
    end.
Proof.
  intros penv data p. cbn zeta.
  destruct (save_key_pool_run penv data p) as [lines Hsave].
  rewrite Hsave.
  destruct (file_write penv (ticks (core p))); cbn; split; reflexivity.
Qed.

(** ** The attribution of keys to users: [build_key_to_user_mapping] *)

(** Lines 143-146 of usage_sync.py: the loop over the items of the key
    index, with the dict built so far. *)
Fixpoint map_keys (items key_to_user : list (string * json))
  : M (list (string * json)) :=
  match items with
  | [] => ret key_to_user
  | (api_key, key_data) :: rest =>
      email <- py_get key_data "email" (JStr "") ;;
      map_keys rest
        (if py_truthy email then dict_set api_key email key_to_user
         else key_to_user)
  end.

(** [keys_info.items()] exists on a dict only. *)
Definition build_key_to_user_mapping (user_keys_data : json) : M json :=
  keys_info <- py_get user_keys_data "keys" (JObj []) ;;
  match keys_info with
  | JObj items =>
      key_to_user <- map_keys items [] ;;
      ret (JObj key_to_user)
  | _ => raise AttributeError
  end.

(** The user that a record of the key index names: its "email", when the
    record is a dict and the email is not false. *)
Definition owner_of (key_data : json) : option json :=
  match key_data with
  | JObj record =>
      let email := member "email" (JStr "") record in
      if py_truthy email then Some email else None
  | _ => None
  end.

Definition records_are_dicts (keys : list (string * json)) : bool :=
  forallb (fun item => is_object (snd item)) keys.

Lemma assoc_not_in (key : string) (members : list (string * json)) :
  ~ In key (map fst members) -> assoc key members = None.
Proof.
  induction members as [|[k v] rest IH]; cbn; [reflexivity|].
  intros Hnot. destruct (String.eqb_spec k key) as [->|Hne].
  - exfalso. apply Hnot. now left.
  - apply IH. intros Hin. apply Hnot. now right.
Qed.

Lemma map_keys_run (items : list (string * json)) :
  forall (acc : list (string * json)) (w : World),
    records_are_dicts items = true ->
    NoDup (map fst items) ->
    exists m,
      map_keys items acc w = (Ret m, w)
      /\ forall k,
           assoc k m
           = match assoc k items with
             | Some key_data =>
                 match owner_of key_data with
                 | Some email => Some email
                 | None => assoc k acc
                 end
             | None => assoc k acc
             end.
Proof.
  induction items as [|[k0 kd] rest IH]; intros acc w Hdicts Hnodup.
  - exists acc. split; [reflexivity|]. intros k. reflexivity.
  - cbn in Hdicts. apply andb_prop in Hdicts as [Hkd Hrest].
    cbn [map fst] in Hnodup.
    apply NoDup_cons_iff in Hnodup as [Hnot Hnodup'].
    destruct kd as [| | | | |record]; try discriminate Hkd.
    cbn [map_keys]. unfold bind. rewrite py_get_eq.
    destruct (IH (if py_truthy (member "email" (JStr "") record)
                  then dict_set k0 (member "email" (JStr "") record) acc
                  else acc) w Hrest Hnodup') as (m & Hm & Hlookup).
    exists m. split; [exact Hm|].
    intros k. rewrite Hlookup. cbn [assoc].
    destruct (String.eqb_spec k0 k) as [Heq|Hne].
    + subst k. rewrite (assoc_not_in _ _ Hnot). cbn [owner_of]. cbn zeta.
      destruct (py_truthy (member "email" (JStr "") record));
        [apply assoc_dict_set_same|reflexivity].
    + destruct (py_truthy (member "email" (JStr "") record));
        [|reflexivity].
      rewrite (assoc_dict_set_other k k0)
        by (apply String.eqb_neq; exact Hne).
      reflexivity.
Qed.

Lemma map_keys_fails (items : list (string * json)) :
  forall (acc : list (string * json)) (w : World),
    records_are_dicts items = false ->
    map_keys items acc w = (Raise AttributeError, w).
Proof.
  induction items as [|[k0 kd] rest IH]; intros acc w Hdicts;
    [discriminate|].
  cbn in Hdicts. cbn [map_keys]. unfold bind. rewrite py_get_eq.
  destruct kd; try reflexivity.
  cbn in Hdicts. apply IH. exact Hdicts.
Qed.

(** X23. [build_key_to_user_mapping] on a database whose key index is the
    dict [keys] (or is absent, [keys] being empty then): when every record
    of the index is a dict, the function returns a dict that maps exactly
    the keys whose record has an "email" that is not false, each to that
    email; when one record is not a dict it raises [AttributeError].  The
    world is not touched. *)
Theorem mapping_lists_the_keys_with_an_owner :
  forall (data keys : list (string * json)) (w : World),
    member "keys" (JObj []) data = JObj keys ->
    NoDup (map fst keys) ->
    if records_are_dicts keys then
      exists m,
        build_key_to_user_mapping (JObj data) w = (Ret (JObj m), w)
        /\ forall k,
             assoc k m
             = match assoc k keys with
               | Some key_data => owner_of key_data
               | None => None
               end
    else build_key_to_user_mapping (JObj data) w = (Raise AttributeError, w).
Proof.
  intros data keys w Hkeys Hnodup.
  unfold build_key_to_user_mapping, bind. rewrite py_get_eq, Hkeys.
  destruct (records_are_dicts keys) eqn:Hdicts.
  - destruct (map_keys_run keys [] w Hdicts Hnodup) as (m & Hm & Hlookup).
    exists m. rewrite Hm. split; [reflexivity|].
    intros k. rewrite Hlookup. cbn.
    destruct (assoc k keys) as [kd|]; [|reflexivity].
    destruct (owner_of kd); reflexivity.
  - rewrite (map_keys_fails keys [] w Hdicts). reflexivity.
Qed.

Lemma member_of_assoc (key : string) (default v : json)
  (members : list (string * json)) :
  assoc key members = Some v -> member key default members = v.
Proof. unfold member. now intros ->. Qed.

Lemma in_keys_dict_set (key k : string) (v : json)
  (members : list (string * json)) :
  In k (map fst (dict_set key v members)) ->
  k = key \/ In k (map fst members).
Proof.
  induction members as [|[k0 x] rest IH]; cbn.
  - intros [H|[]]. now left.
  - destruct (String.eqb_spec k0 key) as [->|Hne]; cbn.
    + intros [H|H]; [right; now left|right; now right].
    + intros [H|H]; [right; now left|].
      destruct (IH H) as [Heq|Hin]; [now left|right; now right].
Qed.

Lemma nodup_dict_set (key : string) (v : json)
  (members : list (string * json)) :
  NoDup (map fst members) -> NoDup (map fst (dict_set key v members)).
Proof.
  induction members as [|[k0 x] rest IH]; cbn; intros Hnodup.
  - constructor; [intros []|constructor].
  - destruct (String.eqb_spec k0 key) as [->|Hne]; cbn; [exact Hnodup|].
    apply NoDup_cons_iff in Hnodup as [Hnot Hrest].
    constructor; [|apply IH; exact Hrest].
    intros Hin. destruct (in_keys_dict_set _ _ _ _ Hin) as [Heq|Hin'].
    + apply Hne. exact Heq.
    + apply Hnot. exact Hin'.
Qed.

Lemma records_dict_set (key : string) (v : json)
  (members : list (string * json)) :
  is_object v = true ->
  records_are_dicts members = true ->
  records_are_dicts (dict_set key v members) = true.
Proof.
  intros Hv. induction members as [|[k0 x] rest IH]; cbn.
  - intros _. rewrite Hv. reflexivity.
  - intros H. apply andb_prop in H as [Hx Hrest].
    destruct (String.eqb k0 key); cbn.
    + rewrite Hv, Hrest. reflexivity.
    + rewrite Hx. apply IH. exact Hrest.
Qed.

Lemma in_keys_dict_del (key k : string) (members : list (string * json)) :
  In k (map fst (dict_del key members)) -> In k (map fst members).
Proof.
  induction members as [|[k0 x] rest IH]; cbn; [tauto|].
  destruct (String.eqb k0 key); cbn; [tauto|].
  intros [H|H]; [now left|right; apply IH; exact H].
Qed.

Lemma nodup_dict_del (key : string) (members : list (string * json)) :
  NoDup (map fst members) -> NoDup (map fst (dict_del key members)).
Proof.
  induction members as [|[k0 x] rest IH]; cbn; intros Hnodup;
    [constructor|].
  apply NoDup_cons_iff in Hnodup as [Hnot Hrest].
  destruct (String.eqb k0 key); cbn; [exact Hrest|].
  constructor; [|apply IH; exact Hrest].
  intros Hin. apply Hnot. apply (in_keys_dict_del _ _ _ Hin).
Qed.

Lemma records_dict_del (key : string) (members : list (string * json)) :
  records_are_dicts members = true ->
  records_are_dicts (dict_del key members) = true.
Proof.
  induction members as [|[k0 x] rest IH]; cbn; [reflexivity|].
  intros H. apply andb_prop in H as [Hx Hrest].
  destruct (String.eqb k0 key); cbn; [exact Hrest|].
  rewrite Hx. apply IH. exact Hrest.
Qed.

Lemma assoc_dict_del_same (key : string) (members : list (string * json)) :
  NoDup (map fst members) -> assoc key (dict_del key members) = None.
Proof.
  induction members as [|[k0 x] rest IH]; cbn; intros Hnodup;
    [reflexivity|].
  apply NoDup_cons_iff in Hnodup as [Hnot Hrest].
  destruct (String.eqb_spec k0 key) as [->|Hne].
  - apply assoc_not_in. exact Hnot.
  - cbn. destruct (String.eqb_spec k0 key); [contradiction|].
    apply IH. exact Hrest.
Qed.

Lemma dict_del_set_fresh (key : string) (v : json)
  (members : list (string * json)) :
  assoc key members = None -> dict_del key (dict_set key v members) = members.
Proof.
  induction members as [|[k0 x] rest IH]; cbn.
  - intros _. rewrite String.eqb_refl. reflexivity.
  - destruct (String.eqb k0 key) eqn:E; [discriminate|].
    intros H. cbn. rewrite E, (IH H). reflexivity.
Qed.

Lemma dict_set_truthy (key : string) (v : json)
  (members : list (string * json)) :
  py_truthy (JObj (dict_set key v members)) = true.
Proof.
  destruct members as [|[k0 x] rest]; cbn; [reflexivity|].
  destruct (String.eqb k0 key); reflexivity.
Qed.

Lemma dict_set_comm (k1 k2 : string) (a b v : json)
  (members : list (string * json)) :
  String.eqb k1 k2 = false ->
  assoc k1 members = Some v ->
  dict_set k1 a (dict_set k2 b members)
  = dict_set k2 b (dict_set k1 a members).
Proof.
  intros Hne. induction members as [|[k0 x] rest IH]; cbn; [discriminate|].
  destruct (String.eqb k0 k1) eqn:E1.
  - intros _. apply String.eqb_eq in E1. subst k0. rewrite Hne. cbn.
    rewrite String.eqb_refl, Hne. reflexivity.
  - intros Hin. destruct (String.eqb k0 k2) eqn:E2; cbn; rewrite E1, ?E2.
    + reflexivity.
    + rewrite (IH Hin). reflexivity.
Qed.

(** The mapping that [build_key_to_user_mapping] gives for a key index. *)
Definition owner_in (keys : list (string * json)) (k : string)
  : option json :=
  match assoc k keys with
  | Some key_data => owner_of key_data
  | None => None
  end.

(** The mapping of a database that has a well-formed key index. *)
Lemma mapping_of_index (data keys : list (string * json)) (w : World) :
  assoc "keys" data = Some (JObj keys) ->
  NoDup (map fst keys) ->
  records_are_dicts keys = true ->
  exists m,
    build_key_to_user_mapping (JObj data) w = (Ret (JObj m), w)
    /\ forall k, assoc k m = owner_in keys k.
Proof.
  intros Hkeys Hnodup Hdicts.
  unfold build_key_to_user_mapping, bind.
  rewrite py_get_eq, (member_of_assoc _ _ _ _ Hkeys).
  destruct (map_keys_run keys [] w Hdicts Hnodup) as (m & Hm & Hlookup).
  exists m. rewrite Hm. split; [reflexivity|].
  intros k. rewrite Hlookup. unfold owner_in. cbn.
  destruct (assoc k keys) as [kd|]; [|reflexivity].
  destruct (owner_of kd); reflexivity.
Qed.

(** X24. After [assign_key_to_user] gave the key [k] to a new user with a
    non-empty [email], the usage sync (lines 629-630: [load_user_keys], then
    [build_key_to_user_mapping]) finds the database in the cache and maps
    [k] to [email]; every other key is mapped as the index held it
    before. *)
Theorem assigned_key_is_attributed_to_the_user :
  forall (penv : PortalEnv) (email name label : string) (p : Portal)
         (pool assigned data users keys : list (string * json))
         (k : string) (rest : list json) (w : World),
    key_pool_file p = Present (Some (JObj pool)) ->
    assoc "unused" pool = Some (JArr (JStr k :: rest)) ->
    assoc "assigned" pool = Some (JObj assigned) ->
    cache_loaded p = true ->
    cache_data p = Some (JObj data) ->
    assoc "users" data = Some (JObj users) ->
    assoc "keys" data = Some (JObj keys) ->
    assoc email users = None ->
    NoDup (map fst keys) ->
    records_are_dicts keys = true ->
    email <> "" ->
    let after := snd (assign_key_to_user penv email name label p) in
    exists user_keys_data m,
      load_user_keys after = (PRet user_keys_data, after)
      /\ build_key_to_user_mapping user_keys_data w = (Ret (JObj m), w)
      /\ assoc k m = Some (JStr email)
      /\ forall k', k' <> k -> assoc k' m = owner_in keys k'.
Proof.
  intros penv email name label p pool assigned data users keys k rest w
    Hfile Hunused Hassigned Hloaded Hdata Husers Hkeys Hnew Hnodup Hdicts
    Hemail after.
  pose proof (assign_new_user_run penv email name label p pool assigned data
                users keys k rest Hfile Hunused Hassigned Hloaded Hdata
                Husers Hkeys Hnew) as Hrun.
  cbn zeta in Hrun. destruct Hrun as [lines Hrun].
  subst after. rewrite Hrun. cbn [snd].
  set (key := key_record email label
                (utcnow_isoformat penv (S (S (ticks (core p)))) ++ "Z")).
  set (user := new_user_record email name
                 (utcnow_isoformat penv (S (ticks (core p))) ++ "Z")
                 [JStr k]).
  set (data' := dict_set "keys" (JObj (dict_set k key keys))
                  (dict_set "users" (JObj (dict_set email user users)) data)).
  destruct (mapping_of_index data' (dict_set k key keys) w)
    as (m & Hm & Hlookup).
  - apply assoc_dict_set_same.
  - apply nodup_dict_set. exact Hnodup.
  - apply records_dict_set; [reflexivity|exact Hdicts].
  - exists (JObj data'), m. split; [|split; [exact Hm|split]].
    + apply load_user_keys_cached;
        [reflexivity|reflexivity|apply dict_set_truthy].
    + rewrite Hlookup. unfold owner_in. rewrite assoc_dict_set_same.
      cbn. destruct (String.eqb_spec email ""); [contradiction|reflexivity].
    + intros k' Hne. rewrite Hlookup. unfold owner_in.
      rewrite (assoc_dict_set_other k' k)
        by (apply String.eqb_neq; congruence).
      reflexivity.
Qed.

(** What [revoke_key] leaves behind, whatever the upstream answers. *)
Lemma revoke_state :
  forall (penv : PortalEnv) (api_key e : string) (p : Portal)
         (data keys info users entry pool assigned : list (string * json))
         (owned owned' unused : list json),
    cache_loaded p = true ->
    cache_data p = Some (JObj data) ->
    assoc "keys" data = Some (JObj keys) ->
    assoc api_key keys = Some (JObj info) ->
    assoc "email" info = Some (JStr e) ->
    assoc "users" data = Some (JObj users) ->
    assoc e users = Some (JObj entry) ->
    assoc "api_keys" entry = Some (JArr owned) ->
    list_remove api_key owned = Some owned' ->
    key_pool_file p = Present (Some (JObj pool)) ->
    assoc "unused" pool = Some (JArr unused) ->
    assoc "assigned" pool = Some (JObj assigned) ->
    let t := ticks (core p) in
    let after := snd (revoke_key penv api_key p) in
    let user := JObj (dict_set "api_keys" (JArr owned') entry) in
    let data' :=
      JObj (dict_set "keys" (JObj (dict_del api_key keys))
              (dict_set "users" (JObj (dict_set e user users)) data)) in
    let pool' :=
      JObj (dict_set "assigned" (JObj (dict_del api_key assigned))
              (dict_set "unused" (JArr (unused ++ [JStr api_key])) pool)) in
    cache_data after = Some data'
    /\ cache_loaded after = true
    /\ user_keys_file after
       = after_write (file_write penv t) (user_keys_file p) data'
    /\ key_pool_file after
       = after_write (file_write penv (S t)) (key_pool_file p) pool'.
Proof.
  intros penv api_key e p data keys info users entry pool assigned
    owned owned' unused Hloaded Hdata Hkeys Hinfo Hemail Husers Hentry
    Howned Hremove Hfile Hunused Hassigned t after user data' pool'.
  pose proof (revoke_run penv api_key e p data keys info users entry pool
                assigned owned owned' unused Hloaded Hdata Hkeys Hinfo
                Hemail Husers Hentry Howned Hremove Hfile Hunused Hassigned)
    as Hrun.
  cbn zeta in Hrun. fold t in Hrun.
  destruct Hrun as (lines & q & Hrun & Hq).
  destruct (remove_from_cliproxy_run penv api_key q) as [Hsnd _].
  subst after. rewrite Hrun. unfold pbind.
  destruct (remove_from_cliproxy penv api_key q) as [[u|ex|] q'];
    cbn [fst snd] in Hsnd; subst q'; subst q; cbn;
    repeat split; reflexivity.
Qed.

(** X25. After [revoke_key] took the key [api_key] from its user, whatever
    the upstream answered, the usage sync (lines 629-630) finds the database
    in the cache and its mapping has no entry for [api_key]; every other key
    is mapped as before. *)
Theorem revoked_key_is_attributed_to_nobody :
  forall (penv : PortalEnv) (api_key e : string) (p : Portal)
         (data keys info users entry pool assigned : list (string * json))
         (owned owned' unused : list json) (w : World),
    cache_loaded p = true ->
    cache_data p = Some (JObj data) ->
    assoc "keys" data = Some (JObj keys) ->
    assoc api_key keys = Some (JObj info) ->
    assoc "email" info = Some (JStr e) ->
    assoc "users" data = Some (JObj users) ->
    assoc e users = Some (JObj entry) ->
    assoc "api_keys" entry = Some (JArr owned) ->
    list_remove api_key owned = Some owned' ->
    key_pool_file p = Present (Some (JObj pool)) ->
    assoc "unused" pool = Some (JArr unused) ->
    assoc "assigned" pool = Some (JObj assigned) ->
    NoDup (map fst keys) ->
    records_are_dicts keys = true ->
    let after := snd (revoke_key penv api_key p) in
    exists user_keys_data m,
      load_user_keys after = (PRet user_keys_data, after)
      /\ build_key_to_user_mapping user_keys_data w = (Ret (JObj m), w)
      /\ assoc api_key m = None
      /\ forall k', k' <> api_key -> assoc k' m = owner_in keys k'.
Proof.
  intros penv api_key e p data keys info users entry pool assigned
    owned owned' unused w Hloaded Hdata Hkeys Hinfo Hemail Husers Hentry
    Howned Hremove Hfile Hunused Hassigned Hnodup Hdicts after.
  pose proof (revoke_state penv api_key e p data keys info users entry pool
                assigned owned owned' unused Hloaded Hdata Hkeys Hinfo
                Hemail Husers Hentry Howned Hremove Hfile Hunused Hassigned)
    as Hstate.
  cbn zeta in Hstate. fold after in Hstate.
  destruct Hstate as (Hcache & Hloaded' & _ & _).
  set (user := JObj (dict_set "api_keys" (JArr owned') entry)) in *.
  set (data' := dict_set "keys" (JObj (dict_del api_key keys))
                  (dict_set "users" (JObj (dict_set e user users)) data))
    in *.
  destruct (mapping_of_index data' (dict_del api_key keys) w)
    as (m & Hm & Hlookup).
  - apply assoc_dict_set_same.
  - apply nodup_dict_del. exact Hnodup.
  - apply records_dict_del. exact Hdicts.
  - exists (JObj data'), m. split; [|split; [exact Hm|split]].
    + apply load_user_keys_cached;
        [exact Hloaded'|exact Hcache|apply dict_set_truthy].
    + rewrite Hlookup. unfold owner_in.
      rewrite (assoc_dict_del_same _ _ Hnodup). reflexivity.
    + intros k' Hne. rewrite Hlookup. unfold owner_in.
      rewrite (assoc_dict_del_other k' api_key)
        by (apply String.eqb_neq; congruence).
      reflexivity.
Qed.

(** Two items of a dict that holds both, written twice: the second pair of
    writes wins. *)
Lemma dict_set_pair_twice (k1 k2 : string) (a a' b b' v1 v2 : json)
  (members : list (string * json)) :
  String.eqb k1 k2 = false ->
  String.eqb k2 k1 = false ->
  assoc k1 members = Some v1 ->
  assoc k2 members = Some v2 ->
  dict_set k1 a' (dict_set k2 b' (dict_set k1 a (dict_set k2 b members)))
  = dict_set k1 a' (dict_set k2 b' members).
Proof.
  intros H12 H21 H1 H2.
  rewrite (dict_set_comm k1 k2 a b v1 members H12 H1).
  rewrite dict_set_twice.
  rewrite (dict_set_comm k2 k1 b' a v2 members H21 H2).
  rewrite dict_set_twice. reflexivity.
Qed.

(** X26. [assign_key_to_user] for a new user followed by [revoke_key] of
    the key handed out, with a pool write that succeeded and a key [k] that
    neither the index nor "assigned" held: the database is the one before
    the assignment except that the user stays, with an empty "api_keys";
    the pool written is the one before the assignment except that [k] has
    moved from the front of "unused" to its back. *)
Theorem assign_then_revoke_rotates_the_pool :
  forall (penv : PortalEnv) (email name label : string) (p : Portal)
         (pool assigned data users keys : list (string * json))
         (k : string) (rest : list json),
    key_pool_file p = Present (Some (JObj pool)) ->
    assoc "unused" pool = Some (JArr (JStr k :: rest)) ->
    assoc "assigned" pool = Some (JObj assigned) ->
    cache_loaded p = true ->
    cache_data p = Some (JObj data) ->
    assoc "users" data = Some (JObj users) ->
    assoc "keys" data = Some (JObj keys) ->
    assoc email users = None ->
    assoc k keys = None ->
    assoc k assigned = None ->
    file_write penv (ticks (core p)) = Written ->
    let t := ticks (core p) in
    let assigned_to := snd (assign_key_to_user penv email name label p) in
    let after := snd (revoke_key penv k assigned_to) in
    let user :=
      new_user_record email name (utcnow_isoformat penv (S t) ++ "Z") [] in
    cache_data after
    = Some (JObj (dict_set "users" (JObj (dict_set email user users)) data))
    /\ key_pool_file after
       = after_write (file_write penv (S (S (S (S (S t))))))
           (key_pool_file assigned_to)
           (JObj (dict_set "unused" (JArr (rest ++ [JStr k])) pool)).
Proof.
  intros penv email name label p pool assigned data users keys k rest
    Hfile Hunused Hassigned Hloaded Hdata Husers Hkeys Hnew Hfresh
    Hunassigned Hwritten t assigned_to after user.
  pose proof (assign_new_user_run penv email name label p pool assigned data
                users keys k rest Hfile Hunused Hassigned Hloaded Hdata
                Husers Hkeys Hnew) as Hrun.
  cbn zeta in Hrun. destruct Hrun as [lines Hrun].
  rewrite Hwritten in Hrun. cbn [after_write] in Hrun. fold t in Hrun.
  assert (Hq : assigned_to = snd (assign_key_to_user penv email name label p))
    by reflexivity.
  rewrite Hrun in Hq. cbn [snd] in Hq.
  set (created := (utcnow_isoformat penv (S t) ++ "Z")%string) in *.
  set (stamp := (utcnow_isoformat penv (S (S t)) ++ "Z")%string) in *.
  set (users' := dict_set email (new_user_record email name created [JStr k])
                   users) in *.
  set (keys' := dict_set k (key_record email label stamp) keys) in *.
  set (data' := dict_set "keys" (JObj keys')
                  (dict_set "users" (JObj users') data)) in *.
  set (assigned' := dict_set k (JStr email) assigned) in *.
  set (pool' := dict_set "assigned" (JObj assigned')
                  (dict_set "unused" (JArr rest) pool)) in *.
  pose proof (revoke_state penv k email assigned_to data' keys'
                [("email", JStr email); ("label", JStr (str_or label "默认"));
                 ("created_at", JStr stamp)]
                users'
                [("email", JStr email); ("name", JStr (str_or name email));
                 ("api_keys", JArr [JStr k]); ("created_at", JStr created)]
                pool' assigned' [JStr k] [] rest) as Hstate.
  cbn zeta in Hstate. fold after in Hstate.
  destruct Hstate as (Hcache & _ & _ & Hpool).
  - rewrite Hq. reflexivity.
  - rewrite Hq. reflexivity.
  - apply assoc_dict_set_same.
  - apply assoc_dict_set_same.
  - reflexivity.
  - unfold data'.
    rewrite (assoc_dict_set_other "users" "keys") by reflexivity.
    apply assoc_dict_set_same.
  - apply assoc_dict_set_same.
  - reflexivity.
  - cbn. rewrite String.eqb_refl. reflexivity.
  - rewrite Hq. reflexivity.
  - unfold pool'.
    rewrite (assoc_dict_set_other "unused" "assigned") by reflexivity.
    apply assoc_dict_set_same.
  - apply assoc_dict_set_same.
  - split.
    + rewrite Hcache. unfold data', keys', users'.
      rewrite (dict_del_set_fresh _ _ _ Hfresh), dict_set_twice.
      rewrite (dict_set_pair_twice "keys" "users" _ _ _ _ _ _ data
                 eq_refl eq_refl Hkeys Husers).
      rewrite (dict_set_unchanged "keys" (JObj keys)); [reflexivity|].
      rewrite (assoc_dict_set_other "keys" "users") by reflexivity.
      exact Hkeys.
    + rewrite Hpool. unfold pool', assigned'.
      rewrite (dict_del_set_fresh _ _ _ Hunassigned).
      rewrite (dict_set_pair_twice "assigned" "unused" _ _ _ _ _ _ pool
                 eq_refl eq_refl Hassigned Hunused).
      rewrite (dict_set_unchanged "assigned" (JObj assigned)).
      * rewrite Hq. reflexivity.
      * rewrite (assoc_dict_set_other "assigned" "unused") by reflexivity.
        exact Hassigned.
Qed.

(** ** Concrete runs *)

(** A key index with one owned key, one record without an email and one
    record with an empty email. *)
Definition mixed_index : list (string * json) :=
  [("usr_pool_0001_aa",
    JObj [("email", JStr "alice"); ("label", JStr "laptop")]);
   ("usr_pool_0002_bb", JObj [("label", JStr "orphan")]);
   ("usr_pool_0003_cc", JObj [("email", JStr "")])].

Lemma mixed_index_nodup : NoDup (map fst mixed_index).
Proof.
  repeat constructor; cbn; intuition discriminate.
Defined.

Lemma mapping_lists_the_keys_with_an_owner_witness :
  exists m,
    build_key_to_user_mapping
      (JObj [("version", JStr "1.0"); ("keys", JObj mixed_index)])
      fresh_world
    = (Ret (JObj m), fresh_world)
    /\ assoc "usr_pool_0001_aa" m = Some (JStr "alice")
    /\ assoc "usr_pool_0002_bb" m = None
    /\ assoc "usr_pool_0003_cc" m = None.
Proof.
  pose proof (mapping_lists_the_keys_with_an_owner
                [("version", JStr "1.0"); ("keys", JObj mixed_index)]
                mixed_index fresh_world eq_refl mixed_index_nodup) as H.
  change (records_are_dicts mixed_index) with true in H.
  destruct H as (m & Hm & Hlookup).
  exists m. split; [exact Hm|].
  rewrite !Hlookup. repeat split; reflexivity.
Defined.

Lemma assigned_key_is_attributed_to_the_user_witness :
  exists user_keys_data m,
    load_user_keys
      (snd (assign_key_to_user key_listing_env "alice" "" "" pool_portal))
    = (PRet user_keys_data,
       snd (assign_key_to_user key_listing_env "alice" "" "" pool_portal))
    /\ build_key_to_user_mapping user_keys_data fresh_world
       = (Ret (JObj m), fresh_world)
    /\ assoc "usr_pool_0001_aa" m = Some (JStr "alice").
Proof.
  destruct (assigned_key_is_attributed_to_the_user key_listing_env "alice"
              "" "" pool_portal
              [("version", JStr "1.0"); ("total", JNum 2);
               ("unused",
                JArr [JStr "usr_pool_0001_aa"; JStr "usr_pool_0002_bb"]);
               ("assigned", JObj [])]
              []
              [("version", JStr "1.0"); ("users", JObj []); ("keys", JObj [])]
              [] [] "usr_pool_0001_aa" [JStr "usr_pool_0002_bb"] fresh_world
              eq_refl eq_refl eq_refl eq_refl eq_refl eq_refl eq_refl eq_refl
              (NoDup_nil string) eq_refl
              (fun H : "alice" = "" => eq_ind "alice"
                 (fun s => match s with
                           | EmptyString => False
                           | String _ _ => True
                           end) I "" H))
    as (d & m & Hload & Hm & Hk & _).
  exists d, m. split; [exact Hload|]. split; [exact Hm|exact Hk].
Defined.

Lemma alice_index_nodup :
  NoDup (map fst
           [("usr_pool_0001_aa",
             JObj [("email", JStr "alice"); ("label", JStr "laptop");
                   ("created_at", JStr "2025-01-01T00:00:00Z")])]).
Proof.
  repeat constructor; cbn; intuition discriminate.
Defined.

Lemma revoked_key_is_attributed_to_nobody_witness :
  exists user_keys_data m,
    load_user_keys
      (snd (revoke_key key_listing_env "usr_pool_0001_aa" alice_portal))
    = (PRet user_keys_data,
       snd (revoke_key key_listing_env "usr_pool_0001_aa" alice_portal))
    /\ build_key_to_user_mapping user_keys_data fresh_world
       = (Ret (JObj m), fresh_world)
    /\ assoc "usr_pool_0001_aa" m = None.
Proof.
  destruct (revoked_key_is_attributed_to_nobody key_listing_env
              "usr_pool_0001_aa" "alice" alice_portal
              [("version", JStr "1.0");
               ("users", JObj [("alice", alice_record)]);
               ("keys",
                JObj [("usr_pool_0001_aa",
                       JObj [("email", JStr "alice"); ("label", JStr "laptop");
                             ("created_at", JStr "2025-01-01T00:00:00Z")])])]
              [("usr_pool_0001_aa",
                JObj [("email", JStr "alice"); ("label", JStr "laptop");
                      ("created_at", JStr "2025-01-01T00:00:00Z")])]
              [("email", JStr "alice"); ("label", JStr "laptop");
               ("created_at", JStr "2025-01-01T00:00:00Z")]
              [("alice", alice_record)]
              [("email", JStr "alice"); ("name", JStr "Alice");
               ("api_keys", JArr [JStr "usr_pool_0001_aa"]);
               ("created_at", JStr "2025-01-01T00:00:00Z")]
              [("version", JStr "1.0"); ("total", JNum 2);
               ("unused", JArr [JStr "usr_pool_0002_bb"]);
               ("assigned", JObj [("usr_pool_0001_aa", JStr "alice")])]
              [("usr_pool_0001_aa", JStr "alice")]
              [JStr "usr_pool_0001_aa"] [] [JStr "usr_pool_0002_bb"]
              fresh_world
              eq_refl eq_refl eq_refl eq_refl eq_refl eq_refl eq_refl eq_refl
              eq_refl eq_refl eq_refl eq_refl alice_index_nodup eq_refl)
    as (d & m & Hload & Hm & Hk & _).
  exists d, m. split; [exact Hload|]. split; [exact Hm|exact Hk].
Defined.

Lemma assign_then_revoke_rotates_the_pool_witness :
  key_pool_file
    (snd (revoke_key key_listing_env "usr_pool_0001_aa"
            (snd (assign_key_to_user key_listing_env "alice" "" ""
                    pool_portal))))
  = Present
      (Some
         (JObj [("version", JStr "1.0"); ("total", JNum 2);
                ("unused",
                 JArr [JStr "usr_pool_0002_bb"; JStr "usr_pool_0001_aa"]);
                ("assigned", JObj [])]))
  /\ cache_data
       (snd (revoke_key key_listing_env "usr_pool_0001_aa"
               (snd (assign_key_to_user key_listing_env "alice" "" ""
                       pool_portal))))
     = Some
         (JObj [("version", JStr "1.0");
                ("users",
                 JObj [("alice",
                        JObj [("email", JStr "alice"); ("name", JStr "alice");
                              ("api_keys", JArr []);
                              ("created_at",
                               JStr "2025-01-02T00:00:00Z")])]);
                ("keys", JObj [])]).
Proof.
  destruct (assign_then_revoke_rotates_the_pool key_listing_env "alice" ""
              "" pool_portal
              [("version", JStr "1.0"); ("total", JNum 2);
               ("unused",
                JArr [JStr "usr_pool_0001_aa"; JStr "usr_pool_0002_bb"]);
               ("assigned", JObj [])]
              []
              [("version", JStr "1.0"); ("users", JObj []); ("keys", JObj [])]
              [] [] "usr_pool_0001_aa" [JStr "usr_pool_0002_bb"]
              eq_refl eq_refl eq_refl eq_refl eq_refl eq_refl eq_refl eq_refl
              eq_refl eq_refl eq_refl)
    as (Hcache & Hpool).
  split; [rewrite Hpool|rewrite Hcache]; reflexivity.
Defined.
